(** * Panel-construction pipeline: a shallow embedding and its properties

    The development follows the Python sources of the capstone pipeline:

    - [code/merge_final_panel.py] and [Code/merge_final_panel_enhanced.py]
      (loading, frequency harmonisation, panel assembly),
    - [code/add_supplementary_variables.py] (derived variables),
    - [code/fetch_data.py] and [Code/fetch_bls_data.py] (credential handling
      of the fetch entry points).

    Data frames are lists of rows; a pandas [Series] is a list of
    (index label, value) pairs, so that index alignment on column
    assignment is explicit.  A float cell is an [option Q]: [None] is
    NaN/null, and arithmetic on the non-null cells is exact.  The raw-data
    directory is a finite map from file names to parsed tables.  Progress
    messages printed by the merge scripts are left out. *)

From Stdlib Require Import ZArith QArith String List Lia.
From stdpp Require Import base option list gmap strings sorting.

(** ** Timestamps, nulls and exceptions *)

(** A [pandas.Timestamp], counted in days since 1970-01-01. *)
Definition Timestamp : Type := Z.
Bind Scope Z_scope with Timestamp.

(** Calendar month (1..12) of a timestamp, as [Series.dt.month] reads it
    (proleptic Gregorian calendar, civil-from-days computation). *)
Definition month_of (d : Timestamp) : Z :=
  (let z := d + 719468 in
   let era := z / 146097 in
   let doe := z - era * 146097 in
   let yoe := (doe - doe / 1460 + doe / 36524 - doe / 146096) / 365 in
   let doy := doe - (365 * yoe + yoe / 4 - yoe / 100) in
   let mp := (5 * doy + 2) / 153 in
   if mp <? 10 then mp + 3 else mp - 9)%Z.

(** Comparisons of possibly-null timestamps: anything compared with NaT
    ([None]) is [False]. *)
Definition ts_lt (a b : option Timestamp) : bool :=
  match a, b with
  | Some x, Some y => bool_decide (x < y)%Z
  | _, _ => false
  end.

Definition ts_le (a b : option Timestamp) : bool :=
  match a, b with
  | Some x, Some y => bool_decide (x ≤ y)%Z
  | _, _ => false
  end.

(** Python's builtin [max(x, y, ...)]: keep the running maximum, replace it
    when a later item compares strictly greater. *)
Definition py_max (x : option Timestamp) (rest : list (option Timestamp))
  : option Timestamp :=
  foldl (λ m y, if ts_lt m y then y else m) x rest.

(** Python's builtin [min(x, y, ...)]. *)
Definition py_min (x : option Timestamp) (rest : list (option Timestamp))
  : option Timestamp :=
  foldl (λ m y, if ts_lt y m then y else m) x rest.

(** The exceptions the scripts raise or let through. *)
Inductive exn : Type :=
| FileNotFoundError (msg : string)
| KeyError (column : string)
| ValueError (msg : string).

Inductive result (A : Type) : Type :=
| Ok (a : A)
| Raise (e : exn).
Arguments Ok {A} a.
Arguments Raise {A} e.

#[global] Instance result_ret : MRet result := λ A a, Ok a.
#[global] Instance result_bind : MBind result := λ A B k m,
  match m with
  | Ok a => k a
  | Raise e => Raise e
  end.

(** Float subtraction with NaN propagation. *)
Definition osub (a b : option Q) : option Q :=
  match a, b with
  | Some x, Some y => Some (x - y)%Q
  | _, _ => None
  end.

(** ** The pandas operations the scripts use *)

(** A frame with its index labels, and a labelled column. *)
Abbreviation DataFrame R := (list (nat * R)) (only parsing).
Abbreviation Series A := (list (nat * option A)) (only parsing).

Module Pandas.

(** [sort_values]: rows ordered by a key comparison.  The model is an
    insertion sort, which keeps rows with equal keys in their relative
    order; pandas promises no order among equal keys for a single sort
    column, and no property below depends on it. *)
Section sorting.
Context {A : Type} (leb : A → A → bool).

Fixpoint insert_sorted (x : A) (l : list A) : list A :=
  match l with
  | [] => [x]
  | y :: l' => if leb x y then x :: y :: l' else y :: insert_sorted x l'
  end.

Definition sort_values (l : list A) : list A :=
  foldr insert_sorted [] l.
End sorting.

(** [DataFrame.merge]: for every left row in order, the matching right
    rows in order.  With [how='left'] an unmatched left row is kept once,
    its right-hand columns null. *)
Section merging.
Context {A B C K : Type} `{EqDecision K}.
Context (left_on : A → K) (right_on : B → K).

Definition matches (a : A) (right : list B) : list B :=
  filter (λ b, right_on b = left_on a) right.

Definition merge_inner (f : A → B → C) (left : list A) (right : list B)
  : list C :=
  left ≫= λ a, f a <$> matches a right.

Definition merge_left (f : A → option B → C) (left : list A)
    (right : list B) : list C :=
  left ≫= λ a,
    match matches a right with
    | [] => [f a None]
    | bs => (λ b, f a (Some b)) <$> bs
    end.
End merging.

(** [Series.min()] / [Series.max()] of a timestamp column: NaT when the
    column is empty. *)
Definition series_min (l : list Timestamp) : option Timestamp :=
  match l with
  | [] => None
  | x :: l' => Some (foldr Z.min x l')
  end.

Definition series_max (l : list Timestamp) : option Timestamp :=
  match l with
  | [] => None
  | x :: l' => Some (foldr Z.max x l')
  end.

(** A frame as [read_csv] or [merge] leaves it: a fresh RangeIndex. *)
Definition range_index {R} (rows : list R) : DataFrame R :=
  zip (seq 0 (length rows)) rows.

Definition column {R A} (f : R → option A) (df : DataFrame R) : Series A :=
  prod_map id f <$> df.

Definition index {A} (s : list (nat * A)) : list nat := s.*1.
Definition values {A} (s : Series A) : list (option A) := s.*2.

(** Label-based lookup; a label that is absent reads as null. *)
Fixpoint loc {A} (s : Series A) (i : nat) : option A :=
  match s with
  | [] => None
  | (j, v) :: s' => if decide (j = i) then v else loc s' i
  end.

(** [Series.shift(k)]: labels stay, values move down by [k] places. *)
Definition shift {A} (k : nat) (s : Series A) : Series A :=
  zip (index s) (replicate k None ++ take (length s - k) (values s)).

(** [Series.diff()]: each value minus the one on the row before. *)
Definition diff (s : Series Q) : Series Q :=
  zip (index s) (zip_with osub (values s) (values (shift 1 s))).

(** [a - b] on two series: aligned on the labels of [a]. *)
Definition series_sub (a b : Series Q) : Series Q :=
  (λ p, (p.1, osub p.2 (loc b p.1))) <$> a.

(** [groupby(key)[col]]: one sub-series per distinct key, keys sorted,
    rows of a group in frame order. *)
Definition group_keys (keys : list string) : list string :=
  sort_values String.leb (remove_dups keys).

Definition groupby {R A} (key : R → string) (f : R → option A)
    (df : DataFrame R) : list (string * Series A) :=
  (λ k, (k, column f (filter (λ p, key p.2 = k) df)))
    <$> group_keys ((key ∘ snd) <$> df).

(** [groupby(key)[col].shift(k)]: every group shifted on its own, the
    result carrying the frame's index. *)
Definition groupby_shift {R A} (key : R → string) (f : R → option A)
    (k : nat) (df : DataFrame R) : Series A :=
  let shifted := concat ((shift k ∘ snd) <$> groupby key f df) in
  (λ i, (i, loc shifted i)) <$> index df.

(** The square root of a rational, kept symbolic. *)
Inductive Root : Type := Sqrt (radicand : Q).

Definition mean (xs : list Q) : Q :=
  (foldr Qplus 0%Q xs / inject_Z (Z.of_nat (length xs)))%Q.

(** [std()] with pandas' default [ddof=1]: null unless there are at least
    two observations. *)
Definition std (xs : list Q) : option Root :=
  if decide (length xs ≤ 1) then None
  else
    let m := mean xs in
    let ss := foldr Qplus 0%Q ((λ x, (x - m) * (x - m))%Q <$> xs) in
    Some (Sqrt (Qred (ss / inject_Z (Z.of_nat (length xs - 1)))%Q)).

(** [rolling(window, min_periods).std()]: at place [t] the non-null
    observations among the last [window] rows up to [t]. *)
Definition rolling_std (window min_periods : nat) (s : Series Q)
  : Series Root :=
  imap (λ t p,
          let obs := omap id (drop (S t - window) (take (S t) (values s))) in
          (p.1, if decide (length obs < min_periods) then None
                else std obs)) s.

(** [groupby(key)[col].rolling(...).std()]: the groups' results one after
    the other, in key order. *)
Definition groupby_rolling_std {R} (key : R → string) (f : R → option Q)
    (window min_periods : nat) (df : DataFrame R) : Series Root :=
  concat ((rolling_std window min_periods ∘ snd) <$> groupby key f df).

(** [reset_index(drop=True)]: labels replaced by 0, 1, 2, ... *)
Definition reset_index_drop {A} (s : Series A) : Series A :=
  zip (seq 0 (length s)) (values s).

End Pandas.

(** ** Tables *)

(** A raw national series file: columns [date, value]. *)
Record NationalObs : Type := {
  n_date : Timestamp;
  n_value : option Q
}.

(** A raw state-scoped series file: columns [date, state, value]. *)
Record StateObs : Type := {
  s_date : Timestamp;
  s_state : string;
  s_value : option Q
}.

(** What [pd.read_csv] yields for a raw file. *)
Inductive Frame : Type :=
| National (rows : list NationalObs)
| StateLevel (rows : list StateObs).

(** A row of the assembled panel. *)
Record PanelRow : Type := {
  date : Timestamp;
  state : string;
  unemployment_rate : option Q;
  national_unemployment_rate : option Q;
  federal_funds_rate : option Q
}.

(** [panel.sort_values(['date', 'state'])]. *)
Definition date_state_leb (d1 : Timestamp) (s1 : string)
    (d2 : Timestamp) (s2 : string) : bool :=
  (d1 <? d2)%Z || ((d1 =? d2)%Z && String.leb s1 s2).

(** Reading a frame with the columns a call site asks for: a missing
    ['state'] column, or a ['state'] column that a merge on ['date'] alone
    would duplicate, ends in pandas' [KeyError]. *)
Definition national_frame (f : Frame) : result (list NationalObs) :=
  match f with
  | National rows => Ok rows
  | StateLevel _ => Raise (KeyError "state")
  end.

Definition state_frame (f : Frame) : result (list StateObs) :=
  match f with
  | StateLevel rows => Ok rows
  | National _ => Raise (KeyError "state")
  end.

(** [data[key]] on a Python dict. *)
Definition getitem (data : gmap string Frame) (key : string) : result Frame :=
  match data !! key with
  | Some f => Ok f
  | None => Raise (KeyError key)
  end.

(** ** code/merge_final_panel.py *)

Module MergeFinalPanel.

Definition files_to_load : list (string * string) :=
  [ ("federal_funds", "federal_funds_rate.csv");
    ("national_unemployment", "national_unemployment_rate.csv");
    ("state_unemployment", "state_unemployment_rates.csv") ].

(** One round of the loading loop; [raw] is the raw-data directory. *)
Definition load_file (raw : gmap string Frame)
    (acc : result (gmap string Frame)) (entry : string * string)
  : result (gmap string Frame) :=
  data ← acc;
  match raw !! entry.2 with
  | None =>
      Raise (FileNotFoundError ("Missing raw data file: " +:+ entry.2))
  | Some df => Ok (<[entry.1 := df]> data)
  end.

Definition load_raw_data (raw : gmap string Frame)
  : result (gmap string Frame) :=
  foldl (load_file raw) (Ok ∅) files_to_load.

Definition common_start (state_unemployment_df : list StateObs)
    (federal_funds_df national_unemployment_df : list NationalObs)
  : option Timestamp :=
  py_max (Pandas.series_min (s_date <$> state_unemployment_df))
    [ Pandas.series_min (n_date <$> federal_funds_df);
      Pandas.series_min (n_date <$> national_unemployment_df) ].

Definition common_end (state_unemployment_df : list StateObs)
    (federal_funds_df national_unemployment_df : list NationalObs)
  : option Timestamp :=
  py_min (Pandas.series_max (s_date <$> state_unemployment_df))
    [ Pandas.series_max (n_date <$> federal_funds_df);
      Pandas.series_max (n_date <$> national_unemployment_df) ].

Definition in_common_range (lo hi : option Timestamp) (d : Timestamp)
  : bool :=
  ts_le lo (Some d) && ts_le (Some d) hi.

Definition create_state_panel (state_unemployment_df : list StateObs)
    (federal_funds_df national_unemployment_df : list NationalObs)
  : list PanelRow :=
  let federal_funds_df :=
    Pandas.sort_values (λ a b, (n_date a <=? n_date b)%Z) federal_funds_df in
  let national_unemployment_df :=
    Pandas.sort_values (λ a b, (n_date a <=? n_date b)%Z)
      national_unemployment_df in
  let state_unemployment_df :=
    Pandas.sort_values (λ a b, (s_date a <=? s_date b)%Z)
      state_unemployment_df in
  let lo :=
    common_start state_unemployment_df federal_funds_df
      national_unemployment_df in
  let hi :=
    common_end state_unemployment_df federal_funds_df
      national_unemployment_df in
  let national_data :=
    Pandas.merge_inner n_date n_date (λ f n, (n_date f, n_value f, n_value n))
      federal_funds_df national_unemployment_df in
  let panel :=
    Pandas.merge_inner s_date (λ n : Timestamp * option Q * option Q, n.1.1)
      (λ s n, {| date := s_date s; state := s_state s;
                 unemployment_rate := s_value s;
                 national_unemployment_rate := n.2;
                 federal_funds_rate := n.1.2 |})
      state_unemployment_df national_data in
  let panel := filter (λ r, in_common_range lo hi (date r)) panel in
  Pandas.sort_values
    (λ a b, date_state_leb (date a) (state a) (date b) (state b)) panel.

(** What a run leaves behind: the CSV files written and the exit code. *)
Record Run : Type := {
  written : gmap string (list PanelRow);
  exit_code : Z
}.

Section main.
(** [generate_data_quality_report], which may raise; its text is not
    looked at. *)
Variable generate_data_quality_report : list PanelRow → result string.

Definition assemble (raw : gmap string Frame) : result (list PanelRow) :=
  data ← load_raw_data raw;
  su ← getitem data "state_unemployment" ≫= state_frame;
  ff ← getitem data "federal_funds" ≫= national_frame;
  nu ← getitem data "national_unemployment" ≫= national_frame;
  Ok (create_state_panel su ff nu).

Definition main (raw : gmap string Frame) : Run :=
  match assemble raw with
  | Raise _ => {| written := ∅; exit_code := 1 |}
  | Ok panel =>
      let files :=
        <["analysis_panel.csv" := panel]>
          (<["panel_processed.csv" := panel]> ∅) in
      match generate_data_quality_report panel with
      | Raise _ => {| written := files; exit_code := 1 |}
      | Ok _ => {| written := files; exit_code := 0 |}
      end
  end.
End main.

End MergeFinalPanel.

(** ** Code/merge_final_panel_enhanced.py *)

Module MergeFinalPanelEnhanced.

Definition core_files : list (string * string) :=
  [ ("federal_funds", "federal_funds_rate.csv");
    ("national_unemployment", "national_unemployment_rate.csv");
    ("state_unemployment", "state_unemployment_rates.csv") ].

Definition optional_files : list (string * string) :=
  [ ("inflation", "inflation_cpi.csv");
    ("recession", "recession_indicator.csv");
    ("treasury_10y", "treasury_10y_yield.csv");
    ("employment_level", "state_employment_level.csv");
    ("labor_force_level", "state_labor_force_level.csv");
    ("private_employment", "state_private_employment.csv") ].

Definition load_core (raw : gmap string Frame)
    (acc : result (gmap string Frame)) (entry : string * string)
  : result (gmap string Frame) :=
  data ← acc;
  match raw !! entry.2 with
  | None =>
      Raise (FileNotFoundError ("Missing core data file: " +:+ entry.2))
  | Some df => Ok (<[entry.1 := df]> data)
  end.

Definition load_optional (raw : gmap string Frame)
    (data : gmap string Frame) (entry : string * string)
  : gmap string Frame :=
  match raw !! entry.2 with
  | Some df => <[entry.1 := df]> data
  | None => data
  end.

Definition load_raw_data (raw : gmap string Frame)
  : result (gmap string Frame) :=
  data ← foldl (load_core raw) (Ok ∅) core_files;
  Ok (foldl (load_optional raw) data optional_files).

(** The dates of a frame, whatever its scope. *)
Definition frame_dates (f : Frame) : list Timestamp :=
  match f with
  | National rows => n_date <$> rows
  | StateLevel rows => s_date <$> rows
  end.

Section harmonize.
(** The pandas chain
    [df.set_index('date').asfreq('MS').interpolate(method='forward_fill')
       .reset_index()], left to the library. *)
Variable asfreq_interpolate : Frame → result Frame.

Definition harmonize_frequencies (data : gmap string Frame)
  : result (gmap string Frame) :=
  match data !! "real_income" with
  | Some df =>
      if decide (length (remove_dups (month_of <$> frame_dates df)) = 1)
      then
        df' ← asfreq_interpolate df;
        Ok (<["real_income" := df']> data)
      else Ok data
  | None => Ok data
  end.
End harmonize.

(** A row of the enhanced panel: the core columns, and the supplementary
    columns by name. *)
Record EnhancedRow : Type := {
  core : PanelRow;
  supplementary : gmap string (option Q)
}.

Definition add_column (name : string) (v : option Q) (r : EnhancedRow)
  : EnhancedRow :=
  {| core := core r; supplementary := <[name := v]> (supplementary r) |}.

Definition national_supplementary : list (string * string) :=
  [ ("inflation", "inflation_cpi");
    ("recession", "recession_indicator");
    ("treasury_10y", "treasury_10y_yield") ].

Definition state_supplementary : list string :=
  [ "employment_level"; "labor_force_level"; "private_employment" ].

(** One round of the loop over the national supplementary series. *)
Definition merge_national (data : gmap string Frame)
    (acc : result (list EnhancedRow)) (entry : string * string)
  : result (list EnhancedRow) :=
  panel ← acc;
  match data !! entry.1 with
  | None => Ok panel
  | Some f =>
      df ← national_frame f;
      let df_nat :=
        Pandas.sort_values (λ a b, (n_date a <=? n_date b)%Z) df in
      Ok (Pandas.merge_left (date ∘ core) n_date
            (λ r ob, add_column entry.2 (ob ≫= n_value) r) panel df_nat)
  end.

(** One round of the loop over the state-level supplementary series. *)
Definition merge_state (data : gmap string Frame)
    (acc : result (list EnhancedRow)) (state_var : string)
  : result (list EnhancedRow) :=
  panel ← acc;
  match data !! state_var with
  | None => Ok panel
  | Some f =>
      df ← state_frame f;
      let df_state :=
        Pandas.sort_values
          (λ a b, date_state_leb (s_date a) (s_state a)
                    (s_date b) (s_state b)) df in
      Ok (Pandas.merge_left (λ r, (date (core r), state (core r)))
            (λ o, (s_date o, s_state o))
            (λ r ob, add_column state_var (ob ≫= s_value) r) panel df_state)
  end.

Definition create_state_panel (state_unemp : list StateObs)
    (federal_funds national_unemp : list NationalObs)
    (data : gmap string Frame) : result (list EnhancedRow) :=
  let federal_funds :=
    Pandas.sort_values (λ a b, (n_date a <=? n_date b)%Z) federal_funds in
  let national_unemp :=
    Pandas.sort_values (λ a b, (n_date a <=? n_date b)%Z) national_unemp in
  let state_unemp :=
    Pandas.sort_values (λ a b, (s_date a <=? s_date b)%Z) state_unemp in
  let lo :=
    MergeFinalPanel.common_start state_unemp federal_funds national_unemp in
  let hi :=
    MergeFinalPanel.common_end state_unemp federal_funds national_unemp in
  let national_data :=
    Pandas.merge_inner n_date n_date (λ f n, (n_date f, n_value f, n_value n))
      federal_funds national_unemp in
  let panel :=
    Pandas.merge_inner s_date (λ n : Timestamp * option Q * option Q, n.1.1)
      (λ s n, {| core := {| date := s_date s; state := s_state s;
                            unemployment_rate := s_value s;
                            national_unemployment_rate := n.2;
                            federal_funds_rate := n.1.2 |};
                 supplementary := ∅ |})
      state_unemp national_data in
  panel ← foldl (merge_national data) (Ok panel) national_supplementary;
  panel ← foldl (merge_state data) (Ok panel) state_supplementary;
  let panel :=
    filter (λ r, MergeFinalPanel.in_common_range lo hi (date (core r)))
      panel in
  Ok (Pandas.sort_values
        (λ a b, date_state_leb (date (core a)) (state (core a))
                  (date (core b)) (state (core b))) panel).

(** Calendar year of a timestamp, as [Series.dt.year] reads it. *)
Definition year_of (d : Timestamp) : Z :=
  (let z := d + 719468 in
   let era := z / 146097 in
   let doe := z - era * 146097 in
   let yoe := (doe - doe / 1460 + doe / 36524 - doe / 146096) / 365 in
   let doy := doe - (365 * yoe + yoe / 4 - yoe / 100) in
   let mp := (5 * doy + 2) / 153 in
   yoe + era * 400 + (if mp <? 10 then 0 else 1))%Z.

Record DatedRow : Type := {
  row : EnhancedRow;
  year : Z;
  month : Z
}.

Definition calculate_derived_variables (panel : list EnhancedRow)
  : list DatedRow :=
  (λ r, {| row := r; year := year_of (date (core r));
           month := month_of (date (core r)) |}) <$> panel.

Record Run : Type := {
  written : gmap string (list DatedRow);
  exit_code : Z
}.

Section main.
Variable asfreq_interpolate : Frame → result Frame.
Variable generate_data_quality_report : list DatedRow → result string.

Definition assemble (raw : gmap string Frame) : result (list DatedRow) :=
  data ← load_raw_data raw;
  data ← harmonize_frequencies asfreq_interpolate data;
  su ← getitem data "state_unemployment" ≫= state_frame;
  ff ← getitem data "federal_funds" ≫= national_frame;
  nu ← getitem data "national_unemployment" ≫= national_frame;
  panel ← create_state_panel su ff nu data;
  Ok (calculate_derived_variables panel).

Definition main (raw : gmap string Frame) : Run :=
  match assemble raw with
  | Raise _ => {| written := ∅; exit_code := 1 |}
  | Ok panel =>
      let files :=
        <["analysis_panel_enhanced.csv" := panel]>
          (<["panel_enhanced.csv" := panel]> ∅) in
      match generate_data_quality_report panel with
      | Raise _ => {| written := files; exit_code := 1 |}
      | Ok _ => {| written := files; exit_code := 0 |}
      end
  end.
End main.

End MergeFinalPanelEnhanced.

(** ** code/add_supplementary_variables.py *)

Module AddSupplementaryVariables.

(** A panel row with the five derived columns.  The supplementary columns
    merged before are carried along untouched and are left out. *)
Record DerivedRow : Type := {
  base : PanelRow;
  unemployment_yoy_change : option Q;
  fed_rate_change : option Q;
  unemployment_lagged_1mo : option Q;
  fed_rate_lagged_1mo : option Q;
  unemployment_volatility_12mo : option Pandas.Root
}.

(** [panel[name] = series] is aligned on the index: the row labelled [i]
    receives [series.loc[i]].  The panel comes from [read_csv] followed by
    merges, so its index is 0, 1, 2, ... *)
Definition calculate_derived_variables (panel : list PanelRow)
  : list DerivedRow :=
  let df := Pandas.range_index panel in
  let yoy :=
    Pandas.series_sub
      (Pandas.groupby_shift state unemployment_rate 1 df)
      (Pandas.groupby_shift state unemployment_rate 13 df) in
  let change := Pandas.diff (Pandas.column federal_funds_rate df) in
  let lagged := Pandas.groupby_shift state unemployment_rate 1 df in
  let fed_lagged := Pandas.shift 1 (Pandas.column federal_funds_rate df) in
  let volatility :=
    Pandas.reset_index_drop
      (Pandas.groupby_rolling_std state unemployment_rate 12 1 df) in
  (λ p, {| base := p.2;
           unemployment_yoy_change := Pandas.loc yoy p.1;
           fed_rate_change := Pandas.loc change p.1;
           unemployment_lagged_1mo := Pandas.loc lagged p.1;
           fed_rate_lagged_1mo := Pandas.loc fed_lagged p.1;
           unemployment_volatility_12mo := Pandas.loc volatility p.1 |})
    <$> df.

End AddSupplementaryVariables.

(** ** Entry points of the fetch scripts *)

(** How a call of [main()] ends: it returns a value ([None] when it falls
    off the end), or [sys.exit(code)] is raised inside it. *)
Inductive Completion : Type :=
| Returned (value : option Z)
| SysExit (code : Z).

(** A finished call with the lines it printed. *)
Record Outcome : Type := {
  stdout : list string;
  completion : Completion
}.

(** [os.getenv(name)]. *)
Definition getenv (environ : gmap string string) (name : string)
  : option string :=
  environ !! name.

(** Truthiness of an optional string: [None] and [''] are falsy. *)
Definition truthy (s : option string) : bool :=
  match s with
  | Some (String _ _) => true
  | _ => false
  end.

(** Exit status of the interpreter after [sys.exit(main())]. *)
Definition exit_status_sys_exit (o : Outcome) : Z :=
  match completion o with
  | SysExit code => code
  | Returned (Some code) => code
  | Returned None => 0%Z
  end.

(** Exit status of the interpreter after a bare [main()] statement: the
    returned value is dropped. *)
Definition exit_status_bare_call (o : Outcome) : Z :=
  match completion o with
  | SysExit code => code
  | Returned _ => 0%Z
  end.

(** *** code/fetch_data.py *)

Module FetchData.

Definition missing_key_message : string :=
  "FRED API key not found. Please:
  1. Get a free API key at: https://fred.stlouisfed.org/docs/api/api_key.html
  2. Set environment variable: export FRED_API_KEY=YOUR_KEY
  3. Or pass as argument: python fetch_data.py --api-key YOUR_KEY".

Definition get_fred_api_key (environ : gmap string string) : result string :=
  let api_key := getenv environ "FRED_API_KEY" in
  if truthy api_key then Ok (default "" api_key)
  else Raise (ValueError missing_key_message).

Section main.
(** Everything after the key is known: the fetches and the writes,
    ending in the value [main] returns. *)
Variable fetch_and_save : string → Outcome.

Definition main (api_key_arg : option string)
    (environ : gmap string string) : Outcome :=
  let api_key :=
    if truthy api_key_arg then Ok (default "" api_key_arg)
    else get_fred_api_key environ in
  match api_key with
  | Raise (ValueError e) =>
      {| stdout := ["ERROR: " +:+ e]; completion := SysExit 1 |}
  | Raise _ => {| stdout := []; completion := SysExit 1 |}
  | Ok key => fetch_and_save key
  end.

(** [if __name__ == '__main__': sys.exit(main())]. *)
Definition script (api_key_arg : option string)
    (environ : gmap string string) : Z :=
  exit_status_sys_exit (main api_key_arg environ).
End main.

End FetchData.

(** *** Code/fetch_bls_data.py *)

Module FetchBlsData.

Section main.
(** The loop over the BLS series, once the key is known; [main] falls
    off its end afterwards. *)
Variable fetch_all : string → list string.

Definition main (environ : gmap string string) : Outcome :=
  let api_key := getenv environ "BLS_API_KEY" in
  if truthy api_key then
    {| stdout := fetch_all (default "" api_key) ++ ["
BLS data fetch complete!"];
       completion := Returned None |}
  else
    {| stdout :=
         [ "ERROR: BLS_API_KEY environment variable not set!";
           "Please set it with: export BLS_API_KEY=your_key_here";
           "Or add it to your .env file" ];
       completion := Returned (Some 1%Z) |}.

(** [if __name__ == '__main__': main()]. *)
Definition script (environ : gmap string string) : Z :=
  exit_status_bare_call (main environ).
End main.

End FetchBlsData.

(** *** The fetchers of code/fetch_data.py *)

Module FetchDataSeries.

(** The series tables, state abbreviation to FRED series id, in the order
    of the dict literals. *)
Definition STATE_UNEMPLOYMENT_SERIES : list (string * string) :=
  [ ("AL", "ALUR"); ("AK", "AKUR"); ("AZ", "AZUR"); ("AR", "ARUR");
    ("CA", "CAUR"); ("CO", "COUR"); ("CT", "CTUR"); ("DE", "DEUR");
    ("FL", "FLOUR"); ("GA", "GAUR"); ("HI", "HIUR"); ("ID", "IDUR");
    ("IL", "ILUR"); ("IN", "INUR"); ("IA", "IAUR"); ("KS", "KSUR");
    ("KY", "KYUR"); ("LA", "LAUR"); ("ME", "MEUR"); ("MD", "MDUR");
    ("MA", "MAUR"); ("MI", "MIUR"); ("MN", "MNUR"); ("MS", "MSUR");
    ("MO", "MOUR"); ("MT", "MTUR"); ("NE", "NETUR"); ("NV", "NVUR");
    ("NH", "NHUR"); ("NJ", "NJUR"); ("NM", "NMUR"); ("NY", "NYUR");
    ("NC", "NCUR"); ("ND", "NDUR"); ("OH", "OHUR"); ("OK", "OKUR");
    ("OR", "ORUR"); ("PA", "PAUR"); ("RI", "RIUR"); ("SC", "SCUR");
    ("SD", "SDUR"); ("TN", "TNUR"); ("TX", "TXUR"); ("UT", "UTUR");
    ("VT", "VTUR"); ("VA", "VAUR"); ("WA", "WAUR"); ("WV", "WVUR");
    ("WI", "WIUR"); ("WY", "WYUR") ].

Definition NATIONAL_UNEMPLOYMENT_SERIES : string := "UNRATE".
Definition FEDERAL_FUNDS_RATE_SERIES : string := "FEDFUNDS".

Definition STATE_EMPLOYMENT_LEVEL : list (string * string) :=
  [ ("AL", "ALE9UDH"); ("AK", "AKLE9UDH"); ("AZ", "AZLE9UDH");
    ("AR", "ARLE9UDH"); ("CA", "CALE9UDH"); ("CO", "COLE9UDH");
    ("CT", "CTLE9UDH"); ("DE", "DELE9UDH"); ("FL", "FLEIUVPI");
    ("GA", "GAEIUVPI"); ("HI", "HIEIUVPI"); ("ID", "IDEIUVPI");
    ("IL", "ILEIUVPI"); ("IN", "INEIUVPI"); ("IA", "IAEIUVPI");
    ("KS", "KSEIUVPI"); ("KY", "KYEIUVPI"); ("LA", "LAEIUVPI");
    ("ME", "MEEIUVPI"); ("MD", "MDEIUVPI"); ("MA", "MAEIUVPI");
    ("MI", "MIEIUVPI"); ("MN", "MNEIUVPI"); ("MS", "MSEIUVPI");
    ("MO", "MOEIUVPI"); ("MT", "MTEIUVPI"); ("NE", "NEEIUVPI");
    ("NV", "NVEIUVPI"); ("NH", "NHEIUVPI"); ("NJ", "NJEIUVPI");
    ("NM", "NMEIUVPI"); ("NY", "NYEIUVPI"); ("NC", "NCEIUVPI");
    ("ND", "NDEIUVPI"); ("OH", "OHEIUVPI"); ("OK", "OKEIUVPI");
    ("OR", "OREIUVPI"); ("PA", "PAEIUVPI"); ("RI", "RIEIUVPI");
    ("SC", "SCEIUVPI"); ("SD", "SDEIUVPI"); ("TN", "TNEIUVPI");
    ("TX", "TXEIUVPI"); ("UT", "UTEIUVPI"); ("VT", "VTEIUVPI");
    ("VA", "VAEIUVPI"); ("WA", "WAEIUVPI"); ("WV", "WVEIUVPI");
    ("WI", "WIEIUVPI"); ("WY", "WYEIUVPI") ].

Definition STATE_LABOR_FORCE_LEVEL : list (string * string) :=
  [ ("AL", "ALDRVUST"); ("AK", "AKDRVUST"); ("AZ", "AZDRVUST");
    ("AR", "ARDRVUST"); ("CA", "CADRVUST"); ("CO", "CODRVUST");
    ("CT", "CTDRVUST"); ("DE", "DEDRVUST"); ("FL", "FLDRVUST");
    ("GA", "GADRVUST"); ("HI", "HIDRVUST"); ("ID", "IDDRVUST");
    ("IL", "ILDRVUST"); ("IN", "INDRVUST"); ("IA", "IADRVUST");
    ("KS", "KSDRVUST"); ("KY", "KYDRVUST"); ("LA", "LADRVUST");
    ("ME", "MEDRVUST"); ("MD", "MDDRVUST"); ("MA", "MADRVUST");
    ("MI", "MIDRVUST"); ("MN", "MNDRVUST"); ("MS", "MSDRVUST");
    ("MO", "MODRVUST"); ("MT", "MTDRVUST"); ("NE", "NEDRVUST");
    ("NV", "NVDRVUST"); ("NH", "NHDRVUST"); ("NJ", "NJDRVUST");
    ("NM", "NMDRVUST"); ("NY", "NYDRVUST"); ("NC", "NCDRVUST");
    ("ND", "NDDRVUST"); ("OH", "OHDRVUST"); ("OK", "OKDRVUST");
    ("OR", "ORDRVUST"); ("PA", "PADRVUST"); ("RI", "RIDRVUST");
    ("SC", "SCDRVUST"); ("SD", "SDDRVUST"); ("TN", "TNDRVUST");
    ("TX", "TXDRVUST"); ("UT", "UTDRVUST"); ("VT", "VTDRVUST");
    ("VA", "VADRVUST"); ("WA", "WADRVUST"); ("WV", "WVDRVUST");
    ("WI", "WIDRVUST"); ("WY", "WYDRVUST") ].

Definition STATE_PRIVATE_EMPLOYMENT : list (string * string) :=
  [ ("CA", "CAPREMU"); ("TX", "TXPREMU"); ("FL", "FLPREMU");
    ("NY", "NYPREMU"); ("PA", "PAPREMU"); ("IL", "ILPREMU");
    ("OH", "OHPREMU"); ("GA", "GAPREMU"); ("MI", "MIPREMU");
    ("NC", "NCPREMU"); ("AZ", "AZPREMU"); ("MA", "MAPREMU");
    ("WA", "WAPREMU"); ("CO", "COPROMU"); ("MN", "MNPREMU");
    ("NJ", "NJPREMU"); ("VA", "VAPREMU"); ("IN", "INPREMU");
    ("MO", "MOPREMU"); ("TN", "TNPREMU") ].

Definition INFLATION_SERIES : string := "CPIAUCSL".
Definition RECESSION_INDICATOR_SERIES : string := "USRECD".
Definition TREASURY_10Y_SERIES : string := "DGS10".

Section fetch.
(** [fred.get_series(series_id)]: the observations of a series by date, or
    the exception the client raises. *)
Variable get_series : string → result (list (Timestamp * option Q)).
Variable start_date : Timestamp.

(** [df[df['date'] >= start_date]]. *)
Definition since_start_date (data : list (Timestamp * option Q))
  : list (Timestamp * option Q) :=
  filter (λ p, (start_date ≤ p.1)%Z) data.

(** The frame built from a national series: columns [date] and the value. *)
Definition national_rows (data : list (Timestamp * option Q))
  : list NationalObs :=
  (λ p, {| n_date := p.1; n_value := p.2 |}) <$> since_start_date data.

(** The frame built from the series of a state: columns [date], [state]
    and the value. *)
Definition state_rows (state_abbr : string)
    (data : list (Timestamp * option Q)) : list StateObs :=
  (λ p, {| s_date := p.1; s_state := state_abbr; s_value := p.2 |})
    <$> since_start_date data.

(** The exception of the client is printed and raised again. *)
Definition fetch_federal_funds_rate : result (list NationalObs) :=
  data ← get_series FEDERAL_FUNDS_RATE_SERIES;
  Ok (national_rows data).

Definition fetch_national_unemployment_rate : result (list NationalObs) :=
  data ← get_series NATIONAL_UNEMPLOYMENT_SERIES;
  Ok (national_rows data).

(** One round of the loop over a series table: [all_data] and
    [failed_states]. *)
Definition fetch_state (acc : list (list StateObs) * list (string * exn))
    (entry : string * string) : list (list StateObs) * list (string * exn) :=
  match get_series entry.2 with
  | Ok data => (acc.1 ++ [state_rows entry.1 data], acc.2)
  | Raise e => (acc.1, acc.2 ++ [(entry.1, e)])
  end.

(** [pd.concat(all_data, ignore_index=True).sort_values(['date', 'state'])
       .reset_index(drop=True)]. *)
Definition combined_df (all_data : list (list StateObs)) : list StateObs :=
  Pandas.sort_values
    (λ a b, date_state_leb (s_date a) (s_state a) (s_date b) (s_state b))
    (concat all_data).

Definition fetch_state_unemployment_rates : result (list StateObs) :=
  match (foldl fetch_state ([], []) STATE_UNEMPLOYMENT_SERIES).1 with
  | [] => Raise (ValueError "Failed to fetch data for all states")
  | all_data => Ok (combined_df all_data)
  end.

(** [None] when no state could be fetched. *)
Definition fetch_state_supplementary_series
    (series_dict : list (string * string)) : option (list StateObs) :=
  match (foldl fetch_state ([], []) series_dict).1 with
  | [] => None
  | all_data => Some (combined_df all_data)
  end.

Definition fetch_state_employment_level : option (list StateObs) :=
  fetch_state_supplementary_series STATE_EMPLOYMENT_LEVEL.

Definition fetch_state_labor_force_level : option (list StateObs) :=
  fetch_state_supplementary_series STATE_LABOR_FORCE_LEVEL.

Definition fetch_state_private_employment : option (list StateObs) :=
  fetch_state_supplementary_series STATE_PRIVATE_EMPLOYMENT.

(** One [try] block of [fetch_national_supplementary_data]: a series that
    cannot be fetched is left out of the dict. *)
Definition fetch_supplementary (key series_id : string)
    (national_data : gmap string (list NationalObs))
  : gmap string (list NationalObs) :=
  match get_series series_id with
  | Ok data => <[key := national_rows data]> national_data
  | Raise _ => national_data
  end.

Definition fetch_national_supplementary_data
  : gmap string (list NationalObs) :=
  fetch_supplementary "treasury_10y" TREASURY_10Y_SERIES
    (fetch_supplementary "recession" RECESSION_INDICATOR_SERIES
       (fetch_supplementary "inflation" INFLATION_SERIES ∅)).

(** [df.empty]. *)
Definition empty (df : Frame) : bool :=
  match df with
  | National [] | StateLevel [] => true
  | _ => false
  end.

(** [save_raw_data]: every frame of the dict that is neither [None] nor
    empty is written under its file name; [output_dir] is the directory as
    it was. *)
Definition save_raw_data (data_dict : gmap string (option Frame))
    (output_dir : gmap string Frame) : gmap string Frame :=
  omap (λ df : option Frame,
          f ← df; if empty f then None else Some f) data_dict
    ∪ output_dir.

(** [all_data[filename] = df], under the guard of the call site. *)
Definition add_file (filename : string) (df : option Frame)
    (all_data : gmap string (option Frame)) : gmap string (option Frame) :=
  match df with
  | Some f => <[filename := Some f]> all_data
  | None => all_data
  end.

(** The body of [main] once the client is there: the raw-data directory
    after the run, and the value [main] returns.  The metadata file is no
    CSV file and is not part of the directory. *)
Definition fetch_and_save (output_dir : gmap string Frame)
  : gmap string Frame * Z :=
  match
    (federal_funds_df ← fetch_federal_funds_rate;
     national_unemp_df ← fetch_national_unemployment_rate;
     state_unemp_df ← fetch_state_unemployment_rates;
     Ok (federal_funds_df, national_unemp_df, state_unemp_df))
  with
  | Raise _ => (output_dir, 1%Z)
  | Ok (federal_funds_df, national_unemp_df, state_unemp_df) =>
      let national_supp := fetch_national_supplementary_data in
      let state_employment_df := fetch_state_employment_level in
      let state_labor_force_df := fetch_state_labor_force_level in
      let state_private_emp_df := fetch_state_private_employment in
      let all_data : gmap string (option Frame) :=
        <["state_unemployment_rates.csv" :=
            Some (StateLevel state_unemp_df)]>
          (<["national_unemployment_rate.csv" :=
               Some (National national_unemp_df)]>
             (<["federal_funds_rate.csv" :=
                  Some (National federal_funds_df)]> ∅)) in
      let all_data :=
        add_file "inflation_cpi.csv"
          (National <$> national_supp !! "inflation") all_data in
      let all_data :=
        add_file "recession_indicator.csv"
          (National <$> national_supp !! "recession") all_data in
      let all_data :=
        add_file "treasury_10y_yield.csv"
          (National <$> national_supp !! "treasury_10y") all_data in
      let all_data :=
        add_file "state_employment_level.csv"
          (StateLevel <$> state_employment_df) all_data in
      let all_data :=
        add_file "state_labor_force_level.csv"
          (StateLevel <$> state_labor_force_df) all_data in
      let all_data :=
        add_file "state_private_employment.csv"
          (StateLevel <$> state_private_emp_df) all_data in
      (save_raw_data all_data output_dir, 0%Z)
  end.
End fetch.

End FetchDataSeries.

(** ** Vocabulary of the properties *)

(** The rows of one state, in panel order.  The assembled panel is sorted by
    date, so this is the state's chronological sequence. *)
Definition own_rows {R} (state_of : R → string) (s : string) (rows : list R)
  : list R :=
  filter (λ r, state_of r = s) rows.

(** The unemployment rate [k] places before place [t] of a state's own
    sequence; null when that place is before the start of the sequence. *)
Definition lag_within (own : list PanelRow) (k t : nat) : option Q :=
  if decide (k ≤ t) then own !! (t - k) ≫= unemployment_rate else None.

(** A panel in chronological order. *)
Definition chronological (rows : list PanelRow) : Prop :=
  StronglySorted (λ r1 r2, (date r1 ≤ date r2)%Z) rows.

Definition earliest (dates : list Timestamp) (m : Timestamp) : Prop :=
  m ∈ dates ∧ ∀ d, d ∈ dates → (m ≤ d)%Z.

Definition latest (dates : list Timestamp) (m : Timestamp) : Prop :=
  m ∈ dates ∧ ∀ d, d ∈ dates → (d ≤ m)%Z.

(** [lo] is the maximum of the three minimum dates, [hi] the minimum of the
    three maximum dates of the required series. *)
Definition common_range (su : list StateObs) (ff nu : list NationalObs)
    (lo hi : Timestamp) : Prop :=
  ∃ s0 f0 n0 s1 f1 n1,
    earliest (s_date <$> su) s0 ∧ earliest (n_date <$> ff) f0 ∧
    earliest (n_date <$> nu) n0 ∧
    latest (s_date <$> su) s1 ∧ latest (n_date <$> ff) f1 ∧
    latest (n_date <$> nu) n1 ∧
    lo = Z.max s0 (Z.max f0 n0) ∧ hi = Z.min s1 (Z.min f1 n1).

(** At most one row per date, or per (date, state). *)
Definition unique_keys (f : Frame) : Prop :=
  match f with
  | National rows => NoDup (n_date <$> rows)
  | StateLevel rows => NoDup ((λ o, (s_date o, s_state o)) <$> rows)
  end.

Definition panel_key (r : PanelRow) : Timestamp * string := (date r, state r).

(** The optional files of the raw directory have the columns the fetcher
    writes: [date, value] for the national series, [date, state, value] for
    the state-level ones. *)
Definition expected_columns (key : string) (f : Frame) : Prop :=
  if decide (key ∈ MergeFinalPanelEnhanced.national_supplementary.*1)
  then ∃ rows, f = National rows
  else ∃ rows, f = StateLevel rows.

(** The keys under which the supplementary series sit in the dict. *)
Definition supplementary_keys : list string :=
  MergeFinalPanelEnhanced.national_supplementary.*1
    ++ MergeFinalPanelEnhanced.state_supplementary.

Definition supplementary_well_formed (data : gmap string Frame) : Prop :=
  ∀ key f, key ∈ supplementary_keys → data !! key = Some f →
    expected_columns key f.

Definition supplementary_unique (data : gmap string Frame) : Prop :=
  ∀ key f, key ∈ supplementary_keys → data !! key = Some f → unique_keys f.

Definition optional_files_well_formed (raw : gmap string Frame) : Prop :=
  ∀ key file f, (key, file) ∈ MergeFinalPanelEnhanced.optional_files →
    raw !! file = Some f → expected_columns key f.

Definition optional_files_unique (raw : gmap string Frame) : Prop :=
  ∀ key file f, (key, file) ∈ MergeFinalPanelEnhanced.optional_files →
    raw !! file = Some f → unique_keys f.

(** [p'] is [p] with each row replaced by one or more rows that have the
    same core columns: no row is dropped and no core column is touched. *)
Definition keeps_rows (p p' : list MergeFinalPanelEnhanced.EnhancedRow)
  : Prop :=
  ∃ g : MergeFinalPanelEnhanced.EnhancedRow
        → list MergeFinalPanelEnhanced.EnhancedRow,
    p' = p ≫= g ∧
    ∀ a, g a ≠ [] ∧
         Forall (λ b, MergeFinalPanelEnhanced.core b
                      = MergeFinalPanelEnhanced.core a) (g a).

(** The rows that the two inner merges of [create_state_panel] produce,
    before the date filter and the final sort. *)
Definition joined_rows (su : list StateObs) (ff nu : list NationalObs)
  : list PanelRow :=
  Pandas.merge_inner s_date (λ n : Timestamp * option Q * option Q, n.1.1)
    (λ s n, {| date := s_date s; state := s_state s;
               unemployment_rate := s_value s;
               national_unemployment_rate := n.2;
               federal_funds_rate := n.1.2 |})
    (Pandas.sort_values (λ a b, (s_date a <=? s_date b)%Z) su)
    (Pandas.merge_inner n_date n_date (λ f n, (n_date f, n_value f, n_value n))
       (Pandas.sort_values (λ a b, (n_date a <=? n_date b)%Z) ff)
       (Pandas.sort_values (λ a b, (n_date a <=? n_date b)%Z) nu)).

(** The value of column [f] that a lag grouped by state puts on each row:
    the value [k] places earlier among the rows of the same state. *)
Definition lag_by_state (f : PanelRow → option Q) (k : nat)
    (panel : list PanelRow) : list (option Q) :=
  imap (λ i r,
          let own := own_rows state (state r) (take i panel) in
          if decide (k ≤ length own) then own !! (length own - k) ≫= f
          else None) panel.

(** The change of the federal funds rate from the preceding calendar month
    of the panel to the month of each row; null when no row of an earlier
    date comes before. *)
Definition change_by_month (panel : list PanelRow) : list (option Q) :=
  imap (λ i r,
          match last (filter (λ r', (date r' < date r)%Z) (take i panel)) with
          | Some r' => osub (federal_funds_rate r) (federal_funds_rate r')
          | None => None
          end) panel.

(** ** Sample inputs *)

Definition sample_row (d : Timestamp) (s : string) (u f : Q) : PanelRow :=
  {| date := d; state := s; unemployment_rate := Some u;
     national_unemployment_rate := Some (5 # 1)%Q;
     federal_funds_rate := Some f |}.

(** Two states over January and February 1990. *)
Definition two_by_two : list PanelRow :=
  [ sample_row 7305 "AK" (7 # 1) (8 # 1);
    sample_row 7305 "AL" (6 # 1) (8 # 1);
    sample_row 7336 "AK" (8 # 1) (33 # 4);
    sample_row 7336 "AL" (13 # 2) (33 # 4) ].

(** The first days of January 1990 to February 1991. *)
Definition month_starts : list Timestamp :=
  [ 7305; 7336; 7364; 7395; 7425; 7456; 7486; 7517; 7548; 7578; 7609; 7639;
    7670; 7701 ]%Z.

(** Two states over fourteen months; the rate of "AK" in month [m] is
    [m * m], that of "AL" is [100 - m]. *)
Definition fourteen_months : list PanelRow :=
  mjoin (imap (λ m d,
           [ sample_row d "AK" (inject_Z (Z.of_nat (m * m))) (8 # 1);
             sample_row d "AL" (inject_Z (100 - Z.of_nat m)) (8 # 1) ])
         month_starts).

(** The last row of "AK" in the engine's output for [fourteen_months]. *)
Definition sample_derived_row : AddSupplementaryVariables.DerivedRow :=
  Eval vm_compute in
    default
      {| AddSupplementaryVariables.base := sample_row 0 "" 0 0;
         AddSupplementaryVariables.unemployment_yoy_change := None;
         AddSupplementaryVariables.fed_rate_change := None;
         AddSupplementaryVariables.unemployment_lagged_1mo := None;
         AddSupplementaryVariables.fed_rate_lagged_1mo := None;
         AddSupplementaryVariables.unemployment_volatility_12mo := None |}
      (own_rows (state ∘ AddSupplementaryVariables.base) "AK"
         (AddSupplementaryVariables.calculate_derived_variables
            fourteen_months) !! 13).

Definition obs (d : Timestamp) (v : Q) : NationalObs :=
  {| n_date := d; n_value := Some v |}.

Definition state_obs (d : Timestamp) (s : string) (v : Q) : StateObs :=
  {| s_date := d; s_state := s; s_value := Some v |}.

(** Required series that overlap on January to March 1990. *)
Definition sample_funds : list NationalObs :=
  [ obs 7305 (8 # 1); obs 7336 (33 # 4); obs 7364 (33 # 4) ].
Definition sample_national : list NationalObs :=
  [ obs 7305 (5 # 1); obs 7336 (5 # 1); obs 7364 (5 # 1); obs 7395 (5 # 1) ].
Definition sample_states : list StateObs :=
  [ state_obs 7336 "AL" (13 # 2); state_obs 7336 "AK" (8 # 1);
    state_obs 7364 "AK" (8 # 1); state_obs 7364 "AL" (6 # 1);
    state_obs 7395 "AK" (8 # 1) ].

Definition sample_raw : gmap string Frame :=
  <["federal_funds_rate.csv" := National sample_funds]>
    (<["national_unemployment_rate.csv" := National sample_national]>
       (<["state_unemployment_rates.csv" := StateLevel sample_states]> ∅)).

(** Required series without a common date: the national series end in
    January 1990, the state series starts in February 1990. *)
Definition disjoint_states : list StateObs :=
  [ state_obs 7336 "AK" (8 # 1); state_obs 7336 "AL" (13 # 2) ].
Definition disjoint_funds : list NationalObs := [ obs 7305 (8 # 1) ].
Definition disjoint_national : list NationalObs := [ obs 7305 (5 # 1) ].

Definition disjoint_raw : gmap string Frame :=
  <["federal_funds_rate.csv" := National disjoint_funds]>
    (<["national_unemployment_rate.csv" := National disjoint_national]>
       (<["state_unemployment_rates.csv" := StateLevel disjoint_states]> ∅)).

(** A raw directory whose federal funds series has one reading a year, each
    on the first of January. *)
Definition annual_funds : list NationalObs :=
  [ obs 7305 (8 # 1); obs 7670 (7 # 1) ].

Definition annual_raw : gmap string Frame :=
  <["federal_funds_rate.csv" := National annual_funds]> sample_raw.

(** The raw directory with the inflation file present and the recession
    file, like every other optional file, absent. *)
Definition sample_inflation : list NationalObs :=
  [ obs 7336 (128 # 1); obs 7395 (129 # 1) ].

Definition inflation_raw : gmap string Frame :=
  <["inflation_cpi.csv" := National sample_inflation]> sample_raw.

(** What the enhanced loader reads from [annual_raw]. *)
Definition annual_data : gmap string Frame :=
  <["federal_funds" := National annual_funds]>
    (<["national_unemployment" := National sample_national]>
       (<["state_unemployment" := StateLevel sample_states]> ∅)).

(** Stand-ins for the calls left to the libraries. *)
Definition report_written (A : Type) : A → result string := λ _, Ok "".
Definition report_failing (A : Type) : A → result string :=
  λ _, Raise (ValueError "attempt to get argmin of an empty sequence").
Definition interpolate_rejected : Frame → result Frame :=
  λ _, Raise (ValueError "method must be one of the interpolation methods").

(** ** Vocabulary and samples of the further properties *)

(** The reading of a national series on a date: the value of its first row
    with that date, null when it has none. *)
Definition national_reading (rows : list NationalObs) (d : Timestamp)
  : option Q :=
  head (filter (λ b, n_date b = d) rows) ≫= n_value.

(** The reading of a state-level series for a date and a state. *)
Definition state_reading (rows : list StateObs) (d : Timestamp) (s : string)
  : option Q :=
  head (filter (λ b, (s_date b, s_state b) = (d, s)) rows) ≫= s_value.

(** The dict the enhanced loader builds from [inflation_raw], and the panel
    assembled from it. *)
Definition inflation_data : gmap string Frame :=
  <["inflation" := National sample_inflation]>
    (<["federal_funds" := National sample_funds]>
       (<["national_unemployment" := National sample_national]>
          (<["state_unemployment" := StateLevel sample_states]> ∅))).

Definition inflation_panel : list MergeFinalPanelEnhanced.EnhancedRow :=
  Eval vm_compute in
    match MergeFinalPanelEnhanced.create_state_panel sample_states
            sample_funds sample_national inflation_data with
    | Ok panel => panel
    | Raise _ => []
    end.

(** A state-level employment series with a reading for one of the two
    states only, the dict that holds it and the panel assembled from it. *)
Definition sample_employment : list StateObs :=
  [ state_obs 7364 "AK" (310 # 1); state_obs 7336 "AK" (305 # 1) ].

Definition employment_data : gmap string Frame :=
  <["employment_level" := StateLevel sample_employment]> inflation_data.

Definition employment_panel : list MergeFinalPanelEnhanced.EnhancedRow :=
  Eval vm_compute in
    match MergeFinalPanelEnhanced.create_state_panel sample_states
            sample_funds sample_national employment_data with
    | Ok panel => panel
    | Raise _ => []
    end.

(** A dict that does hold a series under "real_income", with one reading a
    year, each on the first of January. *)
Definition income_data : gmap string Frame :=
  <["real_income" := National annual_funds]> annual_data.

Definition second_derived_row : AddSupplementaryVariables.DerivedRow :=
  Eval vm_compute in
    default sample_derived_row
      (AddSupplementaryVariables.calculate_derived_variables two_by_two !! 1).

(** The first two rows of the panel assembled from the samples, the second
    with its derived columns. *)
Definition first_panel_row : PanelRow :=
  Eval vm_compute in
    default (sample_row 0 "" 0 0)
      (MergeFinalPanel.create_state_panel sample_states sample_funds
         sample_national !! 0).

Definition same_date_row : AddSupplementaryVariables.DerivedRow :=
  Eval vm_compute in
    default sample_derived_row
      (AddSupplementaryVariables.calculate_derived_variables
         (MergeFinalPanel.create_state_panel sample_states sample_funds
            sample_national) !! 1).

(** One state over three months, and its third row with the derived
    columns. *)
Definition one_state_panel : list PanelRow :=
  [ sample_row 7305 "AK" (7 # 1) (8 # 1);
    sample_row 7336 "AK" (8 # 1) (33 # 4);
    sample_row 7364 "AK" (6 # 1) (33 # 4) ].

Definition third_month_row : AddSupplementaryVariables.DerivedRow :=
  Eval vm_compute in
    default sample_derived_row
      (AddSupplementaryVariables.calculate_derived_variables one_state_panel
         !! 2).

(** The frames of the series of a table that could be fetched, in table
    order. *)
Definition fetched_frames
    (get_series : string → result (list (Timestamp * option Q)))
    (start_date : Timestamp) (series_dict : list (string * string))
  : list (list StateObs) :=
  omap (λ entry : string * string,
          match get_series entry.2 with
          | Ok data =>
              Some (FetchDataSeries.state_rows start_date entry.1 data)
          | Raise _ => None
          end) series_dict.

(** A FRED client that knows the federal funds rate, the national
    unemployment rate and the unemployment rate of two states, and one
    whose federal funds series ends before 1990. *)
Definition sample_client (series_id : string)
  : result (list (Timestamp * option Q)) :=
  if decide (series_id = "FEDFUNDS")
  then Ok [ (7274, Some (8 # 1)); (7305, Some (8 # 1));
            (7336, Some (33 # 4)) ]%Z
  else if decide (series_id = "UNRATE")
  then Ok [ (7305, Some (27 # 5)); (7336, Some (53 # 10)) ]%Z
  else if decide (series_id = "AKUR")
  then Ok [ (7336, Some (7 # 1)); (7305, Some (8 # 1)) ]%Z
  else if decide (series_id = "ALUR")
  then Ok [ (7305, Some (13 # 2)); (7336, None) ]%Z
  else Raise (ValueError "Bad Request.  The series does not exist.").

Definition stale_client (series_id : string)
  : result (list (Timestamp * option Q)) :=
  if decide (series_id = "FEDFUNDS")
  then Ok [ (7000, Some (8 # 1)) ]%Z
  else sample_client series_id.

Definition offline_client (series_id : string)
  : result (list (Timestamp * option Q)) :=
  Raise (ValueError "Connection refused").

(** What a directory holds under a file name once [save_raw_data] has seen
    the frame [df] for it: an empty frame is not written. *)
Definition saved (df : Frame) (before : option Frame) : option Frame :=
  if FetchDataSeries.empty df then before else Some df.

(** The file names [fetch_data.py] writes. *)
Definition fetched_files : list string :=
  [ "federal_funds_rate.csv"; "national_unemployment_rate.csv";
    "state_unemployment_rates.csv"; "inflation_cpi.csv";
    "recession_indicator.csv"; "treasury_10y_yield.csv";
    "state_employment_level.csv"; "state_labor_force_level.csv";
    "state_private_employment.csv" ].

(** The state frame fetched from [sample_client] since January 1990. *)
Definition sample_fetched_states : list StateObs :=
  Eval vm_compute in
    match FetchDataSeries.fetch_state_unemployment_rates sample_client 7305
    with
    | Ok df => df
    | Raise _ => []
    end.

(** The national frames fetched from [sample_client] since January 1990. *)
Definition sample_fetched_funds : list NationalObs :=
  Eval vm_compute in
    match FetchDataSeries.fetch_federal_funds_rate sample_client 7305 with
    | Ok df => df
    | Raise _ => []
    end.

Definition sample_fetched_national : list NationalObs :=
  Eval vm_compute in
    match FetchDataSeries.fetch_national_unemployment_rate sample_client 7305
    with
    | Ok df => df
    | Raise _ => []
    end.

(** * Properties *)

(** ** Label lookup, shifting and grouping *)

Section series_facts.
Context {A : Type}.
Implicit Types (s : Series A) (i : nat).

Lemma loc_absent s i : i ∉ Pandas.index s → Pandas.loc s i = None.
Proof.
  induction s as [|[j v] s IH]; simpl; [done|].
  rewrite not_elem_of_cons. intros [Hne Hin].
  destruct (decide (j = i)); [congruence | auto].
Qed.

Lemma loc_app s1 s2 i :
  Pandas.loc (s1 ++ s2) i =
    if decide (i ∈ Pandas.index s1) then Pandas.loc s1 i
    else Pandas.loc s2 i.
Proof.
  induction s1 as [|[j v] s1 IH]; simpl.
  - done.
  - destruct (decide (j = i)) as [->|Hne].
    + rewrite decide_True; [done | by left].
    + rewrite IH. unfold Pandas.index; simpl.
      destruct (decide (i ∈ s1.*1)) as [Hin|Hout].
      * rewrite decide_True; [done | by right].
      * rewrite decide_False; [done|].
        rewrite not_elem_of_cons; split; [congruence | done].
Qed.

(** Reading a label off a zipped series: with distinct labels, the label
    at place [t] reads the value at place [t]. *)
Lemma loc_zip (labels : list nat) (vals : list (option A)) t i :
  NoDup labels → labels !! t = Some i → length labels ≤ length vals →
  Pandas.loc (zip labels vals) i = mjoin (vals !! t).
Proof.
  revert vals t.
  induction labels as [|j labels IH]; intros vals t Hnd Ht Hlen; [done|].
  destruct vals as [|v vals]; [simpl in Hlen; lia|].
  apply NoDup_cons in Hnd as [Hj Hnd]. simpl.
  destruct t as [|t]; simpl in *.
  - injection Ht as ->. by rewrite decide_True.
  - rewrite decide_False.
    + apply IH; [done | done | lia].
    + intros ->. apply Hj. by eapply list_elem_of_lookup_2.
Qed.

Lemma index_shift k s : Pandas.index (Pandas.shift k s) = Pandas.index s.
Proof.
  unfold Pandas.shift, Pandas.index. apply fst_zip.
  rewrite length_app, length_replicate, length_take.
  unfold Pandas.values. rewrite !length_fmap. lia.
Qed.

(** [shift] on a series with distinct labels. *)
Lemma loc_shift k s t i v :
  NoDup (Pandas.index s) → s !! t = Some (i, v) →
  Pandas.loc (Pandas.shift k s) i =
    if decide (k ≤ t) then mjoin (Pandas.values s !! (t - k)) else None.
Proof.
  intros Hnd Ht. unfold Pandas.shift.
  assert (t < length s) as Hlt by (by eapply lookup_lt_Some).
  rewrite (loc_zip _ _ t); first last.
  - rewrite length_app, length_replicate, length_take.
    unfold Pandas.index, Pandas.values. rewrite !length_fmap. lia.
  - unfold Pandas.index. by rewrite list_lookup_fmap, Ht.
  - done.
  - destruct (decide (k ≤ t)) as [Hk|Hk].
    + rewrite lookup_app_r by (rewrite length_replicate; lia).
      rewrite length_replicate, lookup_take_lt; [done | lia].
    + rewrite lookup_app_l by (rewrite length_replicate; lia).
      rewrite lookup_replicate_2; [done | lia].
Qed.
End series_facts.

Section list_facts.
Context {A B : Type}.

(** Filtering the image of a list. *)
Lemma filter_fmap (f : A → B) (P : B → Prop) `{!∀ y, Decision (P y)}
    (l : list A) :
  filter P (f <$> l) = f <$> filter (λ x, P (f x)) l.
Proof.
  induction l as [|x l IH]; [done|].
  rewrite fmap_cons, !filter_cons, IH. by case_decide.
Qed.

(** Distinct labels name one row each. *)
Lemma NoDup_fst_functional (l : list (A * B)) x y1 y2 :
  NoDup l.*1 → (x, y1) ∈ l → (x, y2) ∈ l → y1 = y2.
Proof.
  induction l as [|[x0 y0] l IH]; csimpl; intros Hnd H1 H2.
  - by apply elem_of_nil in H1.
  - apply NoDup_cons in Hnd as [Hx0 Hnd].
    apply elem_of_cons in H1 as [H1|H1]; apply elem_of_cons in H2 as [H2|H2].
    + congruence.
    + injection H1 as -> ->. destruct Hx0.
      by apply (list_elem_of_fmap_2 fst _ (x0, y2)).
    + injection H2 as -> ->. destruct Hx0.
      by apply (list_elem_of_fmap_2 fst _ (x0, y1)).
    + by apply IH.
Qed.

Lemma insert_sorted_perm (leb : A → A → bool) x (l : list A) :
  Pandas.insert_sorted leb x l ≡ₚ x :: l.
Proof.
  induction l as [|y l IH]; simpl; [done|].
  destruct (leb x y); [done|].
  rewrite IH. apply Permutation_swap.
Qed.

(** Sorting only reorders. *)
Lemma sort_values_perm (leb : A → A → bool) (l : list A) :
  Pandas.sort_values leb l ≡ₚ l.
Proof.
  induction l as [|x l IH]; simpl; [done|].
  by rewrite insert_sorted_perm, IH.
Qed.

Lemma insert_sorted_fmap (f : A → B) (leb : B → B → bool) x (l : list A) :
  f <$> Pandas.insert_sorted (λ a b, leb (f a) (f b)) x l =
    Pandas.insert_sorted leb (f x) (f <$> l).
Proof.
  induction l as [|y l IH]; csimpl; [done|].
  destruct (leb (f x) (f y)); csimpl; [done | by rewrite IH].
Qed.

(** Sorting commutes with a projection the order is read through. *)
Lemma sort_values_fmap (f : A → B) (leb : B → B → bool) (l : list A) :
  f <$> Pandas.sort_values (λ a b, leb (f a) (f b)) l =
    Pandas.sort_values leb (f <$> l).
Proof.
  unfold Pandas.sort_values.
  induction l as [|x l IH]; csimpl; [done|].
  by rewrite insert_sorted_fmap, IH.
Qed.
End list_facts.

Section groupby_facts.
Context {R A : Type} (key : R → string) (f : R → option A).
Implicit Types (df : DataFrame R) (i t k : nat) (s : string).

Lemma index_column df : Pandas.index (Pandas.column f df) = Pandas.index df.
Proof.
  unfold Pandas.index, Pandas.column.
  rewrite <- list_fmap_compose. by apply list_fmap_ext; intros ? [??].
Qed.

Lemma values_column df : Pandas.values (Pandas.column f df) = f <$> df.*2.
Proof.
  unfold Pandas.values, Pandas.column.
  rewrite <- !list_fmap_compose. by apply list_fmap_ext; intros ? [??].
Qed.

Lemma elem_of_group_keys (keys : list string) s :
  s ∈ Pandas.group_keys keys ↔ s ∈ keys.
Proof.
  unfold Pandas.group_keys.
  by rewrite sort_values_perm, elem_of_remove_dups.
Qed.

Lemma NoDup_index_filter (P : nat * R → Prop) `{!∀ p, Decision (P p)} df :
  NoDup (Pandas.index df) → NoDup (Pandas.index (filter P df)).
Proof.
  unfold Pandas.index. intros Hnd.
  eapply sublist_NoDup; [exact Hnd|]. apply fmap_sublist, sublist_filter.
Qed.

(** Reading one label off the groups laid end to end: only the group that
    holds the label matters. *)
Lemma loc_concat_groups (F : string → Series A) (ks : list string) s i :
  (∀ g, g ∈ ks → g ≠ s → i ∉ Pandas.index (F g)) →
  Pandas.loc (concat (F <$> ks)) i =
    if decide (s ∈ ks) then Pandas.loc (F s) i else None.
Proof.
  induction ks as [|g0 ks IH]; intros Hother; [done|].
  rewrite fmap_cons. simpl. rewrite loc_app, IH; first last.
  { intros g Hg. apply Hother. by right. }
  destruct (decide (g0 = s)) as [->|Hne].
  - rewrite (decide_True (P := s ∈ s :: ks)) by (by left).
    destruct (decide (i ∈ Pandas.index (F s))) as [|Hout]; [done|].
    rewrite (loc_absent (F s)) by done. by case_decide.
  - rewrite decide_False by (apply Hother; [by left | done]).
    destruct (decide (s ∈ ks)) as [Hin|Hout].
    + rewrite decide_True; [done | by right].
    + rewrite decide_False; [done|].
      rewrite not_elem_of_cons; split; [congruence | done].
Qed.

Lemma loc_reindex (s0 : Series A) (labels : list nat) i :
  i ∈ labels →
  Pandas.loc ((λ j, (j, Pandas.loc s0 j)) <$> labels) i = Pandas.loc s0 i.
Proof.
  induction labels as [|j labels IH]; intros Hin.
  - by apply elem_of_nil in Hin.
  - simpl. destruct (decide (j = i)) as [->|Hne]; [done|].
    apply IH. apply elem_of_cons in Hin as [->|]; [congruence | done].
Qed.

(** The grouped shift: the row at place [t] of its own group reads the
    value [k] places earlier in that group, or null. *)
Lemma loc_groupby_shift k df s t i r :
  NoDup (Pandas.index df) →
  filter (λ p, key p.2 = s) df !! t = Some (i, r) →
  Pandas.loc (Pandas.groupby_shift key f k df) i =
    if decide (k ≤ t)
    then (filter (λ p, key p.2 = s) df).*2 !! (t - k) ≫= f
    else None.
Proof.
  intros Hnd Ht.
  assert ((i, r) ∈ filter (λ p, key p.2 = s) df) as Hin
    by (by eapply list_elem_of_lookup_2).
  apply list_elem_of_filter in Hin as [Hkey Hin]. simpl in Hkey.
  unfold Pandas.groupby_shift.
  rewrite loc_reindex
    by (unfold Pandas.index; by apply (list_elem_of_fmap_2 fst _ (i, r))).
  set (F := λ g, Pandas.shift k
                   (Pandas.column f (filter (λ p, key p.2 = g) df))).
  assert ((Pandas.shift k ∘ snd) <$> Pandas.groupby key f df =
            F <$> Pandas.group_keys ((key ∘ snd) <$> df)) as ->.
  { unfold Pandas.groupby. by rewrite <- list_fmap_compose. }
  rewrite (loc_concat_groups F _ s i); subst F; simpl.
  - rewrite decide_True; first last.
    { apply elem_of_group_keys.
      apply (list_elem_of_fmap_2 (key ∘ snd) _ (i, r)) in Hin.
      simpl in Hin. by rewrite Hkey in Hin. }
    rewrite (loc_shift k _ t i (f r)).
    + case_decide; [|done].
      rewrite values_column, list_lookup_fmap.
      by destruct (_ !! (t - k)).
    + rewrite index_column. by apply NoDup_index_filter.
    + unfold Pandas.column. by rewrite list_lookup_fmap, Ht.
  - intros g _ Hne. rewrite index_shift, index_column.
    unfold Pandas.index. intros Hi.
    apply list_elem_of_fmap in Hi as ([i' r'] & -> & Hi).
    apply list_elem_of_filter in Hi as [Hg Hi]. simpl in *.
    assert (r' = r) as ->; [|congruence].
    by eapply (NoDup_fst_functional df i').
Qed.
End groupby_facts.

(** ** The derived variables *)

Section derived_variables.
Import AddSupplementaryVariables.
Implicit Types (panel : list PanelRow) (s : string) (t i : nat).

Lemma length_range_index {R} (rows : list R) :
  length (Pandas.range_index rows) = length rows.
Proof.
  unfold Pandas.range_index. rewrite length_zip, length_seq. lia.
Qed.

Lemma index_range_index {R} (rows : list R) :
  Pandas.index (Pandas.range_index rows) = seq 0 (length rows).
Proof.
  unfold Pandas.index, Pandas.range_index.
  apply fst_zip. by rewrite length_seq.
Qed.

Lemma rows_range_index {R} (rows : list R) :
  (Pandas.range_index rows).*2 = rows.
Proof.
  unfold Pandas.range_index. apply snd_zip. by rewrite length_seq.
Qed.

Lemma NoDup_range_index {R} (rows : list R) :
  NoDup (Pandas.index (Pandas.range_index rows)).
Proof. rewrite index_range_index. apply NoDup_seq. Qed.

Lemma loc_series_sub (a b : Series Q) i :
  Pandas.loc (Pandas.series_sub a b) i =
    osub (Pandas.loc a i) (Pandas.loc b i).
Proof.
  unfold Pandas.series_sub.
  induction a as [|[j v] a IH]; csimpl; [done|].
  destruct (decide (j = i)) as [->|]; [done | apply IH].
Qed.

(** The engine adds columns and leaves the rows as they are. *)
Lemma base_calculate_derived_variables panel :
  base <$> calculate_derived_variables panel = panel.
Proof.
  unfold calculate_derived_variables.
  rewrite <- list_fmap_compose.
  rewrite <- (rows_range_index panel) at 2. by apply list_fmap_ext.
Qed.

(** The rows of a state in the engine's output are built from the rows of
    that state in the indexed panel, place by place. *)
Lemma own_rows_derived panel s t row :
  own_rows (state ∘ base) s (calculate_derived_variables panel) !! t
    = Some row →
  ∃ i, filter (λ p : nat * PanelRow, state p.2 = s)
         (Pandas.range_index panel) !! t = Some (i, base row) ∧
       unemployment_yoy_change row =
         Pandas.loc
           (Pandas.series_sub
              (Pandas.groupby_shift state unemployment_rate 1
                 (Pandas.range_index panel))
              (Pandas.groupby_shift state unemployment_rate 13
                 (Pandas.range_index panel))) i ∧
       unemployment_lagged_1mo row =
         Pandas.loc
           (Pandas.groupby_shift state unemployment_rate 1
              (Pandas.range_index panel)) i.
Proof.
  unfold own_rows, calculate_derived_variables.
  rewrite filter_fmap, list_lookup_fmap. simpl.
  destruct (filter _ _ !! t) as [[i r]|] eqn:Ht; [|done].
  simpl. intros [= <-]. simpl. by exists i.
Qed.

Lemma own_rows_range_index panel s :
  own_rows state s panel =
    (filter (λ p : nat * PanelRow, state p.2 = s)
       (Pandas.range_index panel)).*2.
Proof.
  unfold own_rows. rewrite <- (rows_range_index panel) at 1.
  by rewrite filter_fmap.
Qed.

Lemma own_rows_chronological panel s :
  chronological panel → chronological (own_rows state s panel).
Proof.
  unfold chronological, own_rows.
  induction panel as [|r panel IH]; [done|].
  rewrite StronglySorted_cons. intros [Hall Hsorted].
  rewrite filter_cons. case_decide; [|by apply IH].
  apply StronglySorted_cons. split; [|by apply IH].
  rewrite Forall_forall in Hall |- *.
  intros r' [_ Hr']%list_elem_of_filter. by apply Hall.
Qed.

(** C7.  Within every state's own sequence of rows,
    [unemployment_yoy_change] at place [t] is the unemployment rate at
    place [t - 1] minus the rate at place [t - 13], and null when either
    place lies before the start of that state's rows: lag(1) - lag(13).
    The state's rows are taken in panel order, which is chronological for
    a panel sorted by date. *)
Theorem yoy_change_is_lag1_minus_lag13 panel s t row :
  own_rows (state ∘ base) s (calculate_derived_variables panel) !! t
    = Some row →
  own_rows state s panel !! t = Some (base row) ∧
  unemployment_yoy_change row =
    osub (lag_within (own_rows state s panel) 1 t)
         (lag_within (own_rows state s panel) 13 t) ∧
  (chronological panel → chronological (own_rows state s panel)).
Proof.
  intros (i & Ht & -> & _)%own_rows_derived.
  split; [|split; [|apply own_rows_chronological]].
  - by rewrite own_rows_range_index, list_lookup_fmap, Ht.
  - rewrite loc_series_sub.
    rewrite !(loc_groupby_shift state unemployment_rate _ _ s t i (base row))
      by (done || apply NoDup_range_index).
    by rewrite own_rows_range_index.
Qed.

(** The sibling column [unemployment_lagged_1mo] is a grouped lag: the
    state's own rate one place earlier, null on the state's first row. *)
Lemma unemployment_lagged_is_grouped panel s t row :
  own_rows (state ∘ base) s (calculate_derived_variables panel) !! t
    = Some row →
  unemployment_lagged_1mo row = lag_within (own_rows state s panel) 1 t.
Proof.
  intros (i & Ht & _ & ->)%own_rows_derived.
  rewrite (loc_groupby_shift state unemployment_rate _ _ s t i (base row))
    by (done || apply NoDup_range_index).
  by rewrite own_rows_range_index.
Qed.
Lemma yoy_change_is_lag1_minus_lag13_witness :
  own_rows (state ∘ base) "AK"
    (calculate_derived_variables fourteen_months) !! 13
    = Some sample_derived_row ∧
  unemployment_yoy_change sample_derived_row =
    osub (lag_within (own_rows state "AK" fourteen_months) 1 13)
         (lag_within (own_rows state "AK" fourteen_months) 13 13).
Proof.
  assert (own_rows (state ∘ base) "AK"
            (calculate_derived_variables fourteen_months) !! 13
          = Some sample_derived_row) as H by (vm_compute; reflexivity).
  split; [exact H|].
  exact (proj1 (proj2
           (yoy_change_is_lag1_minus_lag13 fourteen_months "AK" 13
              sample_derived_row H))).
Defined.

(** The offsets are 1 and 13: in month 13 the rate of "AK" is 169, one
    month earlier 144, twelve months earlier 1, thirteen months earlier 0.
    The column holds 144 - 0, not 169 - 1. *)
Example yoy_change_pins_offsets :
  unemployment_yoy_change sample_derived_row = Some (144 - 0)%Q ∧
  unemployment_rate (base sample_derived_row) = Some 169%Q ∧
  lag_within (own_rows state "AK" fourteen_months) 12 13 = Some 1%Q.
Proof. by vm_compute. Qed.

(** A row of the engine's output sits at the place and under the label of
    the panel row it is built from. *)
Lemma derived_row_lookup panel i row :
  calculate_derived_variables panel !! i = Some row →
  Pandas.range_index panel !! i = Some (i, base row) ∧
  fed_rate_lagged_1mo row =
    Pandas.loc
      (Pandas.shift 1
         (Pandas.column federal_funds_rate (Pandas.range_index panel))) i ∧
  fed_rate_change row =
    Pandas.loc
      (Pandas.diff
         (Pandas.column federal_funds_rate (Pandas.range_index panel))) i ∧
  unemployment_volatility_12mo row =
    Pandas.loc
      (Pandas.reset_index_drop
         (Pandas.groupby_rolling_std state unemployment_rate 12 1
            (Pandas.range_index panel))) i.
Proof.
  unfold calculate_derived_variables. rewrite list_lookup_fmap.
  destruct (Pandas.range_index panel !! i) as [[j r]|] eqn:Hi; [|done].
  simpl. intros [= <-]. simpl.
  assert (j = i) as ->; [|done].
  unfold Pandas.range_index in Hi.
  apply lookup_zip_Some in Hi as [Hj _].
  apply lookup_seq in Hj. lia.
Qed.

Lemma values_shift {A} k (s : Series A) :
  Pandas.values (Pandas.shift k s) =
    take (length s) (replicate k None ++ take (length s - k) (Pandas.values s)).
Proof.
  unfold Pandas.shift, Pandas.values, Pandas.index.
  generalize (replicate k (@None A) ++ take (length s - k) s.*2).
  intros w. rewrite <- (length_fmap fst s).
  generalize (s.*1). intros labels. revert w.
  induction labels as [|j labels IH]; intros [|v w]; csimpl; try done.
  by rewrite IH.
Qed.

(** What the code does for [fed_rate_lagged_1mo]: the federal funds rate of
    the previous panel row, whatever its state; null on the first panel
    row only. *)
Lemma fed_rate_lagged_is_previous_row panel i row :
  calculate_derived_variables panel !! i = Some row →
  fed_rate_lagged_1mo row =
    if decide (1 ≤ i) then panel !! (i - 1) ≫= federal_funds_rate else None.
Proof.
  intros (Hi & -> & _)%derived_row_lookup.
  rewrite (loc_shift 1 _ i i (federal_funds_rate (base row))).
  - case_decide; [|done].
    rewrite values_column, rows_range_index, list_lookup_fmap.
    by destruct (panel !! (i - 1)).
  - rewrite index_column. apply NoDup_range_index.
  - unfold Pandas.column. by rewrite list_lookup_fmap, Hi.
Qed.

(** What the code does for [fed_rate_change]: the rate of the row minus the
    rate of the previous panel row. *)
Lemma fed_rate_change_is_previous_row_difference panel i row :
  calculate_derived_variables panel !! i = Some row →
  fed_rate_change row =
    osub (federal_funds_rate (base row))
      (if decide (1 ≤ i) then panel !! (i - 1) ≫= federal_funds_rate
       else None).
Proof.
  intros Hrow.
  destruct (derived_row_lookup _ _ _ Hrow) as (Hi & _ & -> & _).
  assert (i < length panel) as Hlt.
  { apply lookup_lt_Some in Hi. by rewrite length_range_index in Hi. }
  set (s := Pandas.column federal_funds_rate (Pandas.range_index panel)).
  assert (length s = length panel) as Hlen
    by (subst s; unfold Pandas.column;
        by rewrite length_fmap, length_range_index).
  assert (Pandas.values s = federal_funds_rate <$> panel) as Hvalues
    by (subst s; by rewrite values_column, rows_range_index).
  unfold Pandas.diff. rewrite (loc_zip _ _ i i).
  - rewrite lookup_zip_with, values_shift, Hvalues, Hlen.
    rewrite lookup_take_lt by done.
    rewrite list_lookup_fmap.
    assert (panel !! i = Some (base row)) as ->.
    { rewrite <- (rows_range_index panel), list_lookup_fmap. by rewrite Hi. }
    destruct i as [|i'].
    + by rewrite decide_False by lia.
    + rewrite decide_True by lia.
      rewrite lookup_app_r by (rewrite length_replicate; lia).
      rewrite length_replicate, lookup_take_lt by lia.
      rewrite list_lookup_fmap.
      destruct (panel !! (S i' - 1)); simpl; [done|].
      by destruct (federal_funds_rate (base row)).
  - subst s. rewrite index_column. apply NoDup_range_index.
  - subst s. rewrite index_column, index_range_index.
    by apply lookup_seq_lt.
  - rewrite length_zip_with, values_shift, length_take, length_app, length_take.
    unfold Pandas.index, Pandas.values. rewrite !length_fmap. simpl. lia.
Qed.

(** What the code does for [unemployment_volatility_12mo]: the panel row at
    place [i] receives the [i]-th value of the groups' results laid end to
    end in state order. *)
Lemma volatility_is_positional panel i row :
  calculate_derived_variables panel !! i = Some row →
  unemployment_volatility_12mo row =
    mjoin (Pandas.values
             (Pandas.groupby_rolling_std state unemployment_rate 12 1
                (Pandas.range_index panel)) !! i).
Proof.
  intros (_ & _ & _ & ->)%derived_row_lookup.
  unfold Pandas.reset_index_drop.
  set (s := Pandas.groupby_rolling_std _ _ _ _ _).
  destruct (decide (i < length s)) as [Hlt|Hge].
  - apply loc_zip.
    + apply NoDup_seq.
    + by apply lookup_seq_lt.
    + unfold Pandas.values. by rewrite length_seq, length_fmap.
  - rewrite loc_absent.
    + rewrite lookup_ge_None_2; [done|].
      unfold Pandas.values. rewrite length_fmap. lia.
    + unfold Pandas.index. rewrite fst_zip.
      * rewrite elem_of_seq. lia.
      * unfold Pandas.values. by rewrite length_seq, length_fmap.
Qed.

(** C1.  On two states over two months the column [fed_rate_lagged_1mo]
    is the federal funds rate of the previous panel row, whatever its
    state: the first row of "AL" is not null, and the February row of
    "AL" holds the February rate.  A lag grouped by state is null on the
    first row of each state and holds the January rate in February. *)
Theorem fed_rate_lag_is_previous_panel_row :
  fed_rate_lagged_1mo <$> calculate_derived_variables two_by_two
    = [None; Some (8 # 1)%Q; Some (8 # 1)%Q; Some (33 # 4)%Q] ∧
  lag_by_state federal_funds_rate 1 two_by_two
    = [None; None; Some (8 # 1)%Q; Some (8 # 1)%Q] ∧
  unemployment_lagged_1mo <$> calculate_derived_variables two_by_two
    = lag_by_state unemployment_rate 1 two_by_two.
Proof. by vm_compute. Qed.

(** C2.  On two states over two months [fed_rate_change] is the
    difference to the previous panel row: zero on every row but the first
    of a month, where the month-to-month change is 33/4 - 8 on both
    February rows and null on both January rows. *)
Theorem fed_rate_change_is_row_difference :
  fed_rate_change <$> calculate_derived_variables two_by_two
    = [None; Some (8 - 8)%Q; Some ((33 # 4) - 8)%Q;
       Some ((33 # 4) - (33 # 4))%Q] ∧
  change_by_month two_by_two
    = [None; None; Some ((33 # 4) - 8)%Q; Some ((33 # 4) - 8)%Q].
Proof. by vm_compute. Qed.

(** C3.  On two states over two months the rolling statistics of "AK"
    (null, then the deviation of 7 and 8) and of "AL" (null, then the
    deviation of 6 and 13/2) are laid end to end and stored by position:
    the January row of "AL" receives the statistic of "AK", the February
    row of "AK" receives a null, and the first panel row is null. *)
Theorem volatility_is_stored_in_group_order :
  unemployment_volatility_12mo <$> calculate_derived_variables two_by_two
    = [None; Some (Pandas.Sqrt (1 # 2)); None; Some (Pandas.Sqrt (1 # 8))] ∧
  state <$> two_by_two = ["AK"; "AL"; "AK"; "AL"] ∧
  Pandas.values
    (Pandas.rolling_std 12 1
       (Pandas.column unemployment_rate
          (filter (λ p, state p.2 = "AK") (Pandas.range_index two_by_two))))
    = [None; Some (Pandas.Sqrt (1 # 2))] ∧
  Pandas.values
    (Pandas.rolling_std 12 1
       (Pandas.column unemployment_rate
          (filter (λ p, state p.2 = "AL") (Pandas.range_index two_by_two))))
    = [None; Some (Pandas.Sqrt (1 # 8))].
Proof. by vm_compute. Qed.
End derived_variables.

(** ** Credentials of the fetch entry points *)

Section credentials.
Implicit Types (environ : gmap string string).

(** Without a key, and without [--api-key], [fetch_data.py] prints the
    remediation text and ends with status 1. *)
Lemma fetch_data_missing_key fetch_and_save environ :
  truthy (getenv environ "FRED_API_KEY") = false →
  FetchData.main fetch_and_save None environ =
    {| stdout := ["ERROR: " +:+ FetchData.missing_key_message];
       completion := SysExit 1 |} ∧
  FetchData.script fetch_and_save None environ = 1%Z.
Proof.
  intros Hkey.
  unfold FetchData.script, FetchData.main, FetchData.get_fred_api_key.
  simpl. by rewrite Hkey.
Qed.

(** The status of [fetch_bls_data.py] is 0 whatever [main] returns. *)
Lemma fetch_bls_data_status fetch_all environ :
  FetchBlsData.script fetch_all environ = 0%Z.
Proof.
  unfold FetchBlsData.script, FetchBlsData.main, exit_status_bare_call.
  by destruct (truthy _).
Qed.

(** C10.  With an empty environment [fetch_bls_data.py] prints its
    remediation text, [main] returns 1, and the interpreter still ends
    with status 0, because the script calls [main()] without passing the
    result to [sys.exit]; [fetch_data.py], which does, ends with
    status 1. *)
Theorem fetch_bls_data_exits_zero_without_key :
  ∀ (fetch_all : string → list string) (fetch_and_save : string → Outcome),
    getenv ∅ "BLS_API_KEY" = None ∧
    FetchBlsData.main fetch_all ∅ =
      {| stdout :=
           [ "ERROR: BLS_API_KEY environment variable not set!";
             "Please set it with: export BLS_API_KEY=your_key_here";
             "Or add it to your .env file" ];
         completion := Returned (Some 1%Z) |} ∧
    FetchBlsData.script fetch_all ∅ = 0%Z ∧
    FetchData.script fetch_and_save None ∅ = 1%Z.
Proof. intros. by vm_compute. Qed.
End credentials.

(** ** Loading and harmonising *)

Section loading.
Import MergeFinalPanelEnhanced.
Implicit Types (raw data : gmap string Frame) (key : string).

Lemma load_core_raise raw e (files : list (string * string)) :
  foldl (load_core raw) (Raise e) files = Raise e.
Proof. by induction files. Qed.

(** The core loop stores under the keys of its table only. *)
Lemma load_core_other raw (files : list (string * string)) data data' key :
  foldl (load_core raw) (Ok data) files = Ok data' →
  key ∉ files.*1 → data' !! key = data !! key.
Proof.
  revert data.
  induction files as [|[k file] files IH]; intros data; csimpl.
  - by intros [= ->].
  - rewrite not_elem_of_cons. intros Hfold [Hne Hout].
    destruct (raw !! file) as [df|].
    + rewrite (IH _ Hfold Hout). by rewrite lookup_insert_ne.
    + by rewrite load_core_raise in Hfold.
Qed.

(** The optional loop stores under the keys of its table only. *)
Lemma load_optional_other raw (files : list (string * string)) data key :
  key ∉ files.*1 →
  foldl (load_optional raw) data files !! key = data !! key.
Proof.
  revert data.
  induction files as [|[k file] files IH]; intros data; csimpl; [done|].
  rewrite not_elem_of_cons. intros [Hne Hout].
  rewrite IH by done. unfold load_optional; simpl.
  destruct (raw !! file); [by rewrite lookup_insert_ne | done].
Qed.

(** A key of the optional table is stored only when its file exists. *)
Lemma load_optional_present raw (files : list (string * string)) data key f :
  foldl (load_optional raw) data files !! key = Some f →
  data !! key = Some f ∨ ∃ file, (key, file) ∈ files ∧ raw !! file = Some f.
Proof.
  revert data.
  induction files as [|[k file] files IH]; intros data; csimpl; [by left|].
  intros [Hdata|(file' & Hin & Hraw)]%IH.
  - unfold load_optional in Hdata; simpl in Hdata.
    destruct (raw !! file) as [df|] eqn:Hfile; [|by left].
    destruct (decide (k = key)) as [->|Hne].
    + rewrite lookup_insert_eq in Hdata. injection Hdata as ->.
      right. exists file. split; [by left | done].
    + rewrite lookup_insert_ne in Hdata by done. by left.
  - right. exists file'. split; [by right | done].
Qed.

Lemma load_raw_data_inv raw data :
  load_raw_data raw = Ok data →
  ∃ data0, foldl (load_core raw) (Ok ∅) core_files = Ok data0 ∧
           data = foldl (load_optional raw) data0 optional_files.
Proof.
  unfold load_raw_data.
  destruct (foldl _ _ core_files) as [data0|e]; [|done].
  simpl. intros [= <-]. by exists data0.
Qed.

(** The loader never stores a series under "real_income". *)
Lemma load_raw_data_real_income raw data :
  load_raw_data raw = Ok data → data !! "real_income" = None.
Proof.
  intros (data0 & Hcore & ->)%load_raw_data_inv.
  rewrite load_optional_other
    by (apply (bool_decide_unpack _); by vm_compute).
  rewrite (load_core_other _ _ _ _ _ Hcore)
    by (apply (bool_decide_unpack _); by vm_compute).
  done.
Qed.

(** The harmoniser changes nothing but the entry "real_income". *)
Lemma harmonize_frequencies_other asfreq_interpolate data data' key :
  harmonize_frequencies asfreq_interpolate data = Ok data' →
  key ≠ "real_income" → data' !! key = data !! key.
Proof.
  unfold harmonize_frequencies.
  destruct (data !! "real_income") as [df|]; [|by intros [= ->]].
  case_decide; [|by intros [= ->]].
  destruct (asfreq_interpolate df) as [df'|]; [|done].
  simpl. intros [= <-] Hne. by rewrite lookup_insert_ne.
Qed.

(** A "real_income" series with readings in more than one calendar month
    is returned as it is. *)
Lemma harmonize_frequencies_monthly asfreq_interpolate data df :
  data !! "real_income" = Some df →
  length (remove_dups (month_of <$> frame_dates df)) ≠ 1 →
  harmonize_frequencies asfreq_interpolate data = Ok data.
Proof.
  intros Hdf Hmonths. unfold harmonize_frequencies.
  rewrite Hdf. by rewrite decide_False.
Qed.

(** C9, as amended.  The harmoniser looks at the series stored under
    "real_income" and at no other; the loader never stores that key, so
    every table the loader returns comes back unchanged, whatever the
    cadence of its dates.  On any dict: without "real_income" the dict
    comes back as it is; so it does when the dates of that series fall in
    more than one calendar month (or the series has no date); and when
    they all fall in one calendar month the series is handed to the pandas
    chain, whose result replaces it and whose exception is passed on.  The
    harmoniser itself re-indexes nothing and carries nothing forward. *)
Theorem harmonizer_returns_loaded_tables_unchanged
    (asfreq_interpolate : Frame → result Frame) raw data :
  load_raw_data raw = Ok data →
  (data !! "real_income" = None ∧
   harmonize_frequencies asfreq_interpolate data = Ok data) ∧
  ∀ dict : gmap string Frame,
    match dict !! "real_income" with
    | None => harmonize_frequencies asfreq_interpolate dict = Ok dict
    | Some df =>
        if decide (length (remove_dups (month_of <$> frame_dates df)) = 1)
        then
          match asfreq_interpolate df with
          | Ok df' =>
              harmonize_frequencies asfreq_interpolate dict
                = Ok (<["real_income" := df']> dict)
          | Raise e =>
              harmonize_frequencies asfreq_interpolate dict = Raise e
          end
        else harmonize_frequencies asfreq_interpolate dict = Ok dict
    end.
Proof.
  intros Hreal%load_raw_data_real_income. split.
  - split; [done|]. unfold harmonize_frequencies. by rewrite Hreal.
  - intros dict. unfold harmonize_frequencies.
    destruct (dict !! "real_income") as [df|]; [|done].
    case_decide; [|done]. by destruct (asfreq_interpolate df).
Qed.

Lemma harmonizer_returns_loaded_tables_unchanged_witness :
  load_raw_data annual_raw = Ok annual_data ∧
  annual_data !! "real_income" = None ∧
  harmonize_frequencies interpolate_rejected annual_data = Ok annual_data ∧
  harmonize_frequencies interpolate_rejected income_data
    = Raise (ValueError "method must be one of the interpolation methods").
Proof.
  assert (load_raw_data annual_raw = Ok annual_data) as H
    by (vm_compute; reflexivity).
  destruct (harmonizer_returns_loaded_tables_unchanged
              interpolate_rejected annual_raw annual_data H)
    as [[H1 H2] H3].
  split; [exact H|]. split; [exact H1|]. split; [exact H2|].
  exact (H3 income_data).
Defined.

(** C9 fails as stated: a federal funds series with one reading a year,
    both on the first of January, is loaded and comes back from the
    harmoniser with its two rows, not re-indexed to the thirteen months
    from January 1990 to January 1991. *)
Lemma annual_series_is_not_reindexed :
  load_raw_data annual_raw = Ok annual_data ∧
  annual_data !! "federal_funds" = Some (National annual_funds) ∧
  month_of <$> frame_dates (National annual_funds) = [1; 1]%Z ∧
  year_of <$> frame_dates (National annual_funds) = [1990; 1991]%Z ∧
  month_of 7336 = 2%Z ∧ year_of 7336 = 1990%Z ∧
  ∃ data',
    harmonize_frequencies interpolate_rejected annual_data = Ok data' ∧
    data' !! "federal_funds" = Some (National annual_funds) ∧
    7336%Z ∉ frame_dates (National annual_funds).
Proof.
  repeat (split; [by vm_compute|]).
  exists annual_data. repeat (split; [by vm_compute|]).
  apply (bool_decide_unpack _). by vm_compute.
Qed.
End loading.

(** ** The common date range *)

Section date_range.
Implicit Types (l : list Timestamp) (m d : Timestamp).

Lemma foldr_min_earliest x l : earliest (x :: l) (foldr Z.min x l).
Proof.
  unfold earliest. induction l as [|y l [Hin Hle]]; simpl.
  - split; [by left|]. intros d ->%list_elem_of_singleton. lia.
  - split.
    + destruct (Z.min_spec y (foldr Z.min x l)) as [[_ ->]|[_ ->]].
      * right; by left.
      * apply elem_of_cons in Hin as [->|Hin]; [by left|].
        right; by right.
    + intros d Hd.
      assert (d = y ∨ d ∈ x :: l) as [->|Hd'].
      { apply elem_of_cons in Hd as [->|[->|Hd]%elem_of_cons];
          [right; by left | by left | right; by right]. }
      * lia.
      * specialize (Hle d Hd'). lia.
Qed.

Lemma foldr_max_latest x l : latest (x :: l) (foldr Z.max x l).
Proof.
  unfold latest. induction l as [|y l [Hin Hle]]; simpl.
  - split; [by left|]. intros d ->%list_elem_of_singleton. lia.
  - split.
    + destruct (Z.max_spec y (foldr Z.max x l)) as [[_ ->]|[_ ->]].
      * apply elem_of_cons in Hin as [->|Hin]; [by left|].
        right; by right.
      * right; by left.
    + intros d Hd.
      assert (d = y ∨ d ∈ x :: l) as [->|Hd'].
      { apply elem_of_cons in Hd as [->|[->|Hd]%elem_of_cons];
          [right; by left | by left | right; by right]. }
      * lia.
      * specialize (Hle d Hd'). lia.
Qed.

Lemma series_min_earliest l m :
  Pandas.series_min l = Some m → earliest l m.
Proof.
  destruct l as [|x l]; [done|]. intros [= <-]. apply foldr_min_earliest.
Qed.

Lemma series_max_latest l m :
  Pandas.series_max l = Some m → latest l m.
Proof.
  destruct l as [|x l]; [done|]. intros [= <-]. apply foldr_max_latest.
Qed.

Lemma series_min_is_Some l : l ≠ [] → is_Some (Pandas.series_min l).
Proof. destruct l; [done | by eexists]. Qed.

Lemma series_max_is_Some l : l ≠ [] → is_Some (Pandas.series_max l).
Proof. destruct l; [done | by eexists]. Qed.

Lemma earliest_unique l m m' : earliest l m → earliest l m' → m = m'.
Proof.
  intros [Hin Hle] [Hin' Hle']. specialize (Hle _ Hin').
  specialize (Hle' _ Hin). lia.
Qed.

Lemma latest_unique l m m' : latest l m → latest l m' → m = m'.
Proof.
  intros [Hin Hle] [Hin' Hle']. specialize (Hle _ Hin').
  specialize (Hle' _ Hin). lia.
Qed.

Lemma earliest_perm l l' m : l ≡ₚ l' → earliest l m → earliest l' m.
Proof.
  intros Hperm [Hin Hle]. split; [by rewrite <- Hperm|].
  intros d Hd. apply Hle. by rewrite Hperm.
Qed.

Lemma latest_perm l l' m : l ≡ₚ l' → latest l m → latest l' m.
Proof.
  intros Hperm [Hin Hle]. split; [by rewrite <- Hperm|].
  intros d Hd. apply Hle. by rewrite Hperm.
Qed.

(** The minimum and the maximum of a column do not depend on the order of
    its rows. *)
Lemma series_min_perm l l' :
  l ≡ₚ l' → Pandas.series_min l = Pandas.series_min l'.
Proof.
  intros Hperm.
  destruct (Pandas.series_min l) as [m|] eqn:Hl,
           (Pandas.series_min l') as [m'|] eqn:Hl'.
  - f_equal. apply (earliest_unique l').
    + by apply (earliest_perm l), series_min_earliest.
    + by apply series_min_earliest.
  - destruct l' as [|x' l']; [|done].
    apply Permutation_nil_r in Hperm as ->. done.
  - destruct l as [|x l]; [|done].
    symmetry in Hperm. apply Permutation_nil_r in Hperm as ->. done.
  - done.
Qed.

Lemma series_max_perm l l' :
  l ≡ₚ l' → Pandas.series_max l = Pandas.series_max l'.
Proof.
  intros Hperm.
  destruct (Pandas.series_max l) as [m|] eqn:Hl,
           (Pandas.series_max l') as [m'|] eqn:Hl'.
  - f_equal. apply (latest_unique l').
    + by apply (latest_perm l), series_max_latest.
    + by apply series_max_latest.
  - destruct l' as [|x' l']; [|done].
    apply Permutation_nil_r in Hperm as ->. done.
  - destruct l as [|x l]; [|done].
    symmetry in Hperm. apply Permutation_nil_r in Hperm as ->. done.
  - done.
Qed.

Lemma py_max_Some a b c :
  py_max (Some a) [Some b; Some c] = Some (Z.max a (Z.max b c)).
Proof.
  unfold py_max; simpl. repeat (case_bool_decide; simpl); f_equal; lia.
Qed.

Lemma py_min_Some a b c :
  py_min (Some a) [Some b; Some c] = Some (Z.min a (Z.min b c)).
Proof.
  unfold py_min; simpl. repeat (case_bool_decide; simpl); f_equal; lia.
Qed.

Lemma in_common_range_true lo hi d :
  MergeFinalPanel.in_common_range lo hi d = true →
  ∃ a b, lo = Some a ∧ hi = Some b ∧ (a ≤ d ≤ b)%Z.
Proof.
  unfold MergeFinalPanel.in_common_range.
  destruct lo as [a|], hi as [b|]; simpl; try done.
  - intros [Ha Hb]%andb_true_iff.
    apply bool_decide_eq_true in Ha, Hb. by exists a, b.
  - by rewrite andb_false_r.
Qed.

Lemma in_common_range_empty a b d :
  (b < a)%Z →
  MergeFinalPanel.in_common_range (Some a) (Some b) d = false.
Proof.
  intros Hlt. unfold MergeFinalPanel.in_common_range; simpl.
  apply andb_false_iff.
  destruct (decide (a ≤ d)%Z).
  - right. apply bool_decide_eq_false. lia.
  - left. by apply bool_decide_eq_false.
Qed.
End date_range.

(** ** Merges *)

Section merge_facts.
Context {A B C K : Type} `{EqDecision K}.
Context (left_on : A → K) (right_on : B → K).
Implicit Types (left : list A) (right : list B).

Lemma elem_of_merge_inner (f : A → B → C) left right c :
  c ∈ Pandas.merge_inner left_on right_on f left right ↔
  ∃ a b, a ∈ left ∧ b ∈ right ∧ right_on b = left_on a ∧ c = f a b.
Proof.
  unfold Pandas.merge_inner, Pandas.matches.
  rewrite list_elem_of_bind. split.
  - intros (a & Hc & Ha). apply list_elem_of_fmap in Hc as (b & -> & Hb).
    apply list_elem_of_filter in Hb as [Hkey Hb]. by exists a, b.
  - intros (a & b & Ha & Hb & Hkey & ->). exists a. split; [|done].
    apply list_elem_of_fmap_2. by apply list_elem_of_filter.
Qed.

Lemma merge_inner_fmap {D} (g : C → D) (f : A → B → C) left right :
  Pandas.merge_inner left_on right_on (λ a b, g (f a b)) left right =
    g <$> Pandas.merge_inner left_on right_on f left right.
Proof.
  unfold Pandas.merge_inner.
  induction left as [|a left IH]; [done|].
  rewrite !bind_cons, fmap_app, IH. f_equal.
  by rewrite <- list_fmap_compose.
Qed.

(** With one right row per key, a left row has at most one match. *)
Lemma matches_unique a right :
  NoDup (right_on <$> right) →
  Pandas.matches left_on right_on a right = [] ∨
  ∃ b, Pandas.matches left_on right_on a right = [b].
Proof.
  unfold Pandas.matches.
  induction right as [|b right IH]; csimpl; [by left|].
  intros [Hb Hnd]%NoDup_cons. rewrite filter_cons.
  destruct (decide (right_on b = left_on a)) as [Hkey|]; [|by apply IH].
  right. exists b. f_equal.
  destruct (filter _ right) as [|b' ?] eqn:Hfilter; [done|].
  assert (b' ∈ filter (λ b0, right_on b0 = left_on a) right) as Hb'
    by (rewrite Hfilter; by left).
  apply list_elem_of_filter in Hb' as [Hkey' Hb'].
  destruct Hb. rewrite Hkey, <- Hkey'. by apply list_elem_of_fmap_2.
Qed.

(** An inner merge against a right table with one row per key keeps at
    most one row per left row. *)
Lemma merge_inner_sublist {I} (kin : A → I) (kout : C → I)
    (f : A → B → C) left right :
  NoDup (right_on <$> right) →
  (∀ a b, kout (f a b) = kin a) →
  kout <$> Pandas.merge_inner left_on right_on f left right
    `sublist_of` kin <$> left.
Proof.
  intros Hnd Hkey. unfold Pandas.merge_inner.
  induction left as [|a left IH]; [done|].
  rewrite bind_cons, fmap_app, fmap_cons.
  destruct (matches_unique a right Hnd) as [->|[b ->]]; csimpl.
  - by apply sublist_cons.
  - rewrite Hkey. by apply sublist_skip.
Qed.

(** A left merge against a right table with one row per key keeps every
    left row exactly once. *)
Lemma merge_left_unique {I} (kin : A → I) (kout : C → I)
    (f : A → option B → C) left right :
  NoDup (right_on <$> right) →
  (∀ a ob, kout (f a ob) = kin a) →
  kout <$> Pandas.merge_left left_on right_on f left right = kin <$> left.
Proof.
  intros Hnd Hkey. unfold Pandas.merge_left.
  induction left as [|a left IH]; [done|].
  rewrite bind_cons, fmap_app, fmap_cons, IH.
  by destruct (matches_unique a right Hnd) as [->|[b ->]]; csimpl;
    rewrite Hkey.
Qed.
End merge_facts.

Section keeps_rows_facts.
Import MergeFinalPanelEnhanced.
Implicit Types (p : list EnhancedRow).

Lemma keeps_rows_refl p : keeps_rows p p.
Proof.
  exists (λ a, [a]). split.
  - induction p as [|a p IH]; [done|]. by rewrite bind_cons, <- IH.
  - intros a. split; [done | by apply Forall_singleton].
Qed.

Lemma keeps_rows_trans p1 p2 p3 :
  keeps_rows p1 p2 → keeps_rows p2 p3 → keeps_rows p1 p3.
Proof.
  intros (g & -> & Hg) (h & -> & Hh). exists (λ a, g a ≫= h). split.
  - induction p1 as [|a p1 IH]; [done|].
    by rewrite !bind_cons, bind_app, IH.
  - intros a. destruct (Hg a) as [Hne Hcore]. split.
    + destruct (g a) as [|b bs]; [done|]. rewrite bind_cons.
      destruct (Hh b) as [Hb _]. by destruct (h b).
    + apply Forall_bind. eapply Forall_impl; [exact Hcore|].
      intros b Hb. simpl in Hb. destruct (Hh b) as [_ Hcore'].
      eapply Forall_impl; [exact Hcore'|]. simpl. congruence.
Qed.

(** Every row that comes out has the core columns of a row that went
    in. *)
Lemma keeps_rows_elem_of p p' r' :
  keeps_rows p p' → r' ∈ p' → ∃ r, r ∈ p ∧ core r' = core r.
Proof.
  intros (g & -> & Hg) (r & Hr' & Hr)%list_elem_of_bind.
  exists r. split; [done|]. destruct (Hg r) as [_ Hcore].
  rewrite Forall_forall in Hcore. by apply Hcore.
Qed.

(** Rows selected by their core columns are never fewer afterwards. *)
Lemma keeps_rows_filter_length (P : PanelRow → bool) p p' :
  keeps_rows p p' →
  length (filter (λ r, P (core r)) p) ≤
    length (filter (λ r, P (core r)) p').
Proof.
  intros (g & -> & Hg).
  induction p as [|a p IH]; [simpl; lia|].
  rewrite bind_cons, filter_app, length_app, filter_cons.
  destruct (Hg a) as [Hne Hcore].
  destruct (decide (P (core a))) as [HP|HP]; simpl; [|lia].
  destruct (g a) as [|b bs]; [done|].
  apply Forall_cons in Hcore as [Hb _].
  rewrite filter_cons, decide_True by (by rewrite Hb). simpl. lia.
Qed.

(** A left merge that only adds a column keeps the rows. *)
Lemma merge_left_keeps_rows {B K} `{EqDecision K}
    (left_on : EnhancedRow → K) (right_on : B → K)
    (f : EnhancedRow → option B → EnhancedRow) p (right : list B) :
  (∀ a ob, core (f a ob) = core a) →
  keeps_rows p (Pandas.merge_left left_on right_on f p right).
Proof.
  intros Hcore. unfold Pandas.merge_left. eexists. split; [done|].
  intros a. lazy beta. destruct (Pandas.matches _ _ a right) as [|b bs].
  - split; [done|]. by apply Forall_singleton.
  - lazy iota. split; [done|]. apply Forall_fmap, Forall_forall.
    intros ? _. simpl. apply Hcore.
Qed.
End keeps_rows_facts.

(** ** Assembling the panel *)

Section assembly.
Import MergeFinalPanel.
Implicit Types (su : list StateObs) (ff nu : list NationalObs).
Implicit Types (raw : gmap string Frame) (r : PanelRow).

Lemma common_start_sorted su ff nu :
  common_start
    (Pandas.sort_values (λ a b, (s_date a <=? s_date b)%Z) su)
    (Pandas.sort_values (λ a b, (n_date a <=? n_date b)%Z) ff)
    (Pandas.sort_values (λ a b, (n_date a <=? n_date b)%Z) nu)
  = common_start su ff nu.
Proof.
  unfold common_start.
  by rewrite !(series_min_perm (_ <$> Pandas.sort_values _ _) (_ <$> _))
    by (by rewrite sort_values_perm).
Qed.

Lemma common_end_sorted su ff nu :
  common_end
    (Pandas.sort_values (λ a b, (s_date a <=? s_date b)%Z) su)
    (Pandas.sort_values (λ a b, (n_date a <=? n_date b)%Z) ff)
    (Pandas.sort_values (λ a b, (n_date a <=? n_date b)%Z) nu)
  = common_end su ff nu.
Proof.
  unfold common_end.
  by rewrite !(series_max_perm (_ <$> Pandas.sort_values _ _) (_ <$> _))
    by (by rewrite sort_values_perm).
Qed.

(** The assembler: join, keep the common range, sort. *)
Lemma create_state_panel_unfold su ff nu :
  create_state_panel su ff nu =
    Pandas.sort_values
      (λ a b, date_state_leb (date a) (state a) (date b) (state b))
      (filter (λ r, in_common_range (common_start su ff nu)
                      (common_end su ff nu) (date r))
         (joined_rows su ff nu)).
Proof.
  unfold create_state_panel. cbv zeta.
  by rewrite common_start_sorted, common_end_sorted.
Qed.

(** A joined row stems from one row of each required series, all three
    with its date. *)
Lemma elem_of_joined_rows su ff nu r :
  r ∈ joined_rows su ff nu →
  ∃ s f n, s ∈ su ∧ f ∈ ff ∧ n ∈ nu ∧
    date r = s_date s ∧ state r = s_state s ∧
    n_date f = s_date s ∧ n_date n = s_date s.
Proof.
  unfold joined_rows.
  intros (s & x & Hs & Hx & Hkey & ->)%elem_of_merge_inner.
  apply elem_of_merge_inner in Hx as (f & n & Hf & Hn & Hkey' & ->).
  rewrite sort_values_perm in Hs. rewrite sort_values_perm in Hf.
  rewrite sort_values_perm in Hn. simpl in *.
  exists s, f, n. repeat split; congruence.
Qed.

Lemma common_range_of_bounds su ff nu a b :
  su ≠ [] → ff ≠ [] → nu ≠ [] →
  common_start su ff nu = Some a → common_end su ff nu = Some b →
  common_range su ff nu a b.
Proof.
  unfold common_start, common_end. intros Hsu Hff Hnu.
  destruct (series_min_is_Some (s_date <$> su)) as [s0 Hs0];
    [by destruct su|].
  destruct (series_min_is_Some (n_date <$> ff)) as [f0 Hf0];
    [by destruct ff|].
  destruct (series_min_is_Some (n_date <$> nu)) as [n0 Hn0];
    [by destruct nu|].
  destruct (series_max_is_Some (s_date <$> su)) as [s1 Hs1];
    [by destruct su|].
  destruct (series_max_is_Some (n_date <$> ff)) as [f1 Hf1];
    [by destruct ff|].
  destruct (series_max_is_Some (n_date <$> nu)) as [n1 Hn1];
    [by destruct nu|].
  rewrite Hs0, Hf0, Hn0, Hs1, Hf1, Hn1, py_max_Some, py_min_Some.
  intros [= <-] [= <-]. exists s0, f0, n0, s1, f1, n1.
  repeat split; try done;
    (by apply series_min_earliest) || (by apply series_max_latest).
Qed.

(** Every row of the joined rows that passes the date filter lies in the
    range bounded by the maximum of the minimum dates and the minimum of
    the maximum dates. *)
Lemma joined_row_in_common_range su ff nu r :
  r ∈ joined_rows su ff nu →
  in_common_range (common_start su ff nu) (common_end su ff nu) (date r)
    = true →
  ∃ lo hi, common_range su ff nu lo hi ∧ (lo ≤ date r ≤ hi)%Z.
Proof.
  intros (s & f & n & Hs & Hf & Hn & _)%elem_of_joined_rows
         (a & b & Hlo & Hhi & Hin)%in_common_range_true.
  exists a, b. split; [|done].
  apply common_range_of_bounds; try done.
  - intros ->. by apply elem_of_nil in Hs.
  - intros ->. by apply elem_of_nil in Hf.
  - intros ->. by apply elem_of_nil in Hn.
Qed.

Lemma create_state_panel_in_range su ff nu r :
  r ∈ create_state_panel su ff nu →
  ∃ lo hi, common_range su ff nu lo hi ∧ (lo ≤ date r ≤ hi)%Z.
Proof.
  rewrite create_state_panel_unfold, sort_values_perm.
  intros [Hrange Hr]%list_elem_of_filter.
  apply joined_row_in_common_range; [done|].
  by apply Is_true_true.
Qed.

Lemma filter_none {X} (P : X → Prop) `{!∀ x, Decision (P x)} (l : list X) :
  (∀ x, ¬ P x) → filter P l = [].
Proof.
  intros HP. induction l as [|x l IH]; [done|].
  by rewrite filter_cons, decide_False.
Qed.

(** What [main] does once the three required files are there. *)
Lemma assemble_required raw su ff nu :
  raw !! "state_unemployment_rates.csv" = Some (StateLevel su) →
  raw !! "federal_funds_rate.csv" = Some (National ff) →
  raw !! "national_unemployment_rate.csv" = Some (National nu) →
  assemble raw = Ok (create_state_panel su ff nu).
Proof.
  intros Hsu Hff Hnu.
  unfold assemble, load_raw_data, files_to_load, load_file, getitem.
  simpl. rewrite Hff. simpl. rewrite Hnu. simpl. rewrite Hsu. simpl.
  by simplify_map_eq.
Qed.

(** C6, as amended.  When the required series have no date in common
    (the maximum of their minimum dates lies after the minimum of their
    maximum dates) the assembler raises nothing: [create_state_panel]
    returns the empty panel, and [main] writes that empty panel to both
    output files before the quality report is generated. *)
Theorem no_overlap_writes_empty_panel
    (generate_data_quality_report : list PanelRow → result string)
    raw su ff nu lo hi :
  raw !! "state_unemployment_rates.csv" = Some (StateLevel su) →
  raw !! "federal_funds_rate.csv" = Some (National ff) →
  raw !! "national_unemployment_rate.csv" = Some (National nu) →
  common_start su ff nu = Some lo →
  common_end su ff nu = Some hi →
  (hi < lo)%Z →
  create_state_panel su ff nu = [] ∧
  written (main generate_data_quality_report raw) =
    <["analysis_panel.csv" := []]> (<["panel_processed.csv" := []]> ∅).
Proof.
  intros Hsu Hff Hnu Hlo Hhi Hlt.
  assert (create_state_panel su ff nu = []) as Hempty.
  { rewrite create_state_panel_unfold, Hlo, Hhi.
    rewrite filter_none; [done|].
    intros r Hr%Is_true_true. by rewrite in_common_range_empty in Hr. }
  split; [done|].
  unfold main. rewrite (assemble_required raw su ff nu) by done.
  rewrite Hempty. by destruct (generate_data_quality_report []).
Qed.

Lemma no_overlap_writes_empty_panel_witness :
  (disjoint_raw !! "state_unemployment_rates.csv"
     = Some (StateLevel disjoint_states) ∧
   disjoint_raw !! "federal_funds_rate.csv"
     = Some (National disjoint_funds) ∧
   disjoint_raw !! "national_unemployment_rate.csv"
     = Some (National disjoint_national) ∧
   common_start disjoint_states disjoint_funds disjoint_national
     = Some 7336%Z ∧
   common_end disjoint_states disjoint_funds disjoint_national
     = Some 7305%Z ∧
   (7305 < 7336)%Z) ∧
  create_state_panel disjoint_states disjoint_funds disjoint_national = [] ∧
  written (main (report_failing _) disjoint_raw) =
    <["analysis_panel.csv" := []]> (<["panel_processed.csv" := []]> ∅).
Proof.
  assert (disjoint_raw !! "state_unemployment_rates.csv"
            = Some (StateLevel disjoint_states)) as H1
    by (vm_compute; reflexivity).
  assert (disjoint_raw !! "federal_funds_rate.csv"
            = Some (National disjoint_funds)) as H2
    by (vm_compute; reflexivity).
  assert (disjoint_raw !! "national_unemployment_rate.csv"
            = Some (National disjoint_national)) as H3
    by (vm_compute; reflexivity).
  assert (common_start disjoint_states disjoint_funds disjoint_national
            = Some 7336%Z) as H4 by (vm_compute; reflexivity).
  assert (common_end disjoint_states disjoint_funds disjoint_national
            = Some 7305%Z) as H5 by (vm_compute; reflexivity).
  assert (7305 < 7336)%Z as H6 by lia.
  split; [done|].
  exact (no_overlap_writes_empty_panel (report_failing _) disjoint_raw
           disjoint_states disjoint_funds disjoint_national
           7336%Z 7305%Z H1 H2 H3 H4 H5 H6).
Defined.

(** C6 fails as stated: on required series with no common date the
    assembler returns an empty panel instead of raising, and [main]
    writes it to both files, whether the quality report that follows
    succeeds (exit status 0) or raises (exit status 1). *)
Lemma no_overlap_is_not_an_error :
  common_start disjoint_states disjoint_funds disjoint_national
    = Some 7336%Z ∧
  common_end disjoint_states disjoint_funds disjoint_national
    = Some 7305%Z ∧
  assemble disjoint_raw = Ok [] ∧
  main (report_written _) disjoint_raw =
    {| written :=
         <["analysis_panel.csv" := []]> (<["panel_processed.csv" := []]> ∅);
       exit_code := 0 |} ∧
  main (report_failing _) disjoint_raw =
    {| written :=
         <["analysis_panel.csv" := []]> (<["panel_processed.csv" := []]> ∅);
       exit_code := 1 |}.
Proof. repeat split; by vm_compute. Qed.
End assembly.

(** ** Assembling the enhanced panel *)

Lemma bind_Ok {X Y} (x : X) (k : X → result Y) : Ok x ≫= k = k x.
Proof. done. Qed.

Lemma bind_Ok_inv {X Y} (m : result X) (k : X → result Y) y :
  m ≫= k = Ok y → ∃ x, m = Ok x ∧ k x = Ok y.
Proof. destruct m as [x|]; [|done]. intros Hk. by exists x. Qed.

Section fold_facts.
Context {X E : Type} (step : result X → E → result X).
Hypothesis step_raise : ∀ err e, step (Raise err) e = Raise err.

Lemma foldl_raise err (entries : list E) :
  foldl step (Raise err) entries = Raise err.
Proof.
  induction entries as [|e es IH]; simpl; [done|]. by rewrite step_raise.
Qed.

(** A relation that every round of a loop establishes holds from the
    start of the loop to its end. *)
Lemma foldl_result_rel (Rel : X → X → Prop) (entries : list E) :
  (∀ p, Rel p p) →
  (∀ p1 p2 p3, Rel p1 p2 → Rel p2 p3 → Rel p1 p3) →
  (∀ p e p', e ∈ entries → step (Ok p) e = Ok p' → Rel p p') →
  ∀ p p', foldl step (Ok p) entries = Ok p' → Rel p p'.
Proof.
  intros Hrefl Htrans.
  induction entries as [|e es IH]; intros Hstep p p'; simpl.
  - by intros [= ->].
  - destruct (step (Ok p) e) as [p1|err] eqn:He.
    + intros Hfold. apply (Htrans p p1 p').
      * apply (Hstep p e); [by left | done].
      * apply IH; [|done]. intros ???? ?. eapply Hstep; [by right | done].
    + by rewrite foldl_raise.
Qed.

(** A loop whose rounds all succeed succeeds. *)
Lemma foldl_result_ok (entries : list E) :
  (∀ p e, e ∈ entries → ∃ p', step (Ok p) e = Ok p') →
  ∀ p, ∃ p', foldl step (Ok p) entries = Ok p'.
Proof.
  induction entries as [|e es IH]; intros Hstep p; simpl.
  - by exists p.
  - destruct (Hstep p e) as [p1 ->]; [by left|].
    apply IH. intros ???. apply Hstep. by right.
Qed.
End fold_facts.

Section enhanced_assembly.
Import MergeFinalPanelEnhanced.
Implicit Types (su : list StateObs) (ff nu : list NationalObs).
Implicit Types (raw data : gmap string Frame) (p : list EnhancedRow).

Lemma core_add_column name v (r : EnhancedRow) :
  core (add_column name v r) = core r.
Proof. done. Qed.

Lemma merge_national_raise data err entry :
  merge_national data (Raise err) entry = Raise err.
Proof. done. Qed.

Lemma merge_state_raise data err state_var :
  merge_state data (Raise err) state_var = Raise err.
Proof. done. Qed.

Lemma merge_national_keeps_rows data p entry p' :
  merge_national data (Ok p) entry = Ok p' → keeps_rows p p'.
Proof.
  unfold merge_national; simpl.
  destruct (data !! entry.1) as [[rows|rows]|]; simpl; try done.
  - intros [= <-]. by apply merge_left_keeps_rows.
  - intros [= <-]. apply keeps_rows_refl.
Qed.

Lemma merge_state_keeps_rows data p state_var p' :
  merge_state data (Ok p) state_var = Ok p' → keeps_rows p p'.
Proof.
  unfold merge_state; simpl.
  destruct (data !! state_var) as [[rows|rows]|]; simpl; try done.
  - intros [= <-]. by apply merge_left_keeps_rows.
  - intros [= <-]. apply keeps_rows_refl.
Qed.

Lemma merge_national_unique data p entry p' :
  supplementary_unique data → entry ∈ national_supplementary →
  merge_national data (Ok p) entry = Ok p' → core <$> p' = core <$> p.
Proof.
  intros Hunique Hentry. unfold merge_national; simpl.
  destruct (data !! entry.1) as [[rows|rows]|] eqn:Hdata; simpl; try done.
  - intros [= <-]. apply (merge_left_unique _ _ core core); [|done].
    rewrite sort_values_perm.
    apply (Hunique entry.1 (National rows)); [|done].
    apply elem_of_app. left. by apply list_elem_of_fmap_2.
  - by intros [= <-].
Qed.

Lemma merge_state_unique data p state_var p' :
  supplementary_unique data → state_var ∈ state_supplementary →
  merge_state data (Ok p) state_var = Ok p' → core <$> p' = core <$> p.
Proof.
  intros Hunique Hentry. unfold merge_state; simpl.
  destruct (data !! state_var) as [[rows|rows]|] eqn:Hdata; simpl; try done.
  - intros [= <-]. apply (merge_left_unique _ _ core core); [|done].
    rewrite sort_values_perm.
    apply (Hunique state_var (StateLevel rows)); [|done].
    apply elem_of_app. by right.
  - by intros [= <-].
Qed.

(** The enhanced assembler: the joined rows, widened by the two loops,
    then filtered to the common range and sorted. *)
Lemma create_state_panel_inv su ff nu data panel :
  create_state_panel su ff nu data = Ok panel →
  ∃ p2,
    keeps_rows ((λ r, {| core := r; supplementary := ∅ |})
                  <$> joined_rows su ff nu) p2 ∧
    (supplementary_unique data → core <$> p2 = joined_rows su ff nu) ∧
    panel =
      Pandas.sort_values
        (λ a b, date_state_leb (date (core a)) (state (core a))
                  (date (core b)) (state (core b)))
        (filter (λ r, MergeFinalPanel.in_common_range
                        (MergeFinalPanel.common_start su ff nu)
                        (MergeFinalPanel.common_end su ff nu)
                        (date (core r))) p2).
Proof.
  unfold create_state_panel. cbv zeta.
  rewrite common_start_sorted, common_end_sorted.
  rewrite (merge_inner_fmap s_date _
             (λ r, {| core := r; supplementary := ∅ |})).
  fold (joined_rows su ff nu).
  set (p0 := _ <$> joined_rows su ff nu).
  intros (p1 & H1 & (p2 & H2 & [= <-])%bind_Ok_inv)%bind_Ok_inv.
  exists p2. split; [|split; [|done]].
  - apply (keeps_rows_trans _ p1).
    + revert H1. apply foldl_result_rel;
        eauto using keeps_rows_refl, keeps_rows_trans,
          merge_national_keeps_rows.
    + revert H2. apply foldl_result_rel;
        eauto using keeps_rows_refl, keeps_rows_trans,
          merge_state_keeps_rows.
  - intros Hunique.
    assert (core <$> p1 = core <$> p0) as Hp1.
    { revert H1.
      apply (foldl_result_rel _ (merge_national_raise data)
               (λ p p', core <$> p' = core <$> p));
        [done | congruence | eauto using merge_national_unique]. }
    assert (core <$> p2 = core <$> p1) as Hp2.
    { revert H2.
      apply (foldl_result_rel _ (merge_state_raise data)
               (λ p p', core <$> p' = core <$> p));
        [done | congruence | eauto using merge_state_unique]. }
    rewrite Hp2, Hp1. subst p0. rewrite <- list_fmap_compose.
    by rewrite list_fmap_id.
Qed.
End enhanced_assembly.

(** ** Keys, row counts and dates of the assembled panels *)

Section panel_properties.
Import MergeFinalPanelEnhanced.
Implicit Types (su : list StateObs) (ff nu : list NationalObs).
Implicit Types (raw data : gmap string Frame) (p : list EnhancedRow).

(** With one row per key in the three required series, the joined rows
    have one row per (date, state). *)
Lemma NoDup_joined_rows su ff nu :
  unique_keys (StateLevel su) → unique_keys (National ff) →
  unique_keys (National nu) →
  NoDup (panel_key <$> joined_rows su ff nu).
Proof.
  simpl. intros Hsu Hff Hnu. unfold joined_rows.
  eapply sublist_NoDup; first last.
  - apply (merge_inner_sublist _ _ (λ o, (s_date o, s_state o)) panel_key);
      [|done].
    eapply sublist_NoDup; first last.
    + by apply (merge_inner_sublist _ _ n_date (λ n, n.1.1));
        [rewrite sort_values_perm|].
    + by rewrite sort_values_perm.
  - by rewrite sort_values_perm.
Qed.

Lemma NoDup_create_state_panel su ff nu :
  unique_keys (StateLevel su) → unique_keys (National ff) →
  unique_keys (National nu) →
  NoDup (panel_key <$> MergeFinalPanel.create_state_panel su ff nu).
Proof.
  intros Hsu Hff Hnu.
  rewrite create_state_panel_unfold, sort_values_perm.
  apply (sublist_NoDup _ (panel_key <$> joined_rows su ff nu));
    [by apply NoDup_joined_rows|].
  apply fmap_sublist, sublist_filter.
Qed.

(** With one row per key in every supplementary table, the enhanced
    panel has the rows of the core panel, in the same order, each with
    its supplementary columns. *)
Lemma core_create_state_panel su ff nu data panel :
  supplementary_unique data →
  create_state_panel su ff nu data = Ok panel →
  core <$> panel = MergeFinalPanel.create_state_panel su ff nu.
Proof.
  intros Hunique (p2 & _ & Hcore & ->)%create_state_panel_inv.
  rewrite create_state_panel_unfold, <- (Hcore Hunique).
  rewrite (sort_values_fmap core
             (λ a b, date_state_leb (date a) (state a) (date b) (state b))).
  by rewrite (filter_fmap core
                (λ r : PanelRow,
                MergeFinalPanel.in_common_range
                  (MergeFinalPanel.common_start su ff nu)
                  (MergeFinalPanel.common_end su ff nu) (date r))).
Qed.

(** The enhanced panel never has fewer rows than the core panel. *)
Lemma length_create_state_panel su ff nu data panel :
  create_state_panel su ff nu data = Ok panel →
  length (MergeFinalPanel.create_state_panel su ff nu) ≤ length panel.
Proof.
  intros (p2 & Hkeeps & _ & ->)%create_state_panel_inv.
  rewrite create_state_panel_unfold, !sort_values_perm.
  etrans;
    [|apply (keeps_rows_filter_length
               (λ r : PanelRow,
                 MergeFinalPanel.in_common_range
                   (MergeFinalPanel.common_start su ff nu)
                   (MergeFinalPanel.common_end su ff nu) (date r)) _ _ Hkeeps)].
  by rewrite filter_fmap, length_fmap.
Qed.

Lemma create_state_panel_enhanced_in_range su ff nu data panel r :
  create_state_panel su ff nu data = Ok panel → r ∈ panel →
  ∃ lo hi, common_range su ff nu lo hi ∧ (lo ≤ date (core r) ≤ hi)%Z.
Proof.
  intros (p2 & Hkeeps & _ & ->)%create_state_panel_inv.
  rewrite sort_values_perm. intros [Hrange Hr]%list_elem_of_filter.
  destruct (keeps_rows_elem_of _ _ _ Hkeeps Hr) as (r0 & Hr0 & Hcore).
  apply list_elem_of_fmap in Hr0 as (c & -> & Hc). simpl in Hcore.
  rewrite Hcore in *.
  apply joined_row_in_common_range; [done | by apply Is_true_true].
Qed.

(** The enhanced assembler succeeds on a dict whose supplementary tables
    have the expected columns. *)
Lemma create_state_panel_ok su ff nu data :
  supplementary_well_formed data →
  ∃ panel, create_state_panel su ff nu data = Ok panel.
Proof.
  intros Hwf. unfold create_state_panel. cbv zeta.
  match goal with
  | |- context [foldl (merge_national data) (Ok ?p0) _] =>
      destruct (foldl_result_ok (merge_national data)
                  national_supplementary) with (p := p0) as [p1 ->]
  end.
  { intros p e He. unfold merge_national; simpl.
    destruct (data !! e.1) as [f|] eqn:Hdata; [|by eexists].
    assert (e.1 ∈ national_supplementary.*1) as Hkey
      by (by apply list_elem_of_fmap_2).
    assert (expected_columns e.1 f) as Hcols.
    { apply Hwf; [|done]. apply elem_of_app. by left. }
    unfold expected_columns in Hcols. rewrite decide_True in Hcols by done.
    destruct Hcols as [rows ->]. by eexists. }
  rewrite bind_Ok.
  destruct (foldl_result_ok (merge_state data) state_supplementary)
    with (p := p1) as [p2 ->]; [|by eexists].
  intros p e He. unfold merge_state; simpl.
  destruct (data !! e) as [f|] eqn:Hdata; [|by eexists].
  assert (expected_columns e f) as Hcols.
  { apply Hwf; [|done]. apply elem_of_app. by right. }
  unfold expected_columns in Hcols. rewrite decide_False in Hcols.
  - destruct Hcols as [rows ->]. by eexists.
  - clear -He. intros Hnat.
    repeat (apply elem_of_cons in He as [->|He];
            [by apply (bool_decide_pack _) in Hnat|]).
    by apply elem_of_nil in He.
Qed.
End panel_properties.

(** ** The enhanced merge from the raw directory *)

Section enhanced_run.
Import MergeFinalPanelEnhanced.
Implicit Types (su : list StateObs) (ff nu : list NationalObs).
Implicit Types (raw data : gmap string Frame) (key file : string).

(** The loader succeeds as soon as the three core files exist, and stores
    them under their keys. *)
Lemma load_raw_data_required raw su ff nu :
  raw !! "state_unemployment_rates.csv" = Some (StateLevel su) →
  raw !! "federal_funds_rate.csv" = Some (National ff) →
  raw !! "national_unemployment_rate.csv" = Some (National nu) →
  ∃ data, load_raw_data raw = Ok data ∧
    data !! "state_unemployment" = Some (StateLevel su) ∧
    data !! "federal_funds" = Some (National ff) ∧
    data !! "national_unemployment" = Some (National nu).
Proof.
  intros Hsu Hff Hnu.
  exists (foldl (load_optional raw)
            (<["state_unemployment" := StateLevel su]>
               (<["national_unemployment" := National nu]>
                  (<["federal_funds" := National ff]> ∅)))
            optional_files).
  split.
  - unfold load_raw_data, core_files, load_core. simpl.
    rewrite Hff. simpl. rewrite Hnu. simpl. by rewrite Hsu.
  - repeat split;
      (rewrite load_optional_other
         by (apply (bool_decide_unpack _); by vm_compute));
      by simplify_map_eq.
Qed.

(** A supplementary key of the dict comes from its file. *)
Lemma loaded_supplementary raw data key f :
  load_raw_data raw = Ok data → key ∈ supplementary_keys →
  data !! key = Some f →
  ∃ file, (key, file) ∈ optional_files ∧ raw !! file = Some f.
Proof.
  intros (data0 & Hcore & ->)%load_raw_data_inv Hkey Hdata.
  apply load_optional_present in Hdata as [Hdata|Hfile]; [|done].
  rewrite (load_core_other _ _ _ _ _ Hcore) in Hdata; [done|].
  clear -Hkey. intros Hcore.
  repeat (apply elem_of_cons in Hkey as [->|Hkey];
          [by apply (bool_decide_pack _) in Hcore|]).
  by apply elem_of_nil in Hkey.
Qed.

(** An optional file that is absent leaves its key out of the dict. *)
Lemma loaded_absent raw data key file :
  load_raw_data raw = Ok data → (key, file) ∈ optional_files →
  raw !! file = None → data !! key = None.
Proof.
  intros (data0 & Hcore & ->)%load_raw_data_inv Hin Hraw.
  destruct (foldl _ _ _ !! key) as [f|] eqn:Hdata; [|done].
  apply load_optional_present in Hdata as [Hdata|(file' & Hin' & Hraw')].
  - rewrite (load_core_other _ _ _ _ _ Hcore) in Hdata; [done|].
    clear -Hin. intros Hcore.
    repeat (apply elem_of_cons in Hin as [[= -> ->]|Hin];
            [by apply (bool_decide_pack _) in Hcore|]).
    by apply elem_of_nil in Hin.
  - assert (file' = file) as ->; [|congruence].
    apply (NoDup_fst_functional optional_files key); [|done|done].
    apply (bool_decide_unpack _). by vm_compute.
Qed.

Lemma loaded_well_formed raw data :
  load_raw_data raw = Ok data → optional_files_well_formed raw →
  supplementary_well_formed data.
Proof.
  intros Hload Hwf key f Hkey Hdata.
  destruct (loaded_supplementary _ _ _ _ Hload Hkey Hdata)
    as (file & Hin & Hraw).
  by apply (Hwf key file).
Qed.

Lemma loaded_unique raw data :
  load_raw_data raw = Ok data → optional_files_unique raw →
  supplementary_unique data.
Proof.
  intros Hload Hunique key f Hkey Hdata.
  destruct (loaded_supplementary _ _ _ _ Hload Hkey Hdata)
    as (file & Hin & Hraw).
  by apply (Hunique key file).
Qed.

(** A left row without a match keeps its place, the new column null. *)
Lemma merge_left_unmatched {B K} `{EqDecision K} (left_on : EnhancedRow → K)
    (right_on : B → K) (value : B → option Q) name (r : EnhancedRow)
    (right : list B) :
  (∀ b, b ∈ right → right_on b ≠ left_on r) →
  Pandas.merge_left left_on right_on
    (λ r ob, add_column name (ob ≫= value) r) [r] right
  = [add_column name None r].
Proof.
  intros Hnone. unfold Pandas.merge_left, Pandas.matches.
  rewrite bind_singleton.
  assert (filter (λ b, right_on b = left_on r) right = []) as ->; [|done].
  induction right as [|b right IH]; [done|].
  rewrite filter_cons, decide_False by (apply Hnone; by left).
  apply IH. intros b' Hb'. apply Hnone. by right.
Qed.
End enhanced_run.

(** ** The claims on the assembled panels *)

Section panel_claims.
Import MergeFinalPanelEnhanced.
Implicit Types (su : list StateObs) (ff nu : list NationalObs).
Implicit Types (raw data : gmap string Frame) (d : Timestamp).

(** C4.  Every date of an assembled panel, core or enhanced, lies between
    [lo] and [hi] inclusive, where [lo] is the maximum of the minimum
    dates and [hi] the minimum of the maximum dates of the state
    unemployment, federal funds and national unemployment series. *)
Theorem panel_dates_within_common_range su ff nu data d :
  (d ∈ date <$> MergeFinalPanel.create_state_panel su ff nu ∨
   ∃ panel, create_state_panel su ff nu data = Ok panel ∧
            d ∈ (date ∘ core) <$> panel) →
  ∃ lo hi, common_range su ff nu lo hi ∧ (lo ≤ d ≤ hi)%Z.
Proof.
  intros [Hd|(panel & Hpanel & Hd)].
  - apply list_elem_of_fmap in Hd as (r & -> & Hr).
    by apply create_state_panel_in_range.
  - apply list_elem_of_fmap in Hd as (r & -> & Hr).
    by apply (create_state_panel_enhanced_in_range su ff nu data panel).
Qed.

Lemma panel_dates_within_common_range_witness :
  (7336%Z ∈ date <$> MergeFinalPanel.create_state_panel
                       sample_states sample_funds sample_national ∨
   ∃ panel,
     create_state_panel sample_states sample_funds sample_national ∅
       = Ok panel ∧
     7336%Z ∈ (date ∘ core) <$> panel) ∧
  ∃ lo hi, common_range sample_states sample_funds sample_national lo hi ∧
           (lo ≤ 7336 ≤ hi)%Z.
Proof.
  assert (7336%Z ∈ date <$> MergeFinalPanel.create_state_panel
                              sample_states sample_funds sample_national)
    as H by (apply (bool_decide_unpack _); vm_compute; exact I).
  split; [by left|].
  exact (panel_dates_within_common_range sample_states sample_funds
           sample_national ∅ 7336%Z (or_introl H)).
Defined.

(** C5.  When each required series has one row per date, or per (date,
    state), the core panel has one row per (date, state); so has the
    enhanced panel when each supplementary table has one row per key, the
    left merges neither dropping nor repeating a row; and the derived
    variables leave the rows and their keys as they are. *)
Theorem date_state_is_candidate_key su ff nu :
  unique_keys (StateLevel su) → unique_keys (National ff) →
  unique_keys (National nu) →
  NoDup (panel_key <$> MergeFinalPanel.create_state_panel su ff nu) ∧
  (∀ data panel,
     supplementary_unique data →
     create_state_panel su ff nu data = Ok panel →
     NoDup ((panel_key ∘ core) <$> panel) ∧
     NoDup ((panel_key ∘ core ∘ row)
              <$> calculate_derived_variables panel)) ∧
  (∀ panel : list PanelRow,
     NoDup (panel_key <$> panel) →
     NoDup ((panel_key ∘ AddSupplementaryVariables.base)
              <$> AddSupplementaryVariables.calculate_derived_variables
                    panel)).
Proof.
  intros Hsu Hff Hnu.
  pose proof (NoDup_create_state_panel su ff nu Hsu Hff Hnu) as Hcore.
  split; [done|]. split.
  - intros data panel Hunique Hpanel.
    assert (NoDup ((panel_key ∘ core) <$> panel)) as Hkeys.
    { rewrite list_fmap_compose.
      by rewrite (core_create_state_panel su ff nu data panel). }
    split; [done|].
    unfold calculate_derived_variables.
    by rewrite <- list_fmap_compose.
  - intros panel Hpanel. rewrite list_fmap_compose.
    by rewrite base_calculate_derived_variables.
Qed.

Lemma date_state_is_candidate_key_witness :
  (unique_keys (StateLevel sample_states) ∧
   unique_keys (National sample_funds) ∧
   unique_keys (National sample_national)) ∧
  NoDup (panel_key <$> MergeFinalPanel.create_state_panel
                         sample_states sample_funds sample_national).
Proof.
  assert (unique_keys (StateLevel sample_states)) as H1
    by (apply (bool_decide_unpack _); vm_compute; exact I).
  assert (unique_keys (National sample_funds)) as H2
    by (apply (bool_decide_unpack _); vm_compute; exact I).
  assert (unique_keys (National sample_national)) as H3
    by (apply (bool_decide_unpack _); vm_compute; exact I).
  split; [done|].
  exact (proj1 (date_state_is_candidate_key sample_states sample_funds
                  sample_national H1 H2 H3)).
Defined.

(** What the enhanced [main] does once the three core files exist and
    the optional files that exist have the expected columns. *)
Lemma assemble_enhanced asfreq_interpolate raw su ff nu data panel :
  load_raw_data raw = Ok data →
  data !! "state_unemployment" = Some (StateLevel su) →
  data !! "federal_funds" = Some (National ff) →
  data !! "national_unemployment" = Some (National nu) →
  create_state_panel su ff nu data = Ok panel →
  assemble asfreq_interpolate raw = Ok (calculate_derived_variables panel).
Proof.
  intros Hload Hsu Hff Hnu Hpanel. unfold assemble.
  rewrite Hload, bind_Ok. unfold harmonize_frequencies.
  rewrite (load_raw_data_real_income raw data Hload), bind_Ok.
  unfold getitem. rewrite Hsu, Hff, Hnu. simpl.
  by rewrite Hpanel.
Qed.

End panel_claims.

(** ** The sample directory with one optional file *)

Section sample_run.
Import MergeFinalPanelEnhanced.

Lemma inflation_raw_well_formed : optional_files_well_formed inflation_raw.
Proof.
  intros key file f Hin Hraw.
  repeat (apply elem_of_cons in Hin as [[= -> ->]|Hin]);
    try (by apply elem_of_nil in Hin);
    vm_compute in Hraw; try discriminate.
  injection Hraw as <-. unfold expected_columns.
  rewrite decide_True by (apply (bool_decide_unpack _); by vm_compute).
  by eexists.
Qed.

(** On the sample directory the recession file is absent: the panel is
    written with the four rows of the core panel, the inflation column
    filled where the series has a reading and null elsewhere, and no
    recession column. *)
Example recession_file_absent :
  (λ r, (date (core (row r)), state (core (row r)),
         supplementary (row r) !! "inflation_cpi",
         supplementary (row r) !! "recession_indicator"))
    <$> default []
          (written (main interpolate_rejected (report_written _)
                      inflation_raw) !! "analysis_panel_enhanced.csv")
  = [ (7336%Z, "AK", Some (Some (128 # 1)%Q), None);
      (7336%Z, "AL", Some (Some (128 # 1)%Q), None);
      (7364%Z, "AK", Some None, None);
      (7364%Z, "AL", Some None, None) ] ∧
  length (MergeFinalPanel.create_state_panel
            sample_states sample_funds sample_national) = 4.
Proof. by vm_compute. Qed.
End sample_run.

(** ** Order of the assembled panel *)

Section panel_order.
Context {A : Type} (R : relation A) (leb : A → A → bool).
Hypothesis leb_true : ∀ x y, leb x y = true → R x y.
Hypothesis leb_false : ∀ x y, leb x y = false → R y x.
Hypothesis R_trans : ∀ x y z, R x y → R y z → R x z.

Lemma insert_sorted_StronglySorted x (l : list A) :
  StronglySorted R l → StronglySorted R (Pandas.insert_sorted leb x l).
Proof.
  induction l as [|y l IH]; simpl.
  - intros _. by repeat constructor.
  - rewrite StronglySorted_cons. intros [Hall Hsorted].
    destruct (leb x y) eqn:Hxy.
    + apply StronglySorted_cons. split.
      * constructor; [by apply leb_true|].
        eapply Forall_impl; [exact Hall|]. intros z Hz. simpl in Hz.
        by apply (R_trans x y z); [apply leb_true|].
      * by apply StronglySorted_cons.
    + apply StronglySorted_cons. split; [|by apply IH].
      rewrite insert_sorted_perm. constructor; [by apply leb_false | done].
Qed.

Lemma sort_values_StronglySorted (l : list A) :
  StronglySorted R (Pandas.sort_values leb l).
Proof.
  unfold Pandas.sort_values.
  induction l as [|x l IH]; simpl; [constructor|].
  by apply insert_sorted_StronglySorted.
Qed.
End panel_order.

(** The core panel leaves the assembler in chronological order, so the
    rows of a state in panel order are its chronological sequence. *)
Lemma create_state_panel_chronological (su : list StateObs)
    (ff nu : list NationalObs) :
  chronological (MergeFinalPanel.create_state_panel su ff nu).
Proof.
  unfold chronological, MergeFinalPanel.create_state_panel. cbv zeta.
  apply sort_values_StronglySorted.
  - intros x y. unfold date_state_leb.
    intros [Hlt|[Heq _]%andb_true_iff]%orb_true_iff; lia.
  - intros x y. unfold date_state_leb.
    intros [Hlt Heq]%orb_false_iff.
    apply Z.ltb_ge in Hlt. lia.
  - intros x y z. lia.
Qed.

(** * Further properties of the scripts *)

(** ** Loading and writing in [code/merge_final_panel.py] *)

Section merge_run.
Import MergeFinalPanel.
Implicit Types (su : list StateObs) (ff nu : list NationalObs).
Implicit Types (raw : gmap string Frame) (r : PanelRow).

Lemma load_file_raise raw e (files : list (string * string)) :
  foldl (load_file raw) (Raise e) files = Raise e.
Proof. by induction files. Qed.

(** X1.  When one of the three raw files is absent, [load_raw_data] raises
    [FileNotFoundError] for the first absent file in the order federal
    funds, national unemployment, state unemployment, and [main] ends with
    exit code 1 without writing a file. *)
Theorem missing_raw_file_stops_merge
    (generate_data_quality_report : list PanelRow → result string) raw :
  raw !! "federal_funds_rate.csv" = None ∨
  raw !! "national_unemployment_rate.csv" = None ∨
  raw !! "state_unemployment_rates.csv" = None →
  (∃ file,
     file ∈ files_to_load.*2 ∧ raw !! file = None ∧
     load_raw_data raw
       = Raise (FileNotFoundError ("Missing raw data file: " +:+ file))) ∧
  main generate_data_quality_report raw = {| written := ∅; exit_code := 1 |}.
Proof.
  intros Hmissing.
  assert (∃ file,
            file ∈ files_to_load.*2 ∧ raw !! file = None ∧
            load_raw_data raw
              = Raise (FileNotFoundError ("Missing raw data file: " +:+ file)))
    as (file & Hin & Hfile & Hload).
  { unfold load_raw_data, files_to_load, load_file. simpl.
    destruct (raw !! "federal_funds_rate.csv") as [f1|] eqn:H1; simpl.
    - destruct (raw !! "national_unemployment_rate.csv") as [f2|] eqn:H2;
        simpl.
      + destruct (raw !! "state_unemployment_rates.csv") as [f3|] eqn:H3;
          simpl.
        * by destruct Hmissing as [?|[?|?]].
        * eexists. split; [|split; [exact H3 | done]].
          right; right; by left.
      + eexists. split; [|split; [exact H2 | done]]. right; by left.
    - eexists. split; [|split; [exact H1 | done]]. by left. }
  split; [by exists file|].
  unfold main, assemble. by rewrite Hload.
Qed.

Lemma missing_raw_file_stops_merge_witness :
  (disjoint_raw !! "federal_funds_rate.csv" = Some (National disjoint_funds) ∧
   delete "national_unemployment_rate.csv" disjoint_raw
     !! "national_unemployment_rate.csv" = None) ∧
  main (report_written _)
    (delete "national_unemployment_rate.csv" disjoint_raw)
    = {| written := ∅; exit_code := 1 |}.
Proof.
  assert (delete "national_unemployment_rate.csv" disjoint_raw
            !! "national_unemployment_rate.csv" = None) as H
    by (vm_compute; reflexivity).
  split; [split; [by vm_compute | exact H]|].
  exact (proj2 (missing_raw_file_stops_merge (report_written _)
                  (delete "national_unemployment_rate.csv" disjoint_raw)
                  (or_intror (or_introl H)))).
Defined.

(** X2.  With the three raw files in place [main] writes the assembled
    panel to both CSV files before the quality report is generated: the
    files are there whether the report succeeds or raises, and the exit
    code is 0 exactly when the report succeeds. *)
Theorem panel_files_are_written_before_the_report
    (generate_data_quality_report : list PanelRow → result string)
    raw su ff nu :
  raw !! "state_unemployment_rates.csv" = Some (StateLevel su) →
  raw !! "federal_funds_rate.csv" = Some (National ff) →
  raw !! "national_unemployment_rate.csv" = Some (National nu) →
  written (main generate_data_quality_report raw) =
    <["analysis_panel.csv" := create_state_panel su ff nu]>
      (<["panel_processed.csv" := create_state_panel su ff nu]> ∅) ∧
  (exit_code (main generate_data_quality_report raw) = 0%Z ↔
   ∃ text,
     generate_data_quality_report (create_state_panel su ff nu) = Ok text) ∧
  (exit_code (main generate_data_quality_report raw) = 1%Z ↔
   ∃ e,
     generate_data_quality_report (create_state_panel su ff nu) = Raise e).
Proof.
  intros Hsu Hff Hnu. unfold main.
  rewrite (assemble_required raw su ff nu) by done.
  destruct (generate_data_quality_report _) as [text|e]; simpl.
  - split; [done|]. split; split; try done.
    + by exists text.
    + by intros [? ?].
  - split; [done|]. split; split; try done.
    + by intros [? ?].
    + by exists e.
Qed.

Lemma panel_files_are_written_before_the_report_witness :
  (sample_raw !! "state_unemployment_rates.csv"
     = Some (StateLevel sample_states) ∧
   sample_raw !! "federal_funds_rate.csv" = Some (National sample_funds) ∧
   sample_raw !! "national_unemployment_rate.csv"
     = Some (National sample_national)) ∧
  written (main (report_failing _) sample_raw) =
    <["analysis_panel.csv" :=
        create_state_panel sample_states sample_funds sample_national]>
      (<["panel_processed.csv" :=
           create_state_panel sample_states sample_funds sample_national]> ∅).
Proof.
  assert (sample_raw !! "state_unemployment_rates.csv"
            = Some (StateLevel sample_states)) as H1
    by (vm_compute; reflexivity).
  assert (sample_raw !! "federal_funds_rate.csv"
            = Some (National sample_funds)) as H2
    by (vm_compute; reflexivity).
  assert (sample_raw !! "national_unemployment_rate.csv"
            = Some (National sample_national)) as H3
    by (vm_compute; reflexivity).
  split; [done|].
  exact (proj1 (panel_files_are_written_before_the_report (report_failing _)
                  sample_raw sample_states sample_funds sample_national
                  H1 H2 H3)).
Defined.
End merge_run.

(** ** What the assembled panel contains *)

Section panel_content.
Import MergeFinalPanel.
Implicit Types (su : list StateObs) (ff nu : list NationalObs).
Implicit Types (r : PanelRow).

Lemma filter_all {X} (P : X → Prop) `{!∀ x, Decision (P x)} (l : list X) :
  (∀ x, x ∈ l → P x) → filter P l = l.
Proof.
  induction l as [|x l IH]; intros HP; [done|].
  rewrite filter_cons, decide_True by (apply HP; by left).
  f_equal. apply IH. intros y Hy. apply HP. by right.
Qed.

Lemma joined_rows_spec su ff nu r :
  r ∈ joined_rows su ff nu ↔
  ∃ s f n, s ∈ su ∧ f ∈ ff ∧ n ∈ nu ∧
    n_date f = s_date s ∧ n_date n = s_date s ∧
    r = {| date := s_date s; state := s_state s;
           unemployment_rate := s_value s;
           national_unemployment_rate := n_value n;
           federal_funds_rate := n_value f |}.
Proof.
  unfold joined_rows. rewrite elem_of_merge_inner. split.
  - intros (s & x & Hs & Hx & Hkey & ->).
    apply elem_of_merge_inner in Hx as (f & n & Hf & Hn & Hkey' & ->).
    rewrite sort_values_perm in Hs. rewrite sort_values_perm in Hf.
    rewrite sort_values_perm in Hn. simpl in *.
    exists s, f, n. repeat split; congruence.
  - intros (s & f & n & Hs & Hf & Hn & Hkf & Hkn & ->).
    exists s, (n_date f, n_value f, n_value n).
    split; [by rewrite sort_values_perm|]. split; [|done].
    apply elem_of_merge_inner. exists f, n.
    rewrite !sort_values_perm. repeat split; try done. congruence.
Qed.

(** A date on which all three required series have a reading lies in the
    common range. *)
Lemma joined_row_passes_filter su ff nu r :
  r ∈ joined_rows su ff nu →
  in_common_range (common_start su ff nu) (common_end su ff nu) (date r)
    = true.
Proof.
  intros (s & f & n & Hs & Hf & Hn & Hd & _ & Hkf & Hkn)%elem_of_joined_rows.
  apply (list_elem_of_fmap_2 s_date) in Hs.
  apply (list_elem_of_fmap_2 n_date) in Hf, Hn.
  unfold common_start, common_end.
  destruct (Pandas.series_min (s_date <$> su)) as [s0|] eqn:Hs0;
    [|by destruct (s_date <$> su); [apply elem_of_nil in Hs|]].
  destruct (Pandas.series_min (n_date <$> ff)) as [f0|] eqn:Hf0;
    [|by destruct (n_date <$> ff); [apply elem_of_nil in Hf|]].
  destruct (Pandas.series_min (n_date <$> nu)) as [n0|] eqn:Hn0;
    [|by destruct (n_date <$> nu); [apply elem_of_nil in Hn|]].
  destruct (Pandas.series_max (s_date <$> su)) as [s1|] eqn:Hs1;
    [|by destruct (s_date <$> su); [apply elem_of_nil in Hs|]].
  destruct (Pandas.series_max (n_date <$> ff)) as [f1|] eqn:Hf1;
    [|by destruct (n_date <$> ff); [apply elem_of_nil in Hf|]].
  destruct (Pandas.series_max (n_date <$> nu)) as [n1|] eqn:Hn1;
    [|by destruct (n_date <$> nu); [apply elem_of_nil in Hn|]].
  apply series_min_earliest in Hs0 as [_ Hs0], Hf0 as [_ Hf0],
    Hn0 as [_ Hn0].
  apply series_max_latest in Hs1 as [_ Hs1], Hf1 as [_ Hf1], Hn1 as [_ Hn1].
  specialize (Hs0 _ Hs). specialize (Hf0 _ Hf). specialize (Hn0 _ Hn).
  specialize (Hs1 _ Hs). specialize (Hf1 _ Hf). specialize (Hn1 _ Hn).
  rewrite py_max_Some, py_min_Some. unfold in_common_range. simpl.
  apply andb_true_iff. split; apply bool_decide_eq_true; lia.
Qed.


(** X4.  A row is in the assembled panel exactly when it combines a row of
    the state series with a row of the federal funds series and a row of
    the national series of the same date: the panel holds no value that is
    not in the inputs, and misses no (date, state) for which all three
    series have a reading. *)
Theorem panel_rows_are_the_matching_readings su ff nu r :
  r ∈ create_state_panel su ff nu ↔
  ∃ s f n, s ∈ su ∧ f ∈ ff ∧ n ∈ nu ∧
    n_date f = s_date s ∧ n_date n = s_date s ∧
    r = {| date := s_date s; state := s_state s;
           unemployment_rate := s_value s;
           national_unemployment_rate := n_value n;
           federal_funds_rate := n_value f |}.
Proof.
  rewrite create_state_panel_unfold, sort_values_perm, list_elem_of_filter.
  rewrite <- joined_rows_spec. split; [by intros [_ ?]|].
  intros Hr. split; [|done].
  apply Is_true_true. by apply joined_row_passes_filter.
Qed.
End panel_content.

(** ** Order of strings *)

Section string_order.

Lemma ascii_compare_refl (a : Ascii.ascii) : Ascii.compare a a = Eq.
Proof. unfold Ascii.compare. apply N.compare_refl. Qed.

Lemma ascii_compare_lt_trans (a b c : Ascii.ascii) :
  Ascii.compare a b = Lt → Ascii.compare b c = Lt → Ascii.compare a c = Lt.
Proof.
  unfold Ascii.compare. rewrite !N.compare_lt_iff. apply N.lt_trans.
Qed.

Lemma string_compare_lt_trans (s1 s2 s3 : string) :
  String.compare s1 s2 = Lt → String.compare s2 s3 = Lt →
  String.compare s1 s3 = Lt.
Proof.
  revert s2 s3.
  induction s1 as [|a s1 IH]; intros [|b s2] [|c s3]; simpl; try done.
  destruct (Ascii.compare a b) eqn:Hab, (Ascii.compare b c) eqn:Hbc;
    try done.
  - apply Ascii.compare_eq_iff in Hab as ->.
    apply Ascii.compare_eq_iff in Hbc as ->.
    rewrite ascii_compare_refl. apply IH.
  - apply Ascii.compare_eq_iff in Hab as ->. by rewrite Hbc.
  - apply Ascii.compare_eq_iff in Hbc as ->. by rewrite Hab.
  - by rewrite (ascii_compare_lt_trans a b c).
Qed.

Lemma string_leb_trans (s1 s2 s3 : string) :
  String.leb s1 s2 = true → String.leb s2 s3 = true →
  String.leb s1 s3 = true.
Proof.
  unfold String.leb.
  destruct (String.compare s1 s2) eqn:H12; try done;
    destruct (String.compare s2 s3) eqn:H23; try done; intros _ _.
  - apply String.compare_eq_iff in H12 as ->. by rewrite H23.
  - apply String.compare_eq_iff in H12 as ->. by rewrite H23.
  - apply String.compare_eq_iff in H23 as <-. by rewrite H12.
  - by rewrite (string_compare_lt_trans s1 s2 s3).
Qed.
End string_order.

(** ** Order and edge cases of the assembled panel *)

Section panel_edges.
Import MergeFinalPanel.
Implicit Types (su : list StateObs) (ff nu : list NationalObs).
Implicit Types (r : PanelRow).

(** X5.  The assembled panel is sorted by date and, within a date, by
    state: of two rows the earlier one has the smaller date, or the same
    date and a state that is not greater in string order. *)
Theorem panel_is_sorted_by_date_and_state su ff nu :
  StronglySorted
    (λ r1 r2, (date r1 < date r2)%Z ∨
              (date r1 = date r2 ∧ String.leb (state r1) (state r2) = true))
    (create_state_panel su ff nu).
Proof.
  unfold create_state_panel. cbv zeta.
  apply sort_values_StronglySorted.
  - intros x y. unfold date_state_leb.
    intros [Hlt|[Heq Hs]%andb_true_iff]%orb_true_iff.
    + left. lia.
    + right. split; [lia | done].
  - intros x y. unfold date_state_leb.
    intros [Hlt Heq]%orb_false_iff. apply Z.ltb_ge in Hlt.
    apply andb_false_iff in Heq as [Hne|Hs].
    + left. apply Z.eqb_neq in Hne. lia.
    + destruct (decide (date x = date y)) as [Hd|Hd]; [|left; lia].
      right. split; [done|].
      by destruct (String.leb_total (state x) (state y)) as [Hxy|Hyx];
        [rewrite Hxy in Hs|].
  - intros x y z [Hxy|[Hxy Hsxy]] [Hyz|[Hyz Hsyz]]; try (left; lia).
    right. split; [lia|]. by apply (string_leb_trans _ (state y)).
Qed.

(** X6.  When one of the three required series has no row, the assembler
    raises nothing and returns the empty panel; so does the enhanced
    assembler on a dict whose supplementary tables have the expected
    columns. *)
Theorem empty_series_gives_empty_panel su ff nu :
  su = [] ∨ ff = [] ∨ nu = [] →
  create_state_panel su ff nu = [] ∧
  ∀ data, supplementary_well_formed data →
    MergeFinalPanelEnhanced.create_state_panel su ff nu data = Ok [].
Proof.
  intros Hempty.
  assert (∀ lo hi, ¬ common_range su ff nu lo hi) as Hrange.
  { intros lo hi (s0 & f0 & n0 & s1 & f1 & n1 & Hs & Hf & Hn & _).
    destruct Hs as [Hs _], Hf as [Hf _], Hn as [Hn _].
    destruct Hempty as [-> | [-> | ->]];
      [by apply elem_of_nil in Hs | by apply elem_of_nil in Hf
       | by apply elem_of_nil in Hn]. }
  split.
  - destruct (create_state_panel su ff nu) as [|r panel] eqn:Hpanel; [done|].
    destruct (create_state_panel_in_range su ff nu r) as (lo & hi & Hr & _).
    + rewrite Hpanel. by left.
    + by destruct (Hrange lo hi).
  - intros data Hwf.
    destruct (create_state_panel_ok su ff nu data Hwf) as [panel Hpanel].
    rewrite Hpanel. f_equal. destruct panel as [|r panel]; [done|].
    destruct (create_state_panel_enhanced_in_range su ff nu data _ r Hpanel)
      as (lo & hi & Hr & _); [by left|].
    by destruct (Hrange lo hi).
Qed.

Lemma empty_series_gives_empty_panel_witness :
  (sample_states = [] ∨ sample_funds = [] ∨ ([] : list NationalObs) = []) ∧
  create_state_panel sample_states sample_funds [] = [].
Proof.
  assert (sample_states = [] ∨ sample_funds = [] ∨ ([] : list NationalObs) = [])
    as H by (right; right; reflexivity).
  split; [exact H|].
  exact (proj1 (empty_series_gives_empty_panel sample_states sample_funds []
                  H)).
Defined.
End panel_edges.

(** ** Supplementary columns of the enhanced panel *)

Section supplementary_columns.
Import MergeFinalPanelEnhanced.
Implicit Types (su : list StateObs) (ff nu : list NationalObs).
Implicit Types (raw data : gmap string Frame) (p : list EnhancedRow).

Lemma keeps_rows_elem_of_inv p p' r :
  keeps_rows p p' → r ∈ p → ∃ r', r' ∈ p' ∧ core r' = core r.
Proof.
  intros (g & -> & Hg) Hr. destruct (Hg r) as [Hne Hcore].
  destruct (g r) as [|r' rs] eqn:Hgr; [done|].
  apply Forall_cons in Hcore as [Hcore _].
  exists r'. split; [|done].
  apply list_elem_of_bind. exists r. split; [|done]. rewrite Hgr. by left.
Qed.

(** X7.  Whatever the supplementary tables hold, the enhanced panel has
    the core rows of the core panel and no other: the left merges neither
    lose a (date, state) row nor touch a core column. *)
Theorem enhanced_panel_has_the_core_rows su ff nu data panel :
  create_state_panel su ff nu data = Ok panel →
  ∀ c, c ∈ core <$> panel ↔ c ∈ MergeFinalPanel.create_state_panel su ff nu.
Proof.
  intros (p2 & Hkeeps & _ & ->)%create_state_panel_inv c.
  rewrite create_state_panel_unfold, !sort_values_perm.
  rewrite list_elem_of_fmap, list_elem_of_filter. split.
  - intros (r & -> & [Hrange Hr]%list_elem_of_filter).
    destruct (keeps_rows_elem_of _ _ _ Hkeeps Hr) as (r0 & Hr0 & Hcore).
    apply list_elem_of_fmap in Hr0 as (c & -> & Hc). simpl in Hcore.
    by rewrite Hcore in *.
  - intros [Hrange Hc].
    destruct (keeps_rows_elem_of_inv _ p2 {| core := c; supplementary := ∅ |}
                Hkeeps) as (r' & Hr' & Hcore).
    { by apply (list_elem_of_fmap_2 (λ r, {| core := r; supplementary := ∅ |})). }
    simpl in Hcore. exists r'. split; [done|].
    apply list_elem_of_filter. by rewrite Hcore.
Qed.

Lemma enhanced_panel_has_the_core_rows_witness :
  create_state_panel sample_states sample_funds sample_national inflation_data
    = Ok inflation_panel ∧
  ∀ c, c ∈ core <$> inflation_panel ↔
       c ∈ MergeFinalPanel.create_state_panel sample_states sample_funds
             sample_national.
Proof.
  assert (create_state_panel sample_states sample_funds sample_national
            inflation_data = Ok inflation_panel) as H
    by (vm_compute; reflexivity).
  split; [exact H|].
  exact (enhanced_panel_has_the_core_rows sample_states sample_funds
           sample_national inflation_data inflation_panel H).
Defined.

Lemma elem_of_merge_left {A B C K} `{EqDecision K} (left_on : A → K)
    (right_on : B → K) (f : A → option B → C) (left : list A)
    (right : list B) c :
  c ∈ Pandas.merge_left left_on right_on f left right →
  ∃ a, a ∈ left ∧
    ((Pandas.matches left_on right_on a right = [] ∧ c = f a None) ∨
     ∃ b, b ∈ Pandas.matches left_on right_on a right ∧ c = f a (Some b)).
Proof.
  unfold Pandas.merge_left.
  intros (a & Hc & Ha)%list_elem_of_bind. exists a. split; [done|].
  destruct (Pandas.matches _ _ a right) as [|b bs] eqn:Hm.
  - left. by apply list_elem_of_singleton in Hc.
  - right. apply list_elem_of_fmap in Hc as (b' & -> & Hb'). by exists b'.
Qed.

(** With one row per key, the match of a left row is the first right row
    with its key, before or after sorting the right table. *)
Lemma matches_sorted_head {A B K} `{EqDecision K} (left_on : A → K)
    (right_on : B → K) (leb : B → B → bool) a (right : list B) ob :
  NoDup (right_on <$> right) →
  (Pandas.matches left_on right_on a (Pandas.sort_values leb right) = [] ∧
   ob = None) ∨
  (∃ b, b ∈ Pandas.matches left_on right_on a (Pandas.sort_values leb right)
        ∧ ob = Some b) →
  ob = head (filter (λ b, right_on b = left_on a) right).
Proof.
  intros Hnd Hob.
  assert (Pandas.matches left_on right_on a (Pandas.sort_values leb right)
          ≡ₚ filter (λ b, right_on b = left_on a) right) as Hperm.
  { unfold Pandas.matches. by rewrite sort_values_perm. }
  destruct (matches_unique left_on right_on a right Hnd) as [Hm|[b Hm]];
    unfold Pandas.matches in Hm; rewrite Hm in Hperm.
  - apply Permutation_nil_r in Hperm.
    destruct Hob as [[_ ->]|(b & Hb & _)]; [by rewrite Hm|].
    rewrite Hperm in Hb. by apply elem_of_nil in Hb.
  - apply Permutation_singleton_r in Hperm.
    destruct Hob as [[Hnil _]|(b' & Hb' & ->)].
    + by rewrite Hperm in Hnil.
    + rewrite Hperm in Hb'. apply list_elem_of_singleton in Hb' as ->.
      by rewrite Hm.
Qed.

(** A round of either loop for another column leaves a column as it is. *)
Lemma merge_national_other data col (V : PanelRow → option (option Q))
    p entry p' :
  entry.2 ≠ col → merge_national data (Ok p) entry = Ok p' →
  (∀ r, r ∈ p → supplementary r !! col = V (core r)) →
  ∀ r, r ∈ p' → supplementary r !! col = V (core r).
Proof.
  intros Hne. unfold merge_national; simpl.
  destruct (data !! entry.1) as [[rows|rows]|]; simpl; try done.
  - intros [= <-] Hp r (a & Ha & Hr)%elem_of_merge_left.
    assert (∃ v, r = add_column entry.2 v a) as [v ->]
      by (destruct Hr as [[_ ->]|(b & _ & ->)]; by eexists).
    simpl. rewrite lookup_insert_ne by done. by apply Hp.
  - by intros [= <-].
Qed.

Lemma merge_state_other data col (V : PanelRow → option (option Q))
    p state_var p' :
  state_var ≠ col → merge_state data (Ok p) state_var = Ok p' →
  (∀ r, r ∈ p → supplementary r !! col = V (core r)) →
  ∀ r, r ∈ p' → supplementary r !! col = V (core r).
Proof.
  intros Hne. unfold merge_state; simpl.
  destruct (data !! state_var) as [[rows|rows]|]; simpl; try done.
  - intros [= <-] Hp r (a & Ha & Hr)%elem_of_merge_left.
    assert (∃ v, r = add_column state_var v a) as [v ->]
      by (destruct Hr as [[_ ->]|(b & _ & ->)]; by eexists).
    simpl. rewrite lookup_insert_ne by done. by apply Hp.
  - by intros [= <-].
Qed.

(** The round of a national series that is in the dict, with one row per
    date, sets its column to the reading of the row's date. *)
Lemma merge_national_this data key col rows p p' :
  data !! key = Some (National rows) → NoDup (n_date <$> rows) →
  merge_national data (Ok p) (key, col) = Ok p' →
  ∀ r, r ∈ p' →
    supplementary r !! col = Some (national_reading rows (date (core r))).
Proof.
  intros Hdata Hnd. unfold merge_national; simpl. rewrite Hdata. simpl.
  intros [= <-] r (a & Ha & Hr)%elem_of_merge_left.
  assert (∃ ob, r = add_column col (ob ≫= n_value) a ∧
                ob = head (filter (λ b, n_date b = date (core a)) rows))
    as (ob & -> & ->).
  { destruct Hr as [[Hnil ->]|(b & Hb & ->)]; eexists; (split; [done|]);
      apply (matches_sorted_head (date ∘ core) n_date
               (λ a b, (n_date a <=? n_date b)%Z) a rows); auto.
    right. by exists b. }
  simpl. by rewrite lookup_insert_eq.
Qed.

Lemma merge_national_absent data key col p p' :
  data !! key = None → merge_national data (Ok p) (key, col) = Ok p' → p' = p.
Proof.
  intros Hdata. unfold merge_national; simpl. rewrite Hdata.
  by intros [= <-].
Qed.

Lemma merge_national_inv data acc entry p' :
  merge_national data acc entry = Ok p' →
  ∃ p, acc = Ok p ∧ merge_national data (Ok p) entry = Ok p'.
Proof. destruct acc as [p|]; [|done]. by exists p. Qed.
End supplementary_columns.

Section broadcast.
Import MergeFinalPanelEnhanced.
Implicit Types (su : list StateObs) (ff nu : list NationalObs).
Implicit Types (raw data : gmap string Frame) (p : list EnhancedRow).

(** The two loops of the enhanced assembler, laid open. *)
Lemma create_state_panel_loops su ff nu data panel :
  create_state_panel su ff nu data = Ok panel →
  ∃ p0 p1 p2,
    (∀ r, r ∈ p0 → supplementary r = ∅) ∧
    foldl (merge_national data) (Ok p0) national_supplementary = Ok p1 ∧
    foldl (merge_state data) (Ok p1) state_supplementary = Ok p2 ∧
    ∀ r, r ∈ panel → r ∈ p2.
Proof.
  unfold create_state_panel. cbv zeta.
  intros (p1 & H1 & (p2 & H2 & [= <-])%bind_Ok_inv)%bind_Ok_inv.
  eexists _, p1, p2. split; [|split; [exact H1 | split; [exact H2|]]].
  - intros r (s & n & _ & _ & _ & ->)%elem_of_merge_inner. done.
  - intros r. rewrite sort_values_perm. by intros [_ ?]%list_elem_of_filter.
Qed.

Lemma merge_state_inv data acc state_var p' :
  merge_state data acc state_var = Ok p' →
  ∃ p, acc = Ok p ∧ merge_state data (Ok p) state_var = Ok p'.
Proof. destruct acc as [p|]; [|done]. by exists p. Qed.

(** The loop over the state-level series leaves the national columns as
    they are, and the loop over the national series leaves the state-level
    columns as they are. *)
Lemma state_loop_keeps_national_column data key col
    (V : PanelRow → option (option Q)) p p' :
  (key, col) ∈ national_supplementary →
  foldl (merge_state data) (Ok p) state_supplementary = Ok p' →
  (∀ r, r ∈ p → supplementary r !! col = V (core r)) →
  ∀ r, r ∈ p' → supplementary r !! col = V (core r).
Proof.
  intros Hentry Hfold. revert Hfold.
  apply (foldl_result_rel _ (merge_state_raise data)
           (λ p p', (∀ r, r ∈ p → supplementary r !! col = V (core r)) →
                    ∀ r, r ∈ p' → supplementary r !! col = V (core r)));
    [done | by auto |].
  intros q e q' He. apply merge_state_other.
  intros ->. clear -Hentry He.
  repeat (apply elem_of_cons in Hentry as [[= -> ->]|Hentry];
          [by apply (bool_decide_pack _) in He|]).
  by apply elem_of_nil in Hentry.
Qed.

(** The national loop, column by column. *)
Lemma national_loop_column data key col p p' :
  (key, col) ∈ national_supplementary →
  foldl (merge_national data) (Ok p) national_supplementary = Ok p' →
  (∀ r, r ∈ p → supplementary r !! col = None) →
  match data !! key with
  | Some (National rows) =>
      NoDup (n_date <$> rows) →
      ∀ r, r ∈ p' →
        supplementary r !! col
          = Some (national_reading rows (date (core r)))
  | Some (StateLevel _) => False
  | None => ∀ r, r ∈ p' → supplementary r !! col = None
  end.
Proof.
  intros Hentry Hfold Hp. unfold national_supplementary in *.
  cbn [foldl] in Hfold.
  apply merge_national_inv in Hfold as (pb & Hfold & H3).
  apply merge_national_inv in Hfold as (pa & Hfold & H2).
  apply merge_national_inv in Hfold as (p0 & [= <-] & H1).
  destruct (data !! key) as [[rows|rows]|] eqn:Hdata.
  - intros Hnd.
    set (V := λ c : PanelRow, Some (national_reading rows (date c))).
    change (∀ r, r ∈ p' → supplementary r !! col = V (core r)).
    repeat (apply elem_of_cons in Hentry as [[= -> ->]|Hentry]);
      [| | |by apply elem_of_nil in Hentry].
    + eapply (merge_national_other data _ V pb _ p'); [|exact H3|]; [done|].
      eapply (merge_national_other data _ V pa _ pb); [|exact H2|]; [done|].
      exact (merge_national_this _ _ _ _ _ _ Hdata Hnd H1).
    + eapply (merge_national_other data _ V pb _ p'); [|exact H3|]; [done|].
      exact (merge_national_this _ _ _ _ _ _ Hdata Hnd H2).
    + exact (merge_national_this _ _ _ _ _ _ Hdata Hnd H3).
  - repeat (apply elem_of_cons in Hentry as [[= -> ->]|Hentry]);
      [| | |by apply elem_of_nil in Hentry].
    + unfold merge_national in H1. simpl in H1. by rewrite Hdata in H1.
    + unfold merge_national in H2. simpl in H2. by rewrite Hdata in H2.
    + unfold merge_national in H3. simpl in H3. by rewrite Hdata in H3.
  - set (V := λ _ : PanelRow, @None (option Q)).
    change (∀ r, r ∈ p' → supplementary r !! col = V (core r)).
    change (∀ r, r ∈ p → supplementary r !! col = V (core r)) in Hp.
    repeat (apply elem_of_cons in Hentry as [[= -> ->]|Hentry]);
      [| | |by apply elem_of_nil in Hentry].
    + apply (merge_national_absent _ _ _ _ _ Hdata) in H1 as ->.
      eapply (merge_national_other data _ V pb _ p'); [|exact H3|]; [done|].
      eapply (merge_national_other data _ V p _ pb); [|exact H2|]; [done|]. done.
    + apply (merge_national_absent _ _ _ _ _ Hdata) in H2 as ->.
      eapply (merge_national_other data _ V pa _ p'); [|exact H3|]; [done|].
      eapply (merge_national_other data _ V p _ pa); [|exact H1|]; [done|]. done.
    + apply (merge_national_absent _ _ _ _ _ Hdata) in H3 as ->.
      eapply (merge_national_other data _ V pa _ pb); [|exact H2|]; [done|].
      eapply (merge_national_other data _ V p _ pa); [|exact H1|]; [done|]. done.
Qed.

(** X8.  Broadcast of a national supplementary series: when the series is
    in the dict with one row per date, every row of the enhanced panel
    holds in its column the reading of the row's date (null when the
    series has no row for that date), so all state rows of a date hold the
    identical value. *)
Theorem national_series_is_broadcast su ff nu data panel key col rows :
  create_state_panel su ff nu data = Ok panel →
  (key, col) ∈ national_supplementary →
  data !! key = Some (National rows) →
  NoDup (n_date <$> rows) →
  (∀ r, r ∈ panel →
     supplementary r !! col = Some (national_reading rows (date (core r)))) ∧
  (∀ r1 r2, r1 ∈ panel → r2 ∈ panel →
     date (core r1) = date (core r2) →
     supplementary r1 !! col = supplementary r2 !! col).
Proof.
  intros (p0 & p1 & p2 & Hp0 & H1 & H2 & Hsub)%create_state_panel_loops
         Hentry Hdata Hnd.
  assert (∀ r, r ∈ panel →
            supplementary r !! col
              = Some (national_reading rows (date (core r)))) as Hall.
  { intros r Hr%Hsub. revert r Hr.
    apply (state_loop_keeps_national_column data key col
             (λ c, Some (national_reading rows (date c))) p1 p2 Hentry H2).
    pose proof (national_loop_column data key col p0 p1 Hentry H1) as Hloop.
    rewrite Hdata in Hloop. apply Hloop; [|done].
    intros r Hr. by rewrite (Hp0 r Hr). }
  split; [done|].
  intros r1 r2 Hr1 Hr2 Hdate. by rewrite (Hall r1), (Hall r2), Hdate.
Qed.

Lemma national_series_is_broadcast_witness :
  (create_state_panel sample_states sample_funds sample_national
     inflation_data = Ok inflation_panel ∧
   ("inflation", "inflation_cpi") ∈ national_supplementary ∧
   inflation_data !! "inflation" = Some (National sample_inflation) ∧
   NoDup (n_date <$> sample_inflation)) ∧
  ∀ r, r ∈ inflation_panel →
    supplementary r !! "inflation_cpi"
      = Some (national_reading sample_inflation (date (core r))).
Proof.
  assert (create_state_panel sample_states sample_funds sample_national
            inflation_data = Ok inflation_panel) as H1
    by (vm_compute; reflexivity).
  assert (("inflation", "inflation_cpi") ∈ national_supplementary) as H2
    by (apply (bool_decide_unpack _); vm_compute; exact I).
  assert (inflation_data !! "inflation" = Some (National sample_inflation))
    as H3 by (vm_compute; reflexivity).
  assert (NoDup (n_date <$> sample_inflation)) as H4
    by (apply (bool_decide_unpack _); vm_compute; exact I).
  split; [done|].
  exact (proj1 (national_series_is_broadcast sample_states sample_funds
                  sample_national inflation_data inflation_panel
                  "inflation" "inflation_cpi" sample_inflation H1 H2 H3 H4)).
Defined.

(** X9.  A national supplementary series that is not in the dict leaves no
    column behind: no row of the enhanced panel has an entry under its
    column name, not even a null one. *)
Theorem absent_series_leaves_no_column su ff nu data panel key col :
  create_state_panel su ff nu data = Ok panel →
  (key, col) ∈ national_supplementary →
  data !! key = None →
  ∀ r, r ∈ panel → supplementary r !! col = None.
Proof.
  intros (p0 & p1 & p2 & Hp0 & H1 & H2 & Hsub)%create_state_panel_loops
         Hentry Hdata r Hr%Hsub.
  revert r Hr.
  apply (state_loop_keeps_national_column data key col (λ _, None) p1 p2
           Hentry H2).
  pose proof (national_loop_column data key col p0 p1 Hentry H1) as Hloop.
  rewrite Hdata in Hloop. apply Hloop.
  intros r Hr. by rewrite (Hp0 r Hr).
Qed.

Lemma absent_series_leaves_no_column_witness :
  (create_state_panel sample_states sample_funds sample_national
     inflation_data = Ok inflation_panel ∧
   ("recession", "recession_indicator") ∈ national_supplementary ∧
   inflation_data !! "recession" = None) ∧
  ∀ r, r ∈ inflation_panel → supplementary r !! "recession_indicator" = None.
Proof.
  assert (create_state_panel sample_states sample_funds sample_national
            inflation_data = Ok inflation_panel) as H1
    by (vm_compute; reflexivity).
  assert (("recession", "recession_indicator") ∈ national_supplementary)
    as H2 by (apply (bool_decide_unpack _); vm_compute; exact I).
  assert (inflation_data !! "recession" = None) as H3
    by (vm_compute; reflexivity).
  split; [done|].
  exact (absent_series_leaves_no_column sample_states sample_funds
           sample_national inflation_data inflation_panel
           "recession" "recession_indicator" H1 H2 H3).
Defined.

Lemma merge_state_this data state_var rows p p' :
  data !! state_var = Some (StateLevel rows) →
  NoDup ((λ o, (s_date o, s_state o)) <$> rows) →
  merge_state data (Ok p) state_var = Ok p' →
  ∀ r, r ∈ p' →
    supplementary r !! state_var
      = Some (state_reading rows (date (core r)) (state (core r))).
Proof.
  intros Hdata Hnd. unfold merge_state; simpl. rewrite Hdata. simpl.
  intros [= <-] r (a & Ha & Hr)%elem_of_merge_left.
  assert (∃ ob, r = add_column state_var (ob ≫= s_value) a ∧
                ob = head (filter (λ b, (s_date b, s_state b)
                                        = (date (core a), state (core a)))
                             rows))
    as (ob & -> & ->).
  { destruct Hr as [[Hnil ->]|(b & Hb & ->)]; eexists; (split; [done|]);
      apply (matches_sorted_head
               (λ r : EnhancedRow, (date (core r), state (core r)))
               (λ o, (s_date o, s_state o))
               (λ a b, date_state_leb (s_date a) (s_state a)
                         (s_date b) (s_state b)) a rows); auto.
    right. by exists b. }
  simpl. by rewrite lookup_insert_eq.
Qed.

Lemma national_loop_keeps_state_column data state_var
    (V : PanelRow → option (option Q)) p p' :
  state_var ∈ state_supplementary →
  foldl (merge_national data) (Ok p) national_supplementary = Ok p' →
  (∀ r, r ∈ p → supplementary r !! state_var = V (core r)) →
  ∀ r, r ∈ p' → supplementary r !! state_var = V (core r).
Proof.
  intros Hvar Hfold. revert Hfold.
  apply (foldl_result_rel _ (merge_national_raise data)
           (λ p p', (∀ r, r ∈ p → supplementary r !! state_var = V (core r))
                    → ∀ r, r ∈ p' →
                        supplementary r !! state_var = V (core r)));
    [done | by auto |].
  intros q e q' He. apply merge_national_other.
  intros <-. clear -Hvar He.
  repeat (apply elem_of_cons in He as [->|He];
          [by apply (bool_decide_pack _) in Hvar|]).
  by apply elem_of_nil in He.
Qed.

Lemma state_loop_column data state_var rows p p' :
  state_var ∈ state_supplementary →
  data !! state_var = Some (StateLevel rows) →
  NoDup ((λ o, (s_date o, s_state o)) <$> rows) →
  foldl (merge_state data) (Ok p) state_supplementary = Ok p' →
  ∀ r, r ∈ p' →
    supplementary r !! state_var
      = Some (state_reading rows (date (core r)) (state (core r))).
Proof.
  intros Hvar Hdata Hnd Hfold. unfold state_supplementary in *.
  cbn [foldl] in Hfold.
  apply merge_state_inv in Hfold as (pb & Hfold & H3).
  apply merge_state_inv in Hfold as (pa & Hfold & H2).
  apply merge_state_inv in Hfold as (p0 & [= <-] & H1).
  set (V := λ c : PanelRow, Some (state_reading rows (date c) (state c))).
  change (∀ r, r ∈ p' → supplementary r !! state_var = V (core r)).
  repeat (apply elem_of_cons in Hvar as [->|Hvar]);
    [| | |by apply elem_of_nil in Hvar].
  - eapply (merge_state_other data _ V pb _ p'); [|exact H3|]; [done|].
    eapply (merge_state_other data _ V pa _ pb); [|exact H2|]; [done|].
    exact (merge_state_this _ _ _ _ _ Hdata Hnd H1).
  - eapply (merge_state_other data _ V pb _ p'); [|exact H3|]; [done|].
    exact (merge_state_this _ _ _ _ _ Hdata Hnd H2).
  - exact (merge_state_this _ _ _ _ _ Hdata Hnd H3).
Qed.

(** X10.  A state-level supplementary series is matched on the date and
    the state together: when the series is in the dict with one row per
    date and state, every row of the enhanced panel holds in the column
    of the series the reading of its own date and state, null when the
    series has none. *)
Theorem state_series_is_matched_by_date_and_state
    su ff nu data panel state_var rows :
  create_state_panel su ff nu data = Ok panel →
  state_var ∈ state_supplementary →
  data !! state_var = Some (StateLevel rows) →
  NoDup ((λ o, (s_date o, s_state o)) <$> rows) →
  ∀ r, r ∈ panel →
    supplementary r !! state_var
      = Some (state_reading rows (date (core r)) (state (core r))).
Proof.
  intros (p0 & p1 & p2 & Hp0 & H1 & H2 & Hsub)%create_state_panel_loops
         Hvar Hdata Hnd r Hr%Hsub.
  revert r Hr. by apply (state_loop_column data state_var rows p1 p2).
Qed.

Lemma state_series_is_matched_by_date_and_state_witness :
  (create_state_panel sample_states sample_funds sample_national
     employment_data = Ok employment_panel ∧
   "employment_level" ∈ state_supplementary ∧
   employment_data !! "employment_level"
     = Some (StateLevel sample_employment) ∧
   NoDup ((λ o, (s_date o, s_state o)) <$> sample_employment)) ∧
  ∀ r, r ∈ employment_panel →
    supplementary r !! "employment_level"
      = Some (state_reading sample_employment (date (core r))
                (state (core r))).
Proof.
  assert (create_state_panel sample_states sample_funds sample_national
            employment_data = Ok employment_panel) as H1
    by (vm_compute; reflexivity).
  assert ("employment_level" ∈ state_supplementary) as H2
    by (apply (bool_decide_unpack _); vm_compute; exact I).
  assert (employment_data !! "employment_level"
            = Some (StateLevel sample_employment)) as H3
    by (vm_compute; reflexivity).
  assert (NoDup ((λ o, (s_date o, s_state o)) <$> sample_employment)) as H4
    by (apply (bool_decide_unpack _); vm_compute; exact I).
  split; [done|].
  exact (state_series_is_matched_by_date_and_state sample_states sample_funds
           sample_national employment_data employment_panel
           "employment_level" sample_employment H1 H2 H3 H4).
Defined.
End broadcast.

(** ** Loading and dating in [Code/merge_final_panel_enhanced.py] *)

Section enhanced_run.
Import MergeFinalPanelEnhanced.
Implicit Types (raw data : gmap string Frame).

(** X11.  When a core file is absent the enhanced loader raises
    [FileNotFoundError] naming an absent core file, whatever optional files
    are there, and the enhanced [main] ends with exit code 1 without
    writing a file. *)
Theorem missing_core_file_stops_enhanced_merge
    (asfreq_interpolate : Frame → result Frame)
    (generate_data_quality_report : list DatedRow → result string) raw :
  raw !! "federal_funds_rate.csv" = None ∨
  raw !! "national_unemployment_rate.csv" = None ∨
  raw !! "state_unemployment_rates.csv" = None →
  (∃ file,
     file ∈ core_files.*2 ∧ raw !! file = None ∧
     load_raw_data raw
       = Raise (FileNotFoundError ("Missing core data file: " +:+ file))) ∧
  main asfreq_interpolate generate_data_quality_report raw
    = {| written := ∅; exit_code := 1 |}.
Proof.
  intros Hmissing.
  assert (∃ file,
            file ∈ core_files.*2 ∧ raw !! file = None ∧
            load_raw_data raw
              = Raise (FileNotFoundError
                         ("Missing core data file: " +:+ file)))
    as (file & Hin & Hfile & Hload).
  { unfold load_raw_data, core_files, load_core. simpl.
    destruct (raw !! "federal_funds_rate.csv") as [f1|] eqn:H1; simpl.
    - destruct (raw !! "national_unemployment_rate.csv") as [f2|] eqn:H2;
        simpl.
      + destruct (raw !! "state_unemployment_rates.csv") as [f3|] eqn:H3;
          simpl.
        * by destruct Hmissing as [?|[?|?]].
        * eexists. split; [|split; [exact H3 | done]].
          right; right; by left.
      + eexists. split; [|split; [exact H2 | done]]. right; by left.
    - eexists. split; [|split; [exact H1 | done]]. by left. }
  split; [by exists file|].
  unfold main, assemble. by rewrite Hload.
Qed.

Lemma missing_core_file_stops_enhanced_merge_witness :
  (delete "state_unemployment_rates.csv" inflation_raw
     !! "federal_funds_rate.csv" = None ∨
   delete "state_unemployment_rates.csv" inflation_raw
     !! "national_unemployment_rate.csv" = None ∨
   delete "state_unemployment_rates.csv" inflation_raw
     !! "state_unemployment_rates.csv" = None) ∧
  main interpolate_rejected (λ _, Ok "report")
    (delete "state_unemployment_rates.csv" inflation_raw)
    = {| written := ∅; exit_code := 1 |}.
Proof.
  assert (delete "state_unemployment_rates.csv" inflation_raw
            !! "federal_funds_rate.csv" = None ∨
          delete "state_unemployment_rates.csv" inflation_raw
            !! "national_unemployment_rate.csv" = None ∨
          delete "state_unemployment_rates.csv" inflation_raw
            !! "state_unemployment_rates.csv" = None) as H
    by (right; right; vm_compute; reflexivity).
  split; [exact H|].
  exact (proj2 (missing_core_file_stops_enhanced_merge interpolate_rejected
                  (λ _, Ok "report")
                  (delete "state_unemployment_rates.csv" inflation_raw) H)).
Defined.

(** X12.  The enhanced run does not depend on the interpolation of the
    harmoniser: the loader stores no series under the one key the
    harmoniser looks at, so two runs on the same directory that differ in
    the interpolation alone end alike. *)
Theorem enhanced_run_ignores_the_interpolation
    (interpolate1 interpolate2 : Frame → result Frame)
    (generate_data_quality_report : list DatedRow → result string) raw :
  main interpolate1 generate_data_quality_report raw
    = main interpolate2 generate_data_quality_report raw.
Proof.
  unfold main.
  assert (assemble interpolate1 raw = assemble interpolate2 raw) as ->;
    [|done].
  unfold assemble.
  destruct (load_raw_data raw) as [data|e] eqn:Hload; [|done].
  rewrite !bind_Ok. unfold harmonize_frequencies.
  by rewrite (load_raw_data_real_income raw data Hload).
Qed.
End enhanced_run.

(** ** The calendar columns *)

Section calendar.
Import MergeFinalPanelEnhanced.
Local Open Scope Z_scope.



End calendar.

(** ** The enhanced run with optional files missing *)

Section optional_files.
Import MergeFinalPanelEnhanced.
Implicit Types (su : list StateObs) (ff nu : list NationalObs).
Implicit Types (raw data : gmap string Frame) (p : list EnhancedRow).

(** A file of the optional table that exists is stored under its key. *)
Lemma load_optional_stored raw (files : list (string * string)) data
    key file f :
  NoDup files.*1 → (key, file) ∈ files → raw !! file = Some f →
  foldl (load_optional raw) data files !! key = Some f.
Proof.
  revert data.
  induction files as [|[k fl] files IH]; intros data; csimpl.
  - by intros _ ?%elem_of_nil.
  - rewrite NoDup_cons. intros [Hk Hnd] [[= <- <-]|Hin]%elem_of_cons Hraw.
    + rewrite load_optional_other by done.
      unfold load_optional; simpl. by rewrite Hraw, lookup_insert_eq.
    + by apply IH.
Qed.

Lemma loaded_present raw data key file f :
  load_raw_data raw = Ok data → (key, file) ∈ optional_files →
  raw !! file = Some f → data !! key = Some f.
Proof.
  intros (data0 & _ & ->)%load_raw_data_inv Hin Hraw.
  apply (load_optional_stored raw optional_files data0 key file f);
    [|done..].
  apply (bool_decide_unpack _). vm_compute. exact I.
Qed.

(** The enhanced panel has the core rows of the core panel and no other. *)
Lemma elem_of_core_create_state_panel su ff nu data panel c :
  create_state_panel su ff nu data = Ok panel →
  c ∈ core <$> panel ↔ c ∈ MergeFinalPanel.create_state_panel su ff nu.
Proof.
  intros (p2 & Hkeeps & _ & ->)%create_state_panel_inv.
  rewrite create_state_panel_unfold, !sort_values_perm.
  rewrite list_elem_of_fmap, list_elem_of_filter. split.
  - intros (r & -> & [Hrange Hr]%list_elem_of_filter).
    destruct (keeps_rows_elem_of _ _ _ Hkeeps Hr) as (r0 & Hr0 & Hcore).
    apply list_elem_of_fmap in Hr0 as (c & -> & Hc). simpl in Hcore.
    by rewrite Hcore in *.
  - intros [Hrange Hc].
    destruct (keeps_rows_elem_of_inv _ p2 {| core := c; supplementary := ∅ |}
                Hkeeps) as (r' & Hr' & Hcore).
    { by apply (list_elem_of_fmap_2 (λ r, {| core := r; supplementary := ∅ |})). }
    simpl in Hcore. exists r'. split; [done|].
    apply list_elem_of_filter. by rewrite Hcore.
Qed.

(** The column of a national series: the reading of the row's date when
    the series is in the dict, no column when it is not. *)
Lemma national_column su ff nu data panel key col :
  create_state_panel su ff nu data = Ok panel →
  (key, col) ∈ national_supplementary →
  match data !! key with
  | Some (National rows) =>
      NoDup (n_date <$> rows) →
      ∀ r, r ∈ panel →
        supplementary r !! col
          = Some (national_reading rows (date (core r)))
  | Some (StateLevel _) => False
  | None => ∀ r, r ∈ panel → supplementary r !! col = None
  end.
Proof.
  intros (p0 & p1 & p2 & Hp0 & H1 & H2 & Hsub)%create_state_panel_loops
         Hentry.
  pose proof (national_loop_column data key col p0 p1 Hentry H1) as Hloop.
  destruct (data !! key) as [[rows|rows]|].
  - intros Hnd r Hr%Hsub. revert r Hr.
    apply (state_loop_keeps_national_column data key col
             (λ c, Some (national_reading rows (date c))) p1 p2 Hentry H2).
    apply Hloop; [|done]. intros r Hr. by rewrite (Hp0 r Hr).
  - apply Hloop. intros r Hr. by rewrite (Hp0 r Hr).
  - intros r Hr%Hsub. revert r Hr.
    apply (state_loop_keeps_national_column data key col (λ _, None) p1 p2
             Hentry H2).
    apply Hloop. intros r Hr. by rewrite (Hp0 r Hr).
Qed.

Lemma merge_state_absent data state_var p p' :
  data !! state_var = None → merge_state data (Ok p) state_var = Ok p' →
  p' = p.
Proof.
  intros Hdata. unfold merge_state; simpl. rewrite Hdata.
  by intros [= <-].
Qed.

Lemma state_loop_column_absent data state_var p p' :
  state_var ∈ state_supplementary →
  data !! state_var = None →
  foldl (merge_state data) (Ok p) state_supplementary = Ok p' →
  (∀ r, r ∈ p → supplementary r !! state_var = None) →
  ∀ r, r ∈ p' → supplementary r !! state_var = None.
Proof.
  intros Hvar Hdata Hfold Hp. unfold state_supplementary in *.
  cbn [foldl] in Hfold.
  apply merge_state_inv in Hfold as (pb & Hfold & H3).
  apply merge_state_inv in Hfold as (pa & Hfold & H2).
  apply merge_state_inv in Hfold as (p0 & [= <-] & H1).
  set (V := λ _ : PanelRow, @None (option Q)).
  change (∀ r, r ∈ p' → supplementary r !! state_var = V (core r)).
  change (∀ r, r ∈ p → supplementary r !! state_var = V (core r)) in Hp.
  repeat (apply elem_of_cons in Hvar as [->|Hvar]);
    [| | |by apply elem_of_nil in Hvar].
  - apply (merge_state_absent _ _ _ _ Hdata) in H1 as ->.
    eapply (merge_state_other data _ V pb _ p'); [|exact H3|]; [done|].
    eapply (merge_state_other data _ V p _ pb); [|exact H2|]; [done|]. done.
  - apply (merge_state_absent _ _ _ _ Hdata) in H2 as ->.
    eapply (merge_state_other data _ V pa _ p'); [|exact H3|]; [done|].
    eapply (merge_state_other data _ V p _ pa); [|exact H1|]; [done|]. done.
  - apply (merge_state_absent _ _ _ _ Hdata) in H3 as ->.
    eapply (merge_state_other data _ V pa _ pb); [|exact H2|]; [done|].
    eapply (merge_state_other data _ V p _ pa); [|exact H1|]; [done|]. done.
Qed.

(** The column of a state-level series: the reading of the row's date and
    state when the series is in the dict, no column when it is not. *)
Lemma state_column su ff nu data panel state_var :
  create_state_panel su ff nu data = Ok panel →
  state_var ∈ state_supplementary →
  match data !! state_var with
  | Some (StateLevel rows) =>
      NoDup ((λ o, (s_date o, s_state o)) <$> rows) →
      ∀ r, r ∈ panel →
        supplementary r !! state_var
          = Some (state_reading rows (date (core r)) (state (core r)))
  | Some (National _) => True
  | None => ∀ r, r ∈ panel → supplementary r !! state_var = None
  end.
Proof.
  intros (p0 & p1 & p2 & Hp0 & H1 & H2 & Hsub)%create_state_panel_loops
         Hvar.
  destruct (data !! state_var) as [[rows|rows]|] eqn:Hdata; [done| |].
  - intros Hnd r Hr%Hsub. revert r Hr.
    by apply (state_loop_column data state_var rows p1 p2).
  - intros r Hr%Hsub. revert r Hr.
    apply (state_loop_column_absent data state_var p1 p2 Hvar Hdata H2).
    apply (national_loop_keeps_state_column data state_var (λ _, None)
             p0 p1 Hvar H1).
    intros r Hr. by rewrite (Hp0 r Hr).
Qed.

(** C8.  With the three core files in place and the optional files that
    exist in the fetcher's layout, the enhanced run writes the final panel,
    whichever optional files are missing and whatever the report step
    does.  The final panel has every (date, state) row of the core panel
    with its core columns, and no other; when no optional file repeats a
    key, it has exactly the rows of the core panel, in their order: the
    row count is unchanged.  A missing optional file leaves no column
    behind.  An optional national series with one row per date is joined
    on the date: every row holds the reading of its date, all state rows
    of a date the same one, and a null where the series has no reading.
    An optional state-level series with one row per date and state is
    joined on both: every row holds the reading of its date and state, or
    a null. *)
Theorem missing_optional_files_keep_every_row
    (asfreq_interpolate : Frame → result Frame)
    (generate_data_quality_report : list DatedRow → result string)
    raw su ff nu :
  raw !! "state_unemployment_rates.csv" = Some (StateLevel su) →
  raw !! "federal_funds_rate.csv" = Some (National ff) →
  raw !! "national_unemployment_rate.csv" = Some (National nu) →
  optional_files_well_formed raw →
  ∃ final,
    (written (main asfreq_interpolate generate_data_quality_report raw)
       !! "analysis_panel_enhanced.csv" = Some final ∧
     written (main asfreq_interpolate generate_data_quality_report raw)
       !! "panel_enhanced.csv" = Some final) ∧
    (length (MergeFinalPanel.create_state_panel su ff nu) ≤ length final ∧
     ∀ c, c ∈ core ∘ row <$> final ↔
          c ∈ MergeFinalPanel.create_state_panel su ff nu) ∧
    (optional_files_unique raw →
     core ∘ row <$> final = MergeFinalPanel.create_state_panel su ff nu ∧
     length final = length (MergeFinalPanel.create_state_panel su ff nu)) ∧
    (∀ key file col,
       (key, file) ∈ optional_files → (key, col) ∈ national_supplementary →
       raw !! file = None →
       ∀ r, r ∈ final → supplementary (row r) !! col = None) ∧
    (∀ key file,
       (key, file) ∈ optional_files → key ∈ state_supplementary →
       raw !! file = None →
       ∀ r, r ∈ final → supplementary (row r) !! key = None) ∧
    (∀ key file col rows,
       (key, file) ∈ optional_files → (key, col) ∈ national_supplementary →
       raw !! file = Some (National rows) → NoDup (n_date <$> rows) →
       ∀ r, r ∈ final →
         supplementary (row r) !! col
           = Some (national_reading rows (date (core (row r))))) ∧
    (∀ key file rows,
       (key, file) ∈ optional_files → key ∈ state_supplementary →
       raw !! file = Some (StateLevel rows) →
       NoDup ((λ o, (s_date o, s_state o)) <$> rows) →
       ∀ r, r ∈ final →
         supplementary (row r) !! key
           = Some (state_reading rows (date (core (row r)))
                     (state (core (row r))))).
Proof.
  intros Hsu Hff Hnu Hwf.
  destruct (load_raw_data_required raw su ff nu Hsu Hff Hnu)
    as (data & Hload & Hsu' & Hff' & Hnu').
  destruct (create_state_panel_ok su ff nu data) as [panel Hpanel];
    [by apply (loaded_well_formed raw)|].
  assert (row <$> calculate_derived_variables panel = panel) as Hrows.
  { unfold calculate_derived_variables. rewrite <- list_fmap_compose.
    by rewrite <- (list_fmap_id panel) at 2. }
  assert (∀ r, r ∈ calculate_derived_variables panel → row r ∈ panel)
    as Hrow.
  { intros r Hr. rewrite <- Hrows. by apply list_elem_of_fmap_2. }
  assert (length (calculate_derived_variables panel) = length panel)
    as Hlen by (unfold calculate_derived_variables; by rewrite length_fmap).
  exists (calculate_derived_variables panel).
  split; [|split; [|split; [|split; [|split; [|split]]]]].
  - unfold main.
    rewrite (assemble_enhanced asfreq_interpolate raw su ff nu data panel)
      by done.
    destruct (generate_data_quality_report _); simpl;
      by rewrite lookup_insert_eq, lookup_insert_ne, lookup_insert_eq.
  - split.
    + rewrite Hlen. by apply (length_create_state_panel su ff nu data).
    + intros c. rewrite list_fmap_compose, Hrows.
      by apply (elem_of_core_create_state_panel su ff nu data).
  - intros Hunique.
    assert (core <$> panel = MergeFinalPanel.create_state_panel su ff nu)
      as Hcore.
    { apply (core_create_state_panel su ff nu data); [|done].
      by apply (loaded_unique raw). }
    split.
    + by rewrite list_fmap_compose, Hrows.
    + by rewrite Hlen, <- Hcore, length_fmap.
  - intros key file col Hfile Hentry Hraw r Hr%Hrow.
    pose proof (national_column su ff nu data panel key col Hpanel Hentry)
      as Hcol.
    rewrite (loaded_absent raw data key file Hload Hfile Hraw) in Hcol.
    by apply Hcol.
  - intros key file Hfile Hvar Hraw r Hr%Hrow.
    pose proof (state_column su ff nu data panel key Hpanel Hvar) as Hcol.
    rewrite (loaded_absent raw data key file Hload Hfile Hraw) in Hcol.
    by apply Hcol.
  - intros key file col rows Hfile Hentry Hraw Hnd r Hr%Hrow.
    pose proof (national_column su ff nu data panel key col Hpanel Hentry)
      as Hcol.
    rewrite (loaded_present raw data key file _ Hload Hfile Hraw) in Hcol.
    by apply Hcol.
  - intros key file rows Hfile Hvar Hraw Hnd r Hr%Hrow.
    pose proof (state_column su ff nu data panel key Hpanel Hvar) as Hcol.
    rewrite (loaded_present raw data key file _ Hload Hfile Hraw) in Hcol.
    by apply Hcol.
Qed.
End optional_files.

Section optional_files_sample.
Import MergeFinalPanelEnhanced.

Lemma missing_optional_files_keep_every_row_witness :
  (inflation_raw !! "state_unemployment_rates.csv"
     = Some (StateLevel sample_states) ∧
   inflation_raw !! "federal_funds_rate.csv"
     = Some (National sample_funds) ∧
   inflation_raw !! "national_unemployment_rate.csv"
     = Some (National sample_national) ∧
   optional_files_well_formed inflation_raw) ∧
  ∃ final,
    written (main interpolate_rejected (report_written _) inflation_raw)
      !! "analysis_panel_enhanced.csv" = Some final ∧
    (∀ c, c ∈ core ∘ row <$> final ↔
          c ∈ MergeFinalPanel.create_state_panel sample_states sample_funds
                sample_national) ∧
    (∀ r, r ∈ final →
       supplementary (row r) !! "recession_indicator" = None) ∧
    (∀ r, r ∈ final →
       supplementary (row r) !! "inflation_cpi"
         = Some (national_reading sample_inflation
                   (date (core (row r))))).
Proof.
  assert (inflation_raw !! "state_unemployment_rates.csv"
            = Some (StateLevel sample_states)) as H1
    by (vm_compute; reflexivity).
  assert (inflation_raw !! "federal_funds_rate.csv"
            = Some (National sample_funds)) as H2
    by (vm_compute; reflexivity).
  assert (inflation_raw !! "national_unemployment_rate.csv"
            = Some (National sample_national)) as H3
    by (vm_compute; reflexivity).
  split; [by auto using inflation_raw_well_formed|].
  destruct (missing_optional_files_keep_every_row interpolate_rejected
              (report_written _) inflation_raw sample_states sample_funds
              sample_national H1 H2 H3 inflation_raw_well_formed)
    as (final & [Hwritten _] & [_ Hcore] & _ & Habsent & _ & Hpresent & _).
  exists final. split; [exact Hwritten|]. split; [exact Hcore|]. split.
  - apply (Habsent "recession" "recession_indicator.csv"
             "recession_indicator").
    + apply (bool_decide_unpack _). vm_compute. exact I.
    + apply (bool_decide_unpack _). vm_compute. exact I.
    + vm_compute. reflexivity.
  - apply (Hpresent "inflation" "inflation_cpi.csv" "inflation_cpi"
             sample_inflation).
    + apply (bool_decide_unpack _). vm_compute. exact I.
    + apply (bool_decide_unpack _). vm_compute. exact I.
    + vm_compute. reflexivity.
    + apply (bool_decide_unpack _). vm_compute. exact I.
Defined.
End optional_files_sample.

(** ** The derived columns of [code/add_supplementary_variables.py] *)

Section derived_columns.
Import AddSupplementaryVariables.
Implicit Types (panel : list PanelRow) (row : DerivedRow).

(** X14.  [unemployment_lagged_1mo] never crosses a state boundary: at
    place [t] of a state's own rows it is that state's unemployment rate at
    place [t - 1], and null on the state's first row. *)
Theorem unemployment_lag_stays_within_state panel s t row :
  own_rows (state ∘ base) s (calculate_derived_variables panel) !! t
    = Some row →
  unemployment_lagged_1mo row =
    match t with
    | 0 => None
    | S t' => own_rows state s panel !! t' ≫= unemployment_rate
    end.
Proof.
  intros Hrow. rewrite (unemployment_lagged_is_grouped panel s t row Hrow).
  unfold lag_within. destruct t as [|t']; [done|].
  rewrite decide_True by lia. by replace (S t' - 1) with t' by lia.
Qed.

Lemma unemployment_lag_stays_within_state_witness :
  own_rows (state ∘ base) "AK"
    (calculate_derived_variables fourteen_months) !! 13
    = Some sample_derived_row ∧
  unemployment_lagged_1mo sample_derived_row =
    own_rows state "AK" fourteen_months !! 12 ≫= unemployment_rate.
Proof.
  assert (own_rows (state ∘ base) "AK"
            (calculate_derived_variables fourteen_months) !! 13
          = Some sample_derived_row) as H by (vm_compute; reflexivity).
  split; [exact H|].
  exact (unemployment_lag_stays_within_state fourteen_months "AK" 13
           sample_derived_row H).
Defined.

(** X15.  [fed_rate_lagged_1mo] and [fed_rate_change] follow the order of
    the panel's rows and not the calendar: the lag is the federal funds
    rate of the row just before, whatever its date and state, the change
    is the row's own rate minus that, and both are null on the first row
    of the panel. *)
Theorem fed_rate_columns_follow_row_order panel i row :
  calculate_derived_variables panel !! i = Some row →
  fed_rate_lagged_1mo row =
    match i with
    | 0 => None
    | S j => panel !! j ≫= federal_funds_rate
    end ∧
  fed_rate_change row =
    osub (federal_funds_rate (base row))
      match i with
      | 0 => None
      | S j => panel !! j ≫= federal_funds_rate
      end.
Proof.
  intros Hrow.
  rewrite (fed_rate_lagged_is_previous_row panel i row Hrow).
  rewrite (fed_rate_change_is_previous_row_difference panel i row Hrow).
  destruct i as [|j]; [done|].
  rewrite decide_True by lia. by replace (S j - 1) with j by lia.
Qed.

Lemma fed_rate_columns_follow_row_order_witness :
  calculate_derived_variables two_by_two !! 1 = Some second_derived_row ∧
  fed_rate_lagged_1mo second_derived_row
    = two_by_two !! 0 ≫= federal_funds_rate.
Proof.
  assert (calculate_derived_variables two_by_two !! 1
          = Some second_derived_row) as H by (vm_compute; reflexivity).
  split; [exact H|].
  exact (proj1 (fed_rate_columns_follow_row_order two_by_two 1
                  second_derived_row H)).
Defined.

(** Rows of a series with one row per date are told apart by the date. *)
Lemma NoDup_fmap_elem_inj {A B} (f : A → B) (l : list A) x y :
  NoDup (f <$> l) → x ∈ l → y ∈ l → f x = f y → x = y.
Proof.
  intros Hnd [i Hi]%list_elem_of_lookup [j Hj]%list_elem_of_lookup Hxy.
  assert (i = j) as ->; [|congruence].
  apply (NoDup_lookup _ _ _ (f x) Hnd); rewrite list_lookup_fmap.
  - by rewrite Hi.
  - by rewrite Hj, Hxy.
Qed.

(** Rows of the assembled panel with the same date hold the same federal
    funds rate, when that series has one row per date. *)
Lemma same_date_same_rate su ff nu (r1 r2 : PanelRow) :
  NoDup (n_date <$> ff) →
  r1 ∈ MergeFinalPanel.create_state_panel su ff nu →
  r2 ∈ MergeFinalPanel.create_state_panel su ff nu →
  date r1 = date r2 → federal_funds_rate r1 = federal_funds_rate r2.
Proof.
  intros Hnd H1 H2 Hdate.
  rewrite create_state_panel_unfold, sort_values_perm in H1, H2.
  apply list_elem_of_filter in H1 as [_ H1], H2 as [_ H2].
  apply joined_rows_spec in H1 as (s1 & f1 & n1 & _ & Hf1 & _ & Hd1 & _ & ->).
  apply joined_rows_spec in H2 as (s2 & f2 & n2 & _ & Hf2 & _ & Hd2 & _ & ->).
  simpl in *. f_equal.
  apply (NoDup_fmap_elem_inj n_date ff); [done..|]. congruence.
Qed.

(** X16.  On the panel as [merge_final_panel.py] writes it, sorted by date
    and state, a row that follows a row of the same date finds its own
    federal funds rate in [fed_rate_lagged_1mo], and its [fed_rate_change]
    is zero, or null when the rate is: the two columns carry the previous
    month on the first state of a date only. *)
Theorem fed_rate_change_is_zero_within_a_date su ff nu i previous row :
  NoDup (n_date <$> ff) →
  calculate_derived_variables (MergeFinalPanel.create_state_panel su ff nu)
    !! S i = Some row →
  MergeFinalPanel.create_state_panel su ff nu !! i = Some previous →
  date previous = date (base row) →
  fed_rate_lagged_1mo row = federal_funds_rate (base row) ∧
  (fed_rate_change row = None ∨
   ∃ q, fed_rate_change row = Some q ∧ (q == 0)%Q).
Proof.
  intros Hnd Hrow Hprev Hdate.
  set (panel := MergeFinalPanel.create_state_panel su ff nu) in *.
  assert (base row ∈ panel) as Hin.
  { rewrite <- (base_calculate_derived_variables panel).
    apply list_elem_of_fmap_2. by apply list_elem_of_lookup_2 in Hrow. }
  assert (federal_funds_rate previous = federal_funds_rate (base row))
    as Hrate.
  { apply (same_date_same_rate su ff nu); try done.
    by apply list_elem_of_lookup_2 in Hprev. }
  rewrite (fed_rate_lagged_is_previous_row panel (S i) row Hrow).
  rewrite (fed_rate_change_is_previous_row_difference panel (S i) row Hrow).
  rewrite decide_True by lia. replace (S i - 1) with i by lia.
  rewrite Hprev. simpl. rewrite Hrate. split; [done|].
  destruct (federal_funds_rate (base row)) as [v|]; simpl; [|by left].
  right. exists (v - v)%Q. split; [done|]. ring.
Qed.

Lemma fed_rate_change_is_zero_within_a_date_witness :
  (NoDup (n_date <$> sample_funds) ∧
   calculate_derived_variables
     (MergeFinalPanel.create_state_panel sample_states sample_funds
        sample_national) !! 1 = Some same_date_row ∧
   MergeFinalPanel.create_state_panel sample_states sample_funds
     sample_national !! 0 = Some first_panel_row ∧
   date first_panel_row = date (base same_date_row)) ∧
  fed_rate_lagged_1mo same_date_row
    = federal_funds_rate (base same_date_row).
Proof.
  assert (NoDup (n_date <$> sample_funds)) as H1
    by (apply (bool_decide_unpack _); vm_compute; exact I).
  assert (calculate_derived_variables
            (MergeFinalPanel.create_state_panel sample_states sample_funds
               sample_national) !! 1 = Some same_date_row) as H2
    by (vm_compute; reflexivity).
  assert (MergeFinalPanel.create_state_panel sample_states sample_funds
            sample_national !! 0 = Some first_panel_row) as H3
    by (vm_compute; reflexivity).
  assert (date first_panel_row = date (base same_date_row)) as H4
    by (vm_compute; reflexivity).
  split; [done|].
  exact (proj1 (fed_rate_change_is_zero_within_a_date sample_states
                  sample_funds sample_national 0 first_panel_row
                  same_date_row H1 H2 H3 H4)).
Defined.
End derived_columns.

(** ** The rolling deviation on a panel of one state *)

Section volatility.
Import AddSupplementaryVariables.
Implicit Types (panel : list PanelRow) (row : DerivedRow).

(** A column with one value throughout has one group key. *)
Lemma group_keys_constant (keys : list string) s :
  keys ≠ [] → (∀ k, k ∈ keys → k = s) → Pandas.group_keys keys = [s].
Proof.
  intros Hne Hall. unfold Pandas.group_keys.
  assert (remove_dups keys = [s]) as ->; [|done].
  induction keys as [|k keys IH]; [done|]. simpl.
  rewrite (Hall k) by (by left).
  destruct keys as [|k' keys].
  - destruct (decide_rel _ s []) as [Hin|_]; [|done].
    by apply elem_of_nil in Hin.
  - destruct (decide_rel _ s (k' :: keys)) as [_|Hnot].
    + apply IH; [done|]. intros g Hg. apply Hall. by right.
    + destruct Hnot. rewrite (Hall k') by (right; by left). by left.
Qed.

(** On a frame of one state the grouped rolling statistic is the rolling
    statistic of the whole column. *)
Lemma groupby_rolling_std_single {R} (key : R → string) (f : R → option Q)
    window min_periods (df : list (nat * R)) s :
  (∀ p, p ∈ df → key p.2 = s) →
  Pandas.groupby_rolling_std key f window min_periods df
    = Pandas.rolling_std window min_periods (Pandas.column f df).
Proof.
  intros Hall. unfold Pandas.groupby_rolling_std, Pandas.groupby.
  destruct (decide (df = [])) as [->|Hne]; [done|].
  rewrite (group_keys_constant _ s).
  - csimpl. rewrite app_nil_r.
    by rewrite (filter_all (λ q : nat * R, key q.2 = s) df Hall).
  - by destruct df.
  - intros k (q & -> & Hq)%list_elem_of_fmap. by apply Hall.
Qed.

(** X17.  On a panel of one state [unemployment_volatility_12mo] is the
    rolling sample deviation of the column: at row [i] the deviation
    (denominator n - 1) of the non-null rates among the last twelve rows up
    to and including [i].  It is null whenever that window holds fewer than
    two rates, [min_periods=1] notwithstanding, so it is null on the first
    row. *)
Theorem volatility_of_a_single_state panel s i row :
  (∀ r, r ∈ panel → state r = s) →
  calculate_derived_variables panel !! i = Some row →
  unemployment_volatility_12mo row =
    Pandas.std
      (omap id (drop (S i - 12) (take (S i) (unemployment_rate <$> panel)))) ∧
  (i = 0 → unemployment_volatility_12mo row = None).
Proof.
  intros Hall Hrow.
  assert (unemployment_volatility_12mo row =
            Pandas.std
              (omap id (drop (S i - 12)
                          (take (S i) (unemployment_rate <$> panel)))))
    as Heq.
  { rewrite (volatility_is_positional panel i row Hrow).
    destruct (derived_row_lookup panel i row Hrow) as (Hi & _).
    rewrite (groupby_rolling_std_single state unemployment_rate 12 1 _ s).
    - unfold Pandas.rolling_std, Pandas.values at 1.
      rewrite list_lookup_fmap, list_lookup_imap.
      assert (Pandas.column unemployment_rate (Pandas.range_index panel)
                !! i = Some (i, unemployment_rate (base row))) as ->
        by (unfold Pandas.column; by rewrite list_lookup_fmap, Hi).
      csimpl.
      rewrite values_column, rows_range_index.
      case_decide as Hlen; [|done].
      unfold Pandas.std. rewrite decide_True by lia. done.
    - intros p Hp. apply Hall. rewrite <- (rows_range_index panel).
      by apply list_elem_of_fmap_2. }
  split; [done|]. intros ->. rewrite Heq.
  unfold Pandas.std. rewrite decide_True; [done|].
  destruct panel as [|r panel]; [simpl; lia|]. csimpl.
  destruct (unemployment_rate r); simpl; lia.
Qed.

Lemma volatility_of_a_single_state_witness :
  ((∀ r, r ∈ one_state_panel → state r = "AK") ∧
   calculate_derived_variables one_state_panel !! 2 = Some third_month_row) ∧
  unemployment_volatility_12mo third_month_row =
    Pandas.std
      (omap id (drop (3 - 12)
                  (take 3 (unemployment_rate <$> one_state_panel)))).
Proof.
  assert (∀ r, r ∈ one_state_panel → state r = "AK") as H1.
  { apply Forall_forall. apply (bool_decide_unpack _). vm_compute. exact I. }
  assert (calculate_derived_variables one_state_panel !! 2
          = Some third_month_row) as H2 by (vm_compute; reflexivity).
  split; [done|].
  exact (proj1 (volatility_of_a_single_state one_state_panel "AK" 2
                  third_month_row H1 H2)).
Defined.
End volatility.

(** ** The fetchers of [code/fetch_data.py] *)

Section fetchers.
Import FetchDataSeries.
Variable get_series : string → result (list (Timestamp * option Q)).
Variable start_date : Timestamp.
Implicit Types (series_dict : list (string * string)) (r : StateObs).

(** The loop collects the frames of the states that could be fetched, in
    table order. *)
Lemma fetch_state_all_data series_dict acc :
  (foldl (fetch_state get_series start_date) acc series_dict).1
    = acc.1 ++ fetched_frames get_series start_date series_dict.
Proof.
  revert acc. unfold fetched_frames.
  induction series_dict as [|entry series_dict IH]; intros acc; csimpl.
  - by rewrite app_nil_r.
  - rewrite IH. unfold fetch_state.
    destruct (get_series entry.2) as [data|e]; csimpl; [|done].
    by rewrite <- app_assoc.
Qed.

Lemma fetched_frames_nil series_dict :
  fetched_frames get_series start_date series_dict = [] ↔
  ∀ entry, entry ∈ series_dict → ∃ e, get_series entry.2 = Raise e.
Proof.
  unfold fetched_frames.
  induction series_dict as [|entry series_dict IH]; csimpl.
  - split; [|done]. intros _ entry Hin. by apply elem_of_nil in Hin.
  - destruct (get_series entry.2) as [data|e] eqn:Hget; csimpl.
    + split; [done|]. intros Hall.
      destruct (Hall entry) as [e He]; [by left | congruence].
    + rewrite IH. split.
      * intros Hall entry' [->|Hin]%elem_of_cons; [by exists e | auto].
      * intros Hall entry' Hin. apply Hall. by right.
Qed.

Lemma elem_of_concat {A} (x : A) (ls : list (list A)) :
  x ∈ concat ls ↔ ∃ l, x ∈ l ∧ l ∈ ls.
Proof.
  induction ls as [|l ls IH]; simpl.
  - split; [by intros ?%elem_of_nil|]. by intros (l & _ & ?%elem_of_nil).
  - rewrite elem_of_app, IH. split.
    + intros [Hx|(l' & Hx & Hl')]; [exists l; split; [done|by left]|].
      exists l'. split; [done|by right].
    + intros (l' & Hx & [->|Hl']%elem_of_cons); [by left|].
      right. by exists l'.
Qed.

Lemma elem_of_fetched_frames series_dict r :
  r ∈ concat (fetched_frames get_series start_date series_dict) ↔
  ∃ entry data,
    entry ∈ series_dict ∧ get_series entry.2 = Ok data ∧
    (s_date r, s_value r) ∈ data ∧ (start_date ≤ s_date r)%Z ∧
    s_state r = entry.1.
Proof.
  unfold fetched_frames. rewrite elem_of_concat. split.
  - intros (frame & Hr & (entry & Hin & Hframe)%list_elem_of_omap).
    destruct (get_series entry.2) as [data|e] eqn:Hget; [|done].
    injection Hframe as <-. unfold state_rows in Hr.
    apply list_elem_of_fmap in Hr as ([d v] & -> & Hp).
    apply list_elem_of_filter in Hp as [Hstart Hp]. simpl in *.
    by exists entry, data.
  - intros (entry & data & Hin & Hget & Hp & Hstart & Hstate).
    exists (state_rows start_date entry.1 data). split.
    + unfold state_rows. apply list_elem_of_fmap.
      exists (s_date r, s_value r). split.
      * destruct r. simpl in *. by rewrite Hstate.
      * by apply list_elem_of_filter.
    + apply list_elem_of_omap. exists entry. by rewrite Hget.
Qed.

(** Sorting by date and state, whatever the rows. *)
Lemma sort_by_date_and_state_sorted {A} (d : A → Timestamp) (st : A → string)
    (l : list A) :
  StronglySorted
    (λ x y, (d x < d y)%Z ∨
            (d x = d y ∧ String.leb (st x) (st y) = true))
    (Pandas.sort_values
       (λ a b, date_state_leb (d a) (st a) (d b) (st b)) l).
Proof.
  apply sort_values_StronglySorted.
  - intros x y. unfold date_state_leb.
    intros [Hlt|[Heq Hs]%andb_true_iff]%orb_true_iff.
    + left. lia.
    + right. split; [lia | done].
  - intros x y. unfold date_state_leb.
    intros [Hlt Heq]%orb_false_iff. apply Z.ltb_ge in Hlt.
    apply andb_false_iff in Heq as [Hne|Hs].
    + left. apply Z.eqb_neq in Hne. lia.
    + destruct (decide (d x = d y)) as [Hd|Hd]; [|left; lia].
      right. split; [done|].
      by destruct (String.leb_total (st x) (st y)) as [Hxy|Hyx];
        [rewrite Hxy in Hs|].
  - intros x y z [Hxy|[Hxy Hsxy]] [Hyz|[Hyz Hsyz]]; try (left; lia).
    right. split; [lia|]. by apply (string_leb_trans _ (st y)).
Qed.

(** The frames of a table with distinct state abbreviations, each from a
    series with one observation per date, never repeat a (date, state). *)
Lemma NoDup_fetched_frames series_dict :
  NoDup series_dict.*1 →
  (∀ entry data, entry ∈ series_dict → get_series entry.2 = Ok data →
                 NoDup data.*1) →
  NoDup ((λ o, (s_date o, s_state o))
           <$> concat (fetched_frames get_series start_date series_dict)).
Proof.
  induction series_dict as [|entry series_dict IH]; csimpl;
    [constructor|].
  rewrite NoDup_cons. intros [Hentry Hnd] Hdata.
  assert (NoDup ((λ o, (s_date o, s_state o))
                   <$> concat (fetched_frames get_series start_date
                                 series_dict))) as Hrest.
  { apply IH; [done|]. intros e data He. apply Hdata. by right. }
  unfold fetched_frames in *. csimpl.
  destruct (get_series entry.2) as [data|e] eqn:Hget; csimpl; [|done].
  rewrite fmap_app. apply NoDup_app. split; [|split; [|done]].
  - unfold state_rows. rewrite <- list_fmap_compose.
    assert ((λ o, (s_date o, s_state o))
              ∘ (λ p : Timestamp * option Q,
                   {| s_date := p.1; s_state := entry.1; s_value := p.2 |})
            = (λ dt : Timestamp, (dt, entry.1)) ∘ fst) as -> by done.
    rewrite list_fmap_compose. apply NoDup_fmap_2.
    + intros d1 d2 [= ->]. done.
    + assert (NoDup data.*1) as Hd by (apply (Hdata entry); [by left|done]).
      eapply sublist_NoDup; [exact Hd|].
      apply fmap_sublist. unfold since_start_date. apply sublist_filter.
  - intros key (r1 & -> & Hr1)%list_elem_of_fmap
               (r2 & Hkey & Hr2)%list_elem_of_fmap.
    unfold state_rows in Hr1.
    apply list_elem_of_fmap in Hr1 as (p & -> & _). simpl in Hkey.
    apply elem_of_fetched_frames in Hr2
      as (entry' & data' & Hin & _ & _ & _ & Hstate).
    destruct Hentry. injection Hkey as _ ->. rewrite Hstate.
    by apply list_elem_of_fmap_2.
Qed.

(** What the loop over a table leaves: nothing when every series fails,
    else the observations since the start date of the states that could
    be fetched. *)
Lemma fetch_state_loop_spec {X} series_dict (none : X)
    (some : list StateObs → X) (P : X → Prop) :
  ((∀ entry, entry ∈ series_dict → ∃ e, get_series entry.2 = Raise e) →
   P none) →
  (∀ df,
     (∃ entry data, entry ∈ series_dict ∧ get_series entry.2 = Ok data) →
     (∀ r, r ∈ df ↔
        ∃ entry data,
          entry ∈ series_dict ∧ get_series entry.2 = Ok data ∧
          (s_date r, s_value r) ∈ data ∧ (start_date ≤ s_date r)%Z ∧
          s_state r = entry.1) →
     StronglySorted
       (λ r1 r2, (s_date r1 < s_date r2)%Z ∨
                 (s_date r1 = s_date r2 ∧
                  String.leb (s_state r1) (s_state r2) = true)) df →
     (NoDup series_dict.*1 →
      (∀ entry data, entry ∈ series_dict → get_series entry.2 = Ok data →
                     NoDup data.*1) →
      NoDup ((λ o, (s_date o, s_state o)) <$> df)) →
     P (some df)) →
  P match (foldl (fetch_state get_series start_date) ([], []) series_dict).1
    with
    | [] => none
    | all_data => some (combined_df all_data)
    end.
Proof.
  intros Hnone Hsome. rewrite fetch_state_all_data. cbn [fst app].
  destruct (fetched_frames get_series start_date series_dict)
    as [|frame frames] eqn:Hframes.
  - apply Hnone. by apply fetched_frames_nil.
  - apply Hsome.
    + assert (frame ∈ fetched_frames get_series start_date series_dict)
        as Hin by (rewrite Hframes; by left).
      apply list_elem_of_omap in Hin as (entry & Hin & Hframe).
      destruct (get_series entry.2) as [data|e] eqn:Hget; [|done].
      by exists entry, data.
    + intros r. unfold combined_df. rewrite sort_values_perm.
      rewrite <- Hframes. apply elem_of_fetched_frames.
    + apply (sort_by_date_and_state_sorted s_date s_state).
    + intros Hnd Hdata. unfold combined_df.
      rewrite sort_values_perm, <- Hframes.
      by apply NoDup_fetched_frames.
Qed.

(** X18.  [fetch_state_unemployment_rates] tolerates the states that
    cannot be fetched: it raises [ValueError] only when every one of the
    fifty series fails, and otherwise returns the observations since the
    start date of exactly the states that could be fetched, each under
    the abbreviation of its state. *)
Theorem state_fetch_tolerates_failed_states :
  match fetch_state_unemployment_rates get_series start_date with
  | Raise e =>
      e = ValueError "Failed to fetch data for all states" ∧
      ∀ entry, entry ∈ STATE_UNEMPLOYMENT_SERIES →
        ∃ e', get_series entry.2 = Raise e'
  | Ok df =>
      (∃ entry data,
         entry ∈ STATE_UNEMPLOYMENT_SERIES ∧ get_series entry.2 = Ok data) ∧
      ∀ r, r ∈ df ↔
        ∃ entry data,
          entry ∈ STATE_UNEMPLOYMENT_SERIES ∧ get_series entry.2 = Ok data ∧
          (s_date r, s_value r) ∈ data ∧ (start_date ≤ s_date r)%Z ∧
          s_state r = entry.1
  end.
Proof.
  exact (fetch_state_loop_spec STATE_UNEMPLOYMENT_SERIES
           (Raise (ValueError "Failed to fetch data for all states")) Ok
           (λ x, match x with
                 | Raise e =>
                     e = ValueError "Failed to fetch data for all states" ∧
                     ∀ entry, entry ∈ STATE_UNEMPLOYMENT_SERIES →
                       ∃ e', get_series entry.2 = Raise e'
                 | Ok df =>
                     (∃ entry data,
                        entry ∈ STATE_UNEMPLOYMENT_SERIES ∧
                        get_series entry.2 = Ok data) ∧
                     ∀ r, r ∈ df ↔
                       ∃ entry data,
                         entry ∈ STATE_UNEMPLOYMENT_SERIES ∧
                         get_series entry.2 = Ok data ∧
                         (s_date r, s_value r) ∈ data ∧
                         (start_date ≤ s_date r)%Z ∧ s_state r = entry.1
                 end)
           (λ Hall, conj eq_refl Hall)
           (λ df Hex Hrows _ _, conj Hex Hrows)).
Qed.

(** X19.  The frame of the state unemployment rates leaves the fetcher
    sorted by date and, within a date, by state; and when no series of
    the client repeats a date, the frame has one row per date and state,
    which is the uniqueness the merge scripts rely on. *)
Theorem fetched_state_rows_are_sorted_and_unique df :
  fetch_state_unemployment_rates get_series start_date = Ok df →
  StronglySorted
    (λ r1 r2, (s_date r1 < s_date r2)%Z ∨
              (s_date r1 = s_date r2 ∧
               String.leb (s_state r1) (s_state r2) = true)) df ∧
  ((∀ entry data, entry ∈ STATE_UNEMPLOYMENT_SERIES →
                  get_series entry.2 = Ok data → NoDup data.*1) →
   unique_keys (StateLevel df)).
Proof.
  assert (NoDup STATE_UNEMPLOYMENT_SERIES.*1) as Hstates
    by (apply (bool_decide_unpack _); vm_compute; exact I).
  revert df.
  exact (fetch_state_loop_spec STATE_UNEMPLOYMENT_SERIES
           (Raise (ValueError "Failed to fetch data for all states")) Ok
           (λ x, ∀ df, x = Ok df →
              StronglySorted
                (λ r1 r2, (s_date r1 < s_date r2)%Z ∨
                          (s_date r1 = s_date r2 ∧
                           String.leb (s_state r1) (s_state r2) = true))
                df ∧
              ((∀ entry data, entry ∈ STATE_UNEMPLOYMENT_SERIES →
                              get_series entry.2 = Ok data →
                              NoDup data.*1) →
               unique_keys (StateLevel df)))
           (λ _ df (H : Raise _ = Ok df), match H with end)
           (λ df0 _ _ Hsorted Hunique df (H : Ok df0 = Ok df),
              match H in _ = y return
                match y with
                | Ok df =>
                    StronglySorted _ df ∧
                    ((∀ entry data, entry ∈ STATE_UNEMPLOYMENT_SERIES →
                                    get_series entry.2 = Ok data →
                                    NoDup data.*1) →
                     unique_keys (StateLevel df))
                | Raise _ => True
                end
              with
              | eq_refl => conj Hsorted (Hunique Hstates)
              end)).
Qed.

(** *** Saving *)

Lemma fetch_state_unemployment_rates_raise :
  (∀ entry, entry ∈ STATE_UNEMPLOYMENT_SERIES →
            ∃ e, get_series entry.2 = Raise e) →
  fetch_state_unemployment_rates get_series start_date
    = Raise (ValueError "Failed to fetch data for all states").
Proof.
  intros Hall.
  apply (fetch_state_loop_spec STATE_UNEMPLOYMENT_SERIES
           (Raise (ValueError "Failed to fetch data for all states")) Ok
           (λ x, x = Raise (ValueError
                              "Failed to fetch data for all states"))).
  - done.
  - intros df (entry & data & Hin & Hget) _ _ _.
    destruct (Hall entry Hin) as [e He]. congruence.
Qed.

Lemma lookup_save_raw_data (data_dict : gmap string (option Frame))
    (output_dir : gmap string Frame) file :
  save_raw_data data_dict output_dir !! file =
    match data_dict !! file with
    | Some (Some df) => saved df (output_dir !! file)
    | _ => output_dir !! file
    end.
Proof.
  unfold save_raw_data, saved. rewrite lookup_union, lookup_omap.
  destruct (data_dict !! file) as [[df|]|]; simpl;
    [destruct (empty df); simpl|..]; by destruct (output_dir !! file).
Qed.

Lemma lookup_add_file_ne file df (all_data : gmap string (option Frame)) g :
  file ≠ g → add_file file df all_data !! g = all_data !! g.
Proof.
  intros Hne. unfold add_file.
  destruct df; [by rewrite lookup_insert_ne | done].
Qed.

Lemma lookup_add_file_eq file df (all_data : gmap string (option Frame)) :
  add_file file df all_data !! file =
    match df with
    | Some f => Some (Some f)
    | None => all_data !! file
    end.
Proof. unfold add_file. destruct df; [by rewrite lookup_insert_eq | done]. Qed.

Lemma lookup_fetch_supplementary_ne key series_id
    (national_data : gmap string (list NationalObs)) k :
  key ≠ k →
  fetch_supplementary get_series start_date key series_id national_data !! k
    = national_data !! k.
Proof.
  intros Hne. unfold fetch_supplementary.
  destruct (get_series series_id); [by rewrite lookup_insert_ne | done].
Qed.

Lemma lookup_fetch_supplementary_eq key series_id
    (national_data : gmap string (list NationalObs)) :
  fetch_supplementary get_series start_date key series_id national_data
    !! key =
    match get_series series_id with
    | Ok data => Some (national_rows start_date data)
    | Raise _ => national_data !! key
    end.
Proof.
  unfold fetch_supplementary.
  destruct (get_series series_id); [by rewrite lookup_insert_eq | done].
Qed.

Ltac lookup_file :=
  repeat first
    [ rewrite lookup_add_file_ne by done
    | rewrite lookup_insert_ne by done
    | rewrite lookup_fetch_supplementary_ne by done ];
  try first
    [ rewrite lookup_add_file_eq
    | rewrite lookup_insert_eq
    | rewrite lookup_fetch_supplementary_eq
    | rewrite lookup_empty ].

(** What the directory holds after a run whose three core fetches went
    through. *)
Lemma fetch_and_save_files output_dir ff nu su :
  fetch_federal_funds_rate get_series start_date = Ok ff →
  fetch_national_unemployment_rate get_series start_date = Ok nu →
  fetch_state_unemployment_rates get_series start_date = Ok su →
  ∃ dir,
    fetch_and_save get_series start_date output_dir = (dir, 0%Z) ∧
    dir !! "federal_funds_rate.csv"
      = saved (National ff) (output_dir !! "federal_funds_rate.csv") ∧
    dir !! "national_unemployment_rate.csv"
      = saved (National nu)
          (output_dir !! "national_unemployment_rate.csv") ∧
    dir !! "state_unemployment_rates.csv"
      = saved (StateLevel su)
          (output_dir !! "state_unemployment_rates.csv") ∧
    dir !! "inflation_cpi.csv" =
      match get_series INFLATION_SERIES with
      | Ok data =>
          saved (National (national_rows start_date data))
            (output_dir !! "inflation_cpi.csv")
      | Raise _ => output_dir !! "inflation_cpi.csv"
      end ∧
    dir !! "recession_indicator.csv" =
      match get_series RECESSION_INDICATOR_SERIES with
      | Ok data =>
          saved (National (national_rows start_date data))
            (output_dir !! "recession_indicator.csv")
      | Raise _ => output_dir !! "recession_indicator.csv"
      end ∧
    dir !! "treasury_10y_yield.csv" =
      match get_series TREASURY_10Y_SERIES with
      | Ok data =>
          saved (National (national_rows start_date data))
            (output_dir !! "treasury_10y_yield.csv")
      | Raise _ => output_dir !! "treasury_10y_yield.csv"
      end ∧
    dir !! "state_employment_level.csv" =
      match fetch_state_employment_level get_series start_date with
      | Some df =>
          saved (StateLevel df) (output_dir !! "state_employment_level.csv")
      | None => output_dir !! "state_employment_level.csv"
      end ∧
    dir !! "state_labor_force_level.csv" =
      match fetch_state_labor_force_level get_series start_date with
      | Some df =>
          saved (StateLevel df) (output_dir !! "state_labor_force_level.csv")
      | None => output_dir !! "state_labor_force_level.csv"
      end ∧
    dir !! "state_private_employment.csv" =
      match fetch_state_private_employment get_series start_date with
      | Some df =>
          saved (StateLevel df)
            (output_dir !! "state_private_employment.csv")
      | None => output_dir !! "state_private_employment.csv"
      end ∧
    ∀ file, file ∉ fetched_files → dir !! file = output_dir !! file.
Proof.
  intros Hff Hnu Hsu. unfold fetch_and_save.
  rewrite Hff, bind_Ok, Hnu, bind_Ok, Hsu, bind_Ok.
  cbv beta iota zeta. eexists. split; [reflexivity|].
  unfold fetch_national_supplementary_data.
  generalize (fetch_state_employment_level get_series start_date).
  generalize (fetch_state_labor_force_level get_series start_date).
  generalize (fetch_state_private_employment get_series start_date).
  intros private labor employment.
  repeat split.
  - rewrite lookup_save_raw_data. by repeat lookup_file.
  - rewrite lookup_save_raw_data. by repeat lookup_file.
  - rewrite lookup_save_raw_data. by repeat lookup_file.
  - rewrite lookup_save_raw_data. repeat lookup_file.
    destruct (get_series INFLATION_SERIES); simpl; by repeat lookup_file.
  - rewrite lookup_save_raw_data. repeat lookup_file.
    destruct (get_series RECESSION_INDICATOR_SERIES); simpl;
      by repeat lookup_file.
  - rewrite lookup_save_raw_data. repeat lookup_file.
    destruct (get_series TREASURY_10Y_SERIES); simpl;
      by repeat lookup_file.
  - rewrite lookup_save_raw_data. repeat lookup_file.
    destruct employment; simpl; by repeat lookup_file.
  - rewrite lookup_save_raw_data. repeat lookup_file.
    destruct labor; simpl; by repeat lookup_file.
  - rewrite lookup_save_raw_data. repeat lookup_file.
    destruct private; simpl; by repeat lookup_file.
  - intros file Hfile. rewrite lookup_save_raw_data.
    unfold fetched_files in Hfile.
    repeat (apply not_elem_of_cons in Hfile as [? Hfile]).
    by repeat lookup_file.
Qed.

(** X20.  When the federal funds rate or the national unemployment rate
    cannot be fetched, or none of the fifty state series can, the run
    returns 1 and leaves the raw-data directory as it was: nothing is
    saved before every fetch is over, not even the series that went
    through. *)
Theorem failed_core_fetch_saves_nothing output_dir :
  (∃ e, get_series FEDERAL_FUNDS_RATE_SERIES = Raise e) ∨
  (∃ e, get_series NATIONAL_UNEMPLOYMENT_SERIES = Raise e) ∨
  (∀ entry, entry ∈ STATE_UNEMPLOYMENT_SERIES →
            ∃ e, get_series entry.2 = Raise e) →
  fetch_and_save get_series start_date output_dir = (output_dir, 1%Z).
Proof.
  intros [[e He]|[[e He]|Hall]]; unfold fetch_and_save.
  - unfold fetch_federal_funds_rate. rewrite He. reflexivity.
  - destruct (fetch_federal_funds_rate get_series start_date) as [ff|e1];
      [|reflexivity].
    rewrite bind_Ok. unfold fetch_national_unemployment_rate.
    rewrite He. reflexivity.
  - destruct (fetch_federal_funds_rate get_series start_date) as [ff|e1];
      [|reflexivity].
    rewrite bind_Ok.
    destruct (fetch_national_unemployment_rate get_series start_date)
      as [nu|e2]; [|reflexivity].
    rewrite bind_Ok, (fetch_state_unemployment_rates_raise Hall).
    reflexivity.
Qed.


Lemma load_file_missing_federal_funds
    (generate_data_quality_report : list PanelRow → result string)
    (raw : gmap string Frame) :
  raw !! "federal_funds_rate.csv" = None →
  MergeFinalPanel.load_raw_data raw
    = Raise (FileNotFoundError
               "Missing raw data file: federal_funds_rate.csv") ∧
  MergeFinalPanel.main generate_data_quality_report raw
    = {| MergeFinalPanel.written := ∅; MergeFinalPanel.exit_code := 1 |}.
Proof.
  intros Hraw.
  assert (MergeFinalPanel.load_raw_data raw
            = Raise (FileNotFoundError
                       "Missing raw data file: federal_funds_rate.csv"))
    as Hload.
  { unfold MergeFinalPanel.load_raw_data, MergeFinalPanel.files_to_load,
      MergeFinalPanel.load_file.
    simpl. by rewrite Hraw. }
  split; [done|].
  unfold MergeFinalPanel.main, MergeFinalPanel.assemble. by rewrite Hload.
Qed.

(** X22.  The two ends fit: after a run into any directory in which each
    core series has an observation since the start date, the merge script
    finds its three files and writes the panel assembled from exactly
    the fetched frames. *)
Theorem a_complete_fetch_feeds_the_merge
    (generate_data_quality_report : list PanelRow → result string)
    output_dir ff nu su :
  fetch_federal_funds_rate get_series start_date = Ok ff →
  fetch_national_unemployment_rate get_series start_date = Ok nu →
  fetch_state_unemployment_rates get_series start_date = Ok su →
  ff ≠ [] → nu ≠ [] → su ≠ [] →
  ∃ dir,
    fetch_and_save get_series start_date output_dir = (dir, 0%Z) ∧
    MergeFinalPanel.written
      (MergeFinalPanel.main generate_data_quality_report dir)
      !! "analysis_panel.csv"
      = Some (MergeFinalPanel.create_state_panel su ff nu).
Proof.
  intros Hff Hnu Hsu Hff' Hnu' Hsu'.
  destruct (fetch_and_save_files output_dir ff nu su Hff Hnu Hsu)
    as (dir & Hrun & Hf & Hn & Hs & _).
  exists dir. split; [done|].
  assert (dir !! "federal_funds_rate.csv" = Some (National ff)) as Hf'
    by (rewrite Hf; unfold saved; by destruct ff).
  assert (dir !! "national_unemployment_rate.csv" = Some (National nu))
    as Hn' by (rewrite Hn; unfold saved; by destruct nu).
  assert (dir !! "state_unemployment_rates.csv" = Some (StateLevel su))
    as Hs' by (rewrite Hs; unfold saved; by destruct su).
  unfold MergeFinalPanel.main.
  rewrite (assemble_required dir su ff nu) by done.
  by destruct (generate_data_quality_report _); simpl;
    rewrite lookup_insert_eq.
Qed.

(** X23.  A core series whose observations all lie before the start date
    is fetched as a frame without rows: the run still returns 0, but
    writes no file for it, and on a directory that was empty the merge
    script then stops with [FileNotFoundError] for that file and exit
    code 1. *)
Theorem empty_core_series_is_not_saved
    (generate_data_quality_report : list PanelRow → result string)
    data nu su :
  get_series FEDERAL_FUNDS_RATE_SERIES = Ok data →
  (∀ p, p ∈ data → (p.1 < start_date)%Z) →
  fetch_national_unemployment_rate get_series start_date = Ok nu →
  fetch_state_unemployment_rates get_series start_date = Ok su →
  ∃ dir,
    fetch_and_save get_series start_date ∅ = (dir, 0%Z) ∧
    dir !! "federal_funds_rate.csv" = None ∧
    MergeFinalPanel.load_raw_data dir
      = Raise (FileNotFoundError
                 "Missing raw data file: federal_funds_rate.csv") ∧
    MergeFinalPanel.main generate_data_quality_report dir
      = {| MergeFinalPanel.written := ∅; MergeFinalPanel.exit_code := 1 |}.
Proof.
  intros Hdata Hbefore Hnu Hsu.
  assert (fetch_federal_funds_rate get_series start_date = Ok []) as Hff.
  { unfold fetch_federal_funds_rate. rewrite Hdata, bind_Ok.
    unfold national_rows.
    assert (since_start_date start_date data = []) as ->; [|done].
    clear Hdata. unfold since_start_date.
    induction data as [|p data IH]; [done|].
    rewrite filter_cons, decide_False.
    - apply IH. intros q Hq. apply Hbefore. by right.
    - specialize (Hbefore p ltac:(by left)). lia. }
  destruct (fetch_and_save_files ∅ [] nu su Hff Hnu Hsu)
    as (dir & Hrun & Hf & _).
  exists dir. split; [done|].
  assert (dir !! "federal_funds_rate.csv" = None) as Hf'
    by (rewrite Hf; unfold saved; simpl; by rewrite lookup_empty).
  split; [done|].
  by apply load_file_missing_federal_funds.
Qed.
End fetchers.

Lemma failed_core_fetch_saves_nothing_witness :
  ((∃ e, offline_client FetchDataSeries.FEDERAL_FUNDS_RATE_SERIES = Raise e)
   ∨ (∃ e, offline_client FetchDataSeries.NATIONAL_UNEMPLOYMENT_SERIES
             = Raise e)
   ∨ (∀ entry, entry ∈ FetchDataSeries.STATE_UNEMPLOYMENT_SERIES →
               ∃ e, offline_client entry.2 = Raise e)) ∧
  FetchDataSeries.fetch_and_save offline_client 7305 sample_raw
    = (sample_raw, 1%Z).
Proof.
  assert ((∃ e, offline_client FetchDataSeries.FEDERAL_FUNDS_RATE_SERIES
                  = Raise e)
          ∨ (∃ e, offline_client FetchDataSeries.NATIONAL_UNEMPLOYMENT_SERIES
                    = Raise e)
          ∨ (∀ entry, entry ∈ FetchDataSeries.STATE_UNEMPLOYMENT_SERIES →
                      ∃ e, offline_client entry.2 = Raise e)) as H
    by (left; eexists; reflexivity).
  split; [exact H|].
  exact (failed_core_fetch_saves_nothing offline_client 7305 sample_raw H).
Defined.


Lemma a_complete_fetch_feeds_the_merge_witness :
  (FetchDataSeries.fetch_federal_funds_rate sample_client 7305
     = Ok sample_fetched_funds ∧
   FetchDataSeries.fetch_national_unemployment_rate sample_client 7305
     = Ok sample_fetched_national ∧
   FetchDataSeries.fetch_state_unemployment_rates sample_client 7305
     = Ok sample_fetched_states ∧
   sample_fetched_funds ≠ [] ∧ sample_fetched_national ≠ [] ∧
   sample_fetched_states ≠ []) ∧
  ∃ dir,
    FetchDataSeries.fetch_and_save sample_client 7305 ∅ = (dir, 0%Z) ∧
    MergeFinalPanel.written
      (MergeFinalPanel.main (report_written _) dir) !! "analysis_panel.csv"
      = Some (MergeFinalPanel.create_state_panel sample_fetched_states
                sample_fetched_funds sample_fetched_national).
Proof.
  assert (FetchDataSeries.fetch_federal_funds_rate sample_client 7305
          = Ok sample_fetched_funds) as H1 by (vm_compute; reflexivity).
  assert (FetchDataSeries.fetch_national_unemployment_rate sample_client 7305
          = Ok sample_fetched_national) as H2 by (vm_compute; reflexivity).
  assert (FetchDataSeries.fetch_state_unemployment_rates sample_client 7305
          = Ok sample_fetched_states) as H3 by (vm_compute; reflexivity).
  assert (sample_fetched_funds ≠ []) as H4 by discriminate.
  assert (sample_fetched_national ≠ []) as H5 by discriminate.
  assert (sample_fetched_states ≠ []) as H6 by discriminate.
  split; [done|].
  exact (a_complete_fetch_feeds_the_merge sample_client 7305
           (report_written _) ∅ sample_fetched_funds sample_fetched_national
           sample_fetched_states H1 H2 H3 H4 H5 H6).
Defined.

Lemma empty_core_series_is_not_saved_witness :
  (stale_client FetchDataSeries.FEDERAL_FUNDS_RATE_SERIES
     = Ok [ (7000%Z, Some (8 # 1)%Q) ] ∧
   (∀ p, p ∈ [ (7000%Z, Some (8 # 1)%Q) ] → (p.1 < 7305)%Z) ∧
   FetchDataSeries.fetch_national_unemployment_rate stale_client 7305
     = Ok sample_fetched_national ∧
   FetchDataSeries.fetch_state_unemployment_rates stale_client 7305
     = Ok sample_fetched_states) ∧
  ∃ dir,
    FetchDataSeries.fetch_and_save stale_client 7305 ∅ = (dir, 0%Z) ∧
    MergeFinalPanel.main (report_written _) dir
      = {| MergeFinalPanel.written := ∅; MergeFinalPanel.exit_code := 1 |}.
Proof.
  assert (stale_client FetchDataSeries.FEDERAL_FUNDS_RATE_SERIES
          = Ok [ (7000%Z, Some (8 # 1)%Q) ]) as H1
    by (vm_compute; reflexivity).
  assert (∀ p, p ∈ [ (7000%Z, Some (8 # 1)%Q) ] → (p.1 < 7305)%Z) as H2.
  { intros p Hp. apply list_elem_of_singleton in Hp. rewrite Hp. simpl. lia. }
  assert (FetchDataSeries.fetch_national_unemployment_rate stale_client 7305
          = Ok sample_fetched_national) as H3 by (vm_compute; reflexivity).
  assert (FetchDataSeries.fetch_state_unemployment_rates stale_client 7305
          = Ok sample_fetched_states) as H4 by (vm_compute; reflexivity).
  split; [done|].
  destruct (empty_core_series_is_not_saved stale_client 7305
              (report_written _) [ (7000%Z, Some (8 # 1)%Q) ]
              sample_fetched_national sample_fetched_states H1 H2 H3 H4)
    as (dir & Hrun & _ & _ & Hmain).
  by exists dir.
Defined.



Lemma fetched_state_rows_are_sorted_and_unique_witness :
  FetchDataSeries.fetch_state_unemployment_rates sample_client 7305
    = Ok sample_fetched_states ∧
  StronglySorted
    (λ r1 r2, (s_date r1 < s_date r2)%Z ∨
              (s_date r1 = s_date r2 ∧
               String.leb (s_state r1) (s_state r2) = true))
    sample_fetched_states.
Proof.
  assert (FetchDataSeries.fetch_state_unemployment_rates sample_client 7305
          = Ok sample_fetched_states) as H by (vm_compute; reflexivity).
  split; [exact H|].
  exact (proj1 (fetched_state_rows_are_sorted_and_unique sample_client 7305
                  sample_fetched_states H)).
Defined.
